(** * InsulinLog backend: the patient notification state machine

    A shallow embedding of the reminder engine of the backend
    ([jobs/comprehensiveReminderJob.js]), of the daily subscription job
    ([jobs/subscriptionJob.js]) and of the dose-logging controller
    ([controllers/doseController.js], [logDose]), followed by the
    properties of the specification that concern them.

    Conventions of the embedding.
    - A JavaScript [Date] is its time value: milliseconds since the epoch,
      an integer ([Z]).  Local-time accessors ([getHours], [setHours], ...)
      are the ECMAScript ones for a server whose zone has a fixed offset.
    - An optional document field (absent, or [null]) is an [option].
    - The [Patient] collection is a finite map from [_id] to the document;
      [Patient.find] returns the matching documents as they are at query
      time, and the loop body keeps reading that snapshot while
      [findByIdAndUpdate] writes to the stored document.
    - SMS and e-mail delivery are oracles of the environment; every call is
      recorded in the [journal] of the world.
    - One run of a scheduled callback happens at one instant [now]: every
      clock reading during the run returns it.  Store reads and writes
      succeed. *)

From Stdlib Require Import ZArith Bool List Lia.
From stdpp Require Import base option list gmap fin_maps strings pretty.

Local Open Scope Z_scope.

(** ** Time *)

Definition msPerSecond : Z := 1000.
Definition msPerMinute : Z := 60 * 1000.
Definition msPerHour : Z := 60 * 60 * 1000.
Definition msPerDay : Z := 1000 * 60 * 60 * 24.

(** ECMAScript date arithmetic, for a zone at a fixed offset [tz]
    (milliseconds east of UTC). *)
Module JSDate.

Definition LocalTime (tz t : Z) : Z := t + tz.
Definition UTC (tz t : Z) : Z := t - tz.

Definition Day (t : Z) : Z := t / msPerDay.
Definition HourFromTime (t : Z) : Z := (t / msPerHour) mod 24.
Definition MinFromTime (t : Z) : Z := (t / msPerMinute) mod 60.
Definition SecFromTime (t : Z) : Z := (t / msPerSecond) mod 60.
Definition msFromTime (t : Z) : Z := t mod msPerSecond.

Definition MakeTime (hour min sec ms : Z) : Z :=
  hour * msPerHour + min * msPerMinute + sec * msPerSecond + ms.
Definition MakeDate (day time : Z) : Z := day * msPerDay + time.

Definition getHours (tz t : Z) : Z := HourFromTime (LocalTime tz t).
Definition getMinutes (tz t : Z) : Z := MinFromTime (LocalTime tz t).

Definition setHours (tz t hour : Z) : Z :=
  let lt := LocalTime tz t in
  UTC tz (MakeDate (Day lt)
            (MakeTime hour (MinFromTime lt) (SecFromTime lt) (msFromTime lt))).

Definition setMinutes (tz t min : Z) : Z :=
  let lt := LocalTime tz t in
  UTC tz (MakeDate (Day lt)
            (MakeTime (HourFromTime lt) min (SecFromTime lt) (msFromTime lt))).

(** [Math.ceil (a / b)] for integers [a] and a positive integer [b]. *)
Definition ceilDiv (a b : Z) : Z := - ((- a) / b).

End JSDate.

(** ** Documents *)

Definition PatientId : Type := Z.

Inductive Role : Type := RolePatient | RoleAdmin | RoleSuperadmin.

Inductive Cycle : Type := new_user | active_user | inactive_user | admin_notified.

Inductive DeactivationReason : Type :=
| SubscriptionExpired
| ManualMedicalReasons
| ManualCost
| ManualOther
| ManualAccountViolation
| ManualUserRequest
| ManualTechnicalIssue.

Inductive DoseType : Type := Basal | Bolus.

#[global] Instance Role_eq_dec : EqDecision Role.
Proof. solve_decision. Defined.
#[global] Instance Cycle_eq_dec : EqDecision Cycle.
Proof. solve_decision. Defined.
#[global] Instance DeactivationReason_eq_dec : EqDecision DeactivationReason.
Proof. solve_decision. Defined.
#[global] Instance DoseType_eq_dec : EqDecision DoseType.
Proof. solve_decision. Defined.

(** The fields of [models/Patient.js] that the jobs read or write. *)
Record Patient : Type := mkPatient {
  phone : option string;
  isActive : bool;
  role : Role;
  subscriptionExpiry : option Z;
  active : bool;
  verified : bool;
  deactivatedAt : option Z;
  deactivationReason : option DeactivationReason;
  welcomeSmsSent : bool;
  lastDoseTime : option Z;
  nextReminderTime : option Z;
  reminderAttempts : Z;
  lastReminderSent : option Z;
  hasLoggedFirstDose : bool;
  smsReminderCycle : Cycle;
  adminNotifiedDate : option Z;
  lastActivationDate : option Z;
  previousActiveState : option bool;
  welcomeSmsSentAt : option Z;
  date : option Z
}.

(** [models/Dose.js]. *)
Record Dose : Type := mkDose {
  dose_patient : PatientId;
  dose_type : DoseType;
  dose_timestamp : Z
}.

(** The [Admin] model, as far as [sendAdminNotification] queries it. *)
Record Admin : Type := mkAdmin {
  admin_email : string;
  admin_active : bool;
  admin_role : Role
}.

(** JavaScript truthiness of [patient.phone]: a non-empty string. *)
Definition hasPhone (p : Patient) : bool :=
  match phone p with
  | Some EmptyString => false
  | Some _ => true
  | None => false
  end.

(** An update document: the field assignments of one [findByIdAndUpdate]. *)
Inductive FieldUpdate : Type :=
| U_lastDoseTime (v : option Z)
| U_nextReminderTime (v : option Z)
| U_reminderAttempts (v : Z)
| U_lastReminderSent (v : option Z)
| U_hasLoggedFirstDose (v : bool)
| U_smsReminderCycle (v : Cycle)
| U_welcomeSmsSentAt (v : option Z)
| U_adminNotifiedDate (v : option Z)
| U_active (v : bool)
| U_deactivatedAt (v : option Z)
| U_deactivationReason (v : option DeactivationReason).

Definition applyField (u : FieldUpdate) (p : Patient) : Patient :=
  match u with
  | U_lastDoseTime v =>
      mkPatient (phone p) (isActive p) (role p) (subscriptionExpiry p) (active p)
        (verified p) (deactivatedAt p) (deactivationReason p) (welcomeSmsSent p)
        v (nextReminderTime p) (reminderAttempts p) (lastReminderSent p)
        (hasLoggedFirstDose p) (smsReminderCycle p) (adminNotifiedDate p)
        (lastActivationDate p) (previousActiveState p) (welcomeSmsSentAt p) (date p)
  | U_nextReminderTime v =>
      mkPatient (phone p) (isActive p) (role p) (subscriptionExpiry p) (active p)
        (verified p) (deactivatedAt p) (deactivationReason p) (welcomeSmsSent p)
        (lastDoseTime p) v (reminderAttempts p) (lastReminderSent p)
        (hasLoggedFirstDose p) (smsReminderCycle p) (adminNotifiedDate p)
        (lastActivationDate p) (previousActiveState p) (welcomeSmsSentAt p) (date p)
  | U_reminderAttempts v =>
      mkPatient (phone p) (isActive p) (role p) (subscriptionExpiry p) (active p)
        (verified p) (deactivatedAt p) (deactivationReason p) (welcomeSmsSent p)
        (lastDoseTime p) (nextReminderTime p) v (lastReminderSent p)
        (hasLoggedFirstDose p) (smsReminderCycle p) (adminNotifiedDate p)
        (lastActivationDate p) (previousActiveState p) (welcomeSmsSentAt p) (date p)
  | U_lastReminderSent v =>
      mkPatient (phone p) (isActive p) (role p) (subscriptionExpiry p) (active p)
        (verified p) (deactivatedAt p) (deactivationReason p) (welcomeSmsSent p)
        (lastDoseTime p) (nextReminderTime p) (reminderAttempts p) v
        (hasLoggedFirstDose p) (smsReminderCycle p) (adminNotifiedDate p)
        (lastActivationDate p) (previousActiveState p) (welcomeSmsSentAt p) (date p)
  | U_hasLoggedFirstDose v =>
      mkPatient (phone p) (isActive p) (role p) (subscriptionExpiry p) (active p)
        (verified p) (deactivatedAt p) (deactivationReason p) (welcomeSmsSent p)
        (lastDoseTime p) (nextReminderTime p) (reminderAttempts p) (lastReminderSent p)
        v (smsReminderCycle p) (adminNotifiedDate p)
        (lastActivationDate p) (previousActiveState p) (welcomeSmsSentAt p) (date p)
  | U_smsReminderCycle v =>
      mkPatient (phone p) (isActive p) (role p) (subscriptionExpiry p) (active p)
        (verified p) (deactivatedAt p) (deactivationReason p) (welcomeSmsSent p)
        (lastDoseTime p) (nextReminderTime p) (reminderAttempts p) (lastReminderSent p)
        (hasLoggedFirstDose p) v (adminNotifiedDate p)
        (lastActivationDate p) (previousActiveState p) (welcomeSmsSentAt p) (date p)
  | U_welcomeSmsSentAt v =>
      mkPatient (phone p) (isActive p) (role p) (subscriptionExpiry p) (active p)
        (verified p) (deactivatedAt p) (deactivationReason p) (welcomeSmsSent p)
        (lastDoseTime p) (nextReminderTime p) (reminderAttempts p) (lastReminderSent p)
        (hasLoggedFirstDose p) (smsReminderCycle p) (adminNotifiedDate p)
        (lastActivationDate p) (previousActiveState p) v (date p)
  | U_adminNotifiedDate v =>
      mkPatient (phone p) (isActive p) (role p) (subscriptionExpiry p) (active p)
        (verified p) (deactivatedAt p) (deactivationReason p) (welcomeSmsSent p)
        (lastDoseTime p) (nextReminderTime p) (reminderAttempts p) (lastReminderSent p)
        (hasLoggedFirstDose p) (smsReminderCycle p) v
        (lastActivationDate p) (previousActiveState p) (welcomeSmsSentAt p) (date p)
  | U_active v =>
      mkPatient (phone p) (isActive p) (role p) (subscriptionExpiry p) v
        (verified p) (deactivatedAt p) (deactivationReason p) (welcomeSmsSent p)
        (lastDoseTime p) (nextReminderTime p) (reminderAttempts p) (lastReminderSent p)
        (hasLoggedFirstDose p) (smsReminderCycle p) (adminNotifiedDate p)
        (lastActivationDate p) (previousActiveState p) (welcomeSmsSentAt p) (date p)
  | U_deactivatedAt v =>
      mkPatient (phone p) (isActive p) (role p) (subscriptionExpiry p) (active p)
        (verified p) v (deactivationReason p) (welcomeSmsSent p)
        (lastDoseTime p) (nextReminderTime p) (reminderAttempts p) (lastReminderSent p)
        (hasLoggedFirstDose p) (smsReminderCycle p) (adminNotifiedDate p)
        (lastActivationDate p) (previousActiveState p) (welcomeSmsSentAt p) (date p)
  | U_deactivationReason v =>
      mkPatient (phone p) (isActive p) (role p) (subscriptionExpiry p) (active p)
        (verified p) (deactivatedAt p) v (welcomeSmsSent p)
        (lastDoseTime p) (nextReminderTime p) (reminderAttempts p) (lastReminderSent p)
        (hasLoggedFirstDose p) (smsReminderCycle p) (adminNotifiedDate p)
        (lastActivationDate p) (previousActiveState p) (welcomeSmsSentAt p) (date p)
  end.

(** The assignments of one update document name distinct fields; they are
    applied from left to right. *)
Definition applyUpdate (us : list FieldUpdate) (p : Patient) : Patient :=
  fold_left (fun q u => applyField u q) us p.

(** ** The world: collections, journal, environment *)

Inductive SmsOutcome : Type :=
| SmsDelivered   (* the call returned a result with [success: true] *)
| SmsFailed      (* the call returned a result with [success: false] *)
| SmsThrew.      (* the call threw *)

Inductive SmsKind : Type :=
| NewUserReminder (attemptNumber : Z)      (* sendNewUserReminderSMS *)
| DoseReminder (attemptNumber : Z)         (* sendDoseReminderSMS *)
| ThirdReminder                            (* sendThirdReminderSMS *)
| SmartReactivation (subscriptionExpired : bool). (* sendSmartReactivationSMS *)

Inductive SubscriptionMail : Type :=
| ExpiryWarning       (* sendSubscriptionExpiryWarning *)
| ExpiryUrgent        (* sendSubscriptionExpiryUrgent *)
| ExpiredNotification. (* sendSubscriptionExpiredNotification *)

#[global] Instance SmsOutcome_eq_dec : EqDecision SmsOutcome.
Proof. solve_decision. Defined.
#[global] Instance SmsKind_eq_dec : EqDecision SmsKind.
Proof. solve_decision. Defined.
#[global] Instance SubscriptionMail_eq_dec : EqDecision SubscriptionMail.
Proof. solve_decision. Defined.

(** What the delivery services answer.  [sms id kind] is the outcome of the
    SMS of that kind to patient [id]; [adminMail e id] tells whether the
    alert about patient [id] reaches the admin address [e];
    [subscriptionMail id kind] tells whether the subscription e-mail is
    sent ([false]: the mailer throws). *)
Record Env : Type := mkEnv {
  tz : Z;
  sms : PatientId -> SmsKind -> SmsOutcome;
  adminMail : string -> PatientId -> bool;
  subscriptionMail : PatientId -> SubscriptionMail -> bool
}.

(** What the backend does to the outside and to the store, in order: a
    delivery call with its outcome, a [findByIdAndUpdate] on a patient, a
    saved dose. *)
Inductive Event : Type :=
| EvSms (id : PatientId) (kind : SmsKind) (outcome : SmsOutcome)
| EvAdminMail (adminEmail : string) (id : PatientId) (sent : bool)
| EvSubscriptionMail (id : PatientId) (kind : SubscriptionMail) (sent : bool)
| EvUpdate (id : PatientId) (update : list FieldUpdate)
| EvDoseSaved (dose : Dose).

Record World : Type := mkWorld {
  patients : gmap Z Patient;
  doses : list Dose;
  admins : list Admin;
  journal : list Event
}.

Definition emit (e : Event) (w : World) : World :=
  mkWorld (patients w) (doses w) (admins w) (journal w ++ [e]).

(** [Patient.findByIdAndUpdate(id, update)]: no document, no change. *)
Definition findByIdAndUpdate (id : PatientId) (update : list FieldUpdate)
    (w : World) : World :=
  mkWorld (alter (applyUpdate update) id (patients w)) (doses w) (admins w)
    (journal w ++ [EvUpdate id update]).

(** [Patient.find(query)]: the matching documents with their [_id]. *)
Definition find (query : Patient -> bool) (m : gmap Z Patient)
    : list (PatientId * Patient) :=
  map_to_list (filter (fun ip => query ip.2 = true) m).

(** [for (const patient of documents) body]. *)
Definition forEachOf (body : PatientId -> Patient -> World -> World)
    (documents : list (PatientId * Patient)) (w : World) : World :=
  fold_left (fun w' ip => body ip.1 ip.2 w') documents w.

(** [for (const patient of await Patient.find(query)) body]. *)
Definition forEach (query : Patient -> bool)
    (body : PatientId -> Patient -> World -> World) (w : World) : World :=
  forEachOf body (find query (patients w)) w.

(** [Dose.findOne({ patient: id, timestamp: { $gte: t } })] returns a dose. *)
Definition doseSince (ds : list Dose) (id : PatientId) (t : Z) : bool :=
  existsb (fun d => (dose_patient d =? id) && (t <=? dose_timestamp d)) ds.

(** ** jobs/comprehensiveReminderJob.js *)

Definition calculateNextReminderTime (tz lastDoseTime : Z) : Z :=
  let reminderTime := lastDoseTime in
  let reminderTime :=
    JSDate.setHours tz reminderTime (JSDate.getHours tz reminderTime + 23) in
  JSDate.setMinutes tz reminderTime (JSDate.getMinutes tz reminderTime + 30).

Definition calculateSecondReminderTime (tz lastDoseTime : Z) : Z :=
  let reminderTime := lastDoseTime in
  let reminderTime :=
    JSDate.setHours tz reminderTime (JSDate.getHours tz reminderTime + 24) in
  JSDate.setMinutes tz reminderTime (JSDate.getMinutes tz reminderTime + 30).

Definition calculateThirdReminderTime (tz secondReminderTime : Z) : Z :=
  let reminderTime := secondReminderTime in
  JSDate.setHours tz reminderTime (JSDate.getHours tz reminderTime + 24).

(** The dose-event hook. *)
Definition updatePatientReminderData (env : Env) (patientId : PatientId)
    (doseTime : Z) (w : World) : World :=
  match patients w !! patientId with
  | None => w
  | Some _ =>
      let nextReminderTime := calculateNextReminderTime (tz env) doseTime in
      findByIdAndUpdate patientId
        [ U_lastDoseTime (Some doseTime);
          U_nextReminderTime (Some nextReminderTime);
          U_reminderAttempts 0;
          U_lastReminderSent None;
          U_hasLoggedFirstDose true;
          U_smsReminderCycle active_user ] w
  end.

Definition handleReactivation (env : Env) (now : Z) (id : PatientId)
    (patient : Patient) (w : World) : World :=
  let subscriptionExpired :=
    match subscriptionExpiry patient with
    | Some expiry => expiry <=? now
    | None => false
    end in
  let kind := SmartReactivation subscriptionExpired in
  let smsResult := sms env id kind in
  let w := emit (EvSms id kind smsResult) w in
  match smsResult with
  | SmsThrew => w
  | SmsDelivered | SmsFailed =>
      (* the result is only logged; the reset follows in both cases *)
      findByIdAndUpdate id
        [ U_smsReminderCycle new_user;
          U_hasLoggedFirstDose false;
          U_reminderAttempts 0;
          U_lastReminderSent None;
          U_nextReminderTime None;
          U_welcomeSmsSentAt (Some now) ] w
  end.

(** [sendInactiveUserNotificationToAdmins]: one e-mail per address; a
    failure is logged and the loop goes on. *)
Definition sendInactiveUserNotificationToAdmins (env : Env) (id : PatientId)
    (adminEmails : list string) (w : World) : World :=
  fold_left (fun w' e => emit (EvAdminMail e id (adminMail env e id)) w')
    adminEmails w.

Definition sendAdminNotification (env : Env) (now : Z) (id : PatientId)
    (patient : Patient) (w : World) : World :=
  let adminEmails :=
    map admin_email
      (List.filter (fun a => admin_active a && bool_decide (admin_role a = RoleAdmin))
         (admins w)) in
  if (0 <? Z.of_nat (length adminEmails)) then
    let w := sendInactiveUserNotificationToAdmins env id adminEmails w in
    findByIdAndUpdate id
      [ U_adminNotifiedDate (Some now);
        U_smsReminderCycle admin_notified ] w
  else w.

(** [try { r = await send(...); if (r.success) update } catch { log }]. *)
Definition sendThenUpdate (env : Env) (id : PatientId) (kind : SmsKind)
    (update : list FieldUpdate) (w : World) : World :=
  let smsResult := sms env id kind in
  let w := emit (EvSms id kind smsResult) w in
  match smsResult with
  | SmsDelivered => findByIdAndUpdate id update w
  | SmsFailed => w
  | SmsThrew => w
  end.

(** 1. Reactivations. *)
Definition reactivatedQuery (now : Z) (p : Patient) : bool :=
  let twoHoursAgo := now - 2 * 60 * 60 * 1000 in
  active p && verified p
  && bool_decide (previousActiveState p = Some false)
  && match lastActivationDate p with
     | Some lastActivation =>
         (twoHoursAgo <=? lastActivation)
         && match date p with
            | Some created => created <? lastActivation
            | None => true
            end
     | None => false
     end.

Definition reactivationBody (env : Env) (now : Z) (id : PatientId)
    (patient : Patient) (w : World) : World :=
  let lastActivation := lastActivationDate patient in
  let lastHandled := welcomeSmsSentAt patient in
  if match lastHandled with
     | None => true
     | Some handled =>
         match lastActivation with
         | Some activation => handled <? activation
         | None => false
         end
     end
  then handleReactivation env now id patient w
  else w.

(** 2. New users. *)
Definition newUsersQuery (p : Patient) : bool :=
  bool_decide (role p = RolePatient) && active p && verified p
  && bool_decide (smsReminderCycle p = new_user)
  && welcomeSmsSent p
  && bool_decide (is_Some (welcomeSmsSentAt p))
  && negb (hasLoggedFirstDose p)
  && isActive p.

Definition newUserBody (env : Env) (now : Z) (id : PatientId)
    (patient : Patient) (w : World) : World :=
  if negb (hasPhone patient) then w else
  match welcomeSmsSentAt patient with
  | None => w
  | Some welcomeSmsTime =>
      let sixHoursLater := welcomeSmsTime + 6 * 60 * 60 * 1000 in
      let twentyFourHoursLater := welcomeSmsTime + 24 * 60 * 60 * 1000 in
      let w :=
        if (sixHoursLater <=? now) && (reminderAttempts patient =? 0) then
          if negb (doseSince (doses w) id welcomeSmsTime) then
            sendThenUpdate env id (NewUserReminder 1)
              [ U_reminderAttempts 1; U_lastReminderSent (Some now) ] w
          else w
        else w in
      let w :=
        if (twentyFourHoursLater <=? now) && (reminderAttempts patient =? 1) then
          if negb (doseSince (doses w) id sixHoursLater) then
            sendThenUpdate env id (NewUserReminder 2)
              [ U_reminderAttempts 2; U_lastReminderSent (Some now);
                U_smsReminderCycle inactive_user ] w
          else w
        else w in
      w
  end.

(** 3. Active users. *)
Definition activeUsersQuery (p : Patient) : bool :=
  bool_decide (role p = RolePatient) && active p && verified p
  && bool_decide (smsReminderCycle p = active_user)
  && hasLoggedFirstDose p
  && isActive p.

Definition activeUserBody (env : Env) (now : Z) (id : PatientId)
    (patient : Patient) (w : World) : World :=
  if negb (hasPhone patient) then w else
  match lastDoseTime patient with
  | None => w
  | Some lastDoseTime =>
      let firstReminderTime := calculateNextReminderTime (tz env) lastDoseTime in
      let secondReminderTime := calculateSecondReminderTime (tz env) lastDoseTime in
      let thirdReminderTime := calculateThirdReminderTime (tz env) secondReminderTime in
      let w :=
        if (firstReminderTime <=? now) && (reminderAttempts patient =? 0) then
          if negb (doseSince (doses w) id firstReminderTime) then
            sendThenUpdate env id (DoseReminder 1)
              [ U_reminderAttempts 1; U_lastReminderSent (Some now) ] w
          else w
        else w in
      let w :=
        if (secondReminderTime <=? now) && (reminderAttempts patient =? 1) then
          if negb (doseSince (doses w) id secondReminderTime) then
            sendThenUpdate env id (DoseReminder 2)
              [ U_reminderAttempts 2; U_lastReminderSent (Some now) ] w
          else w
        else w in
      let w :=
        if (thirdReminderTime <=? now) && (reminderAttempts patient =? 2) then
          if negb (doseSince (doses w) id thirdReminderTime) then
            sendThenUpdate env id ThirdReminder
              [ U_reminderAttempts 3; U_lastReminderSent (Some now);
                U_smsReminderCycle inactive_user ] w
          else w
        else w in
      w
  end.

(** 4. Inactive users, for the admin alert. *)
Definition inactiveUsersQuery (p : Patient) : bool :=
  bool_decide (role p = RolePatient) && active p && verified p
  && bool_decide (smsReminderCycle p = inactive_user)
  && (reminderAttempts p =? 3)
  && bool_decide (adminNotifiedDate p = None)
  && isActive p.

(** One run of the callback that [scheduleComprehensiveReminderJob]
    schedules every 30 minutes. *)
Definition scheduleComprehensiveReminderJob (env : Env) (now : Z) (w : World)
    : World :=
  let w := forEach (reactivatedQuery now) (reactivationBody env now) w in
  let w := forEach newUsersQuery (newUserBody env now) w in
  let w := forEach activeUsersQuery (activeUserBody env now) w in
  let w := forEach inactiveUsersQuery (sendAdminNotification env now) w in
  w.

(** ** jobs/subscriptionJob.js *)

(** The outcome of a block that may throw: the world when it completed, or
    the world at the point of the throw. *)
Inductive Completion : Type :=
| Normal (w : World)
| Thrown (w : World).

Definition andThen (c : Completion) (k : World -> Completion) : Completion :=
  match c with
  | Normal w => k w
  | Thrown w => Thrown w
  end.

Notation "c >>> k" := (andThen c k) (at level 50, left associativity).

(** [try { block } catch (e) { console.error(...) }]. *)
Definition tryCatch (c : Completion) : World :=
  match c with
  | Normal w => w
  | Thrown w => w
  end.

(** [await sendSubscription...(patient.email, ...)]. *)
Definition awaitSubscriptionMail (env : Env) (id : PatientId)
    (kind : SubscriptionMail) (w : World) : Completion :=
  let sent := subscriptionMail env id kind in
  let w := emit (EvSubscriptionMail id kind sent) w in
  if sent then Normal w else Thrown w.

Definition daysUntilExpiry (now expiryDate : Z) : Z :=
  let timeDiff := expiryDate - now in
  JSDate.ceilDiv timeDiff (1000 * 60 * 60 * 24).

Definition subscriptionQuery (p : Patient) : bool :=
  active p && verified p && isActive p
  && bool_decide (is_Some (subscriptionExpiry p)).

Definition subscriptionBody (env : Env) (now : Z) (id : PatientId)
    (patient : Patient) (w : World) : World :=
  match subscriptionExpiry patient with
  | None => w
  | Some expiryDate =>
      let days := daysUntilExpiry now expiryDate in
      tryCatch
        (if days =? 7 then
           awaitSubscriptionMail env id ExpiryWarning w
         else if days =? 1 then
           awaitSubscriptionMail env id ExpiryUrgent w
         else if days <=? 0 then
           (if days =? 0 then
              awaitSubscriptionMail env id ExpiredNotification w
            else Normal w)
           >>> (fun w =>
           Normal
             (if active patient then
                findByIdAndUpdate id
                  [ U_active false;
                    U_deactivatedAt (Some now);
                    U_deactivationReason (Some SubscriptionExpired) ] w
              else w))
         else Normal w)
  end.

(** One run of the callback that [scheduleSubscriptionJob] schedules daily. *)
Definition scheduleSubscriptionJob (env : Env) (now : Z) (w : World) : World :=
  forEach subscriptionQuery (subscriptionBody env now) w.

(** ** controllers/doseController.js *)

(** The body of [POST /api/doses] after validation, with the authenticated
    patient. *)
Record DoseRequest : Type := mkDoseRequest {
  req_user : PatientId;
  req_type : DoseType;
  req_timestamp : Z
}.

(** The later of the best Basal dose of the patient so far and the dose
    [d]. *)
Definition pickLater (patientId : PatientId) (best : option Dose) (d : Dose)
    : option Dose :=
  if (dose_patient d =? patientId) && bool_decide (dose_type d = Basal) then
    match best with
    | Some b => if dose_timestamp b <? dose_timestamp d then Some d else Some b
    | None => Some d
    end
  else best.

(** [Dose.findOne({ patient, type: "Basal" }).sort({ timestamp: -1 })]. *)
Definition lastBasalDose (ds : list Dose) (patientId : PatientId) : option Dose :=
  fold_left (pickLater patientId) ds None.

(** [newDose.save()]. *)
Definition saveDose (d : Dose) (w : World) : World :=
  mkWorld (patients w) (doses w ++ [d]) (admins w) (journal w ++ [EvDoseSaved d]).

(** [logDose]: the HTTP status and the resulting world.  The test
    [hoursDifference < 20], a quotient of a millisecond difference by
    [1000 * 60 * 60], is the same test on the milliseconds. *)
Definition logDose (env : Env) (req : DoseRequest) (w : World) : Z * World :=
  let patientId := req_user req in
  let restricted :=
    match lastBasalDose (doses w) patientId with
    | Some last =>
        let lastBasalTime := dose_timestamp last in
        let currentTime := req_timestamp req in
        currentTime - lastBasalTime <? 20 * (1000 * 60 * 60)
    | None => false
    end in
  if restricted then (400, w)
  else
    let newDose := mkDose patientId (req_type req) (req_timestamp req) in
    let w := saveDose newDose w in
    let w := updatePatientReminderData env patientId (dose_timestamp newDose) w in
    (201, w).

(** ** Notions used in the statements *)

(** The patient an event is about. *)
Definition eventPatient (e : Event) : PatientId :=
  match e with
  | EvSms id _ _ => id
  | EvAdminMail _ id _ => id
  | EvSubscriptionMail id _ _ => id
  | EvUpdate id _ => id
  | EvDoseSaved d => dose_patient d
  end.

(** The part of a journal that is about patient [id]. *)
Definition eventsFor (id : PatientId) (j : list Event) : list Event :=
  List.filter (fun e => eventPatient e =? id) j.

(** The effect of a loop body on the world: one update of the document
    [id] and some journal entries. *)
Definition effect (id : PatientId) (us : list FieldUpdate) (evs : list Event)
    (w : World) : World :=
  mkWorld (alter (applyUpdate us) id (patients w)) (doses w) (admins w)
    (journal w ++ evs).

(** [f] acts on the document [id] only, and what it does is determined by
    the doses and the admins of the world it runs in. *)
Definition LocalAt (id : PatientId) (ds : list Dose) (ads : list Admin)
    (f : World -> World) : Prop :=
  exists (us : list FieldUpdate) (evs : list Event),
    Forall (fun e => eventPatient e = id) evs /\
    (forall w, doses w = ds -> admins w = ads -> f w = effect id us evs w).

(** The shape shared by the five reminder blocks of the scan. *)
Definition reminderBlock (env : Env) (id : PatientId) (due : bool) (since : Z)
    (kind : SmsKind) (update : list FieldUpdate) (w : World) : World :=
  if due then
    if negb (doseSince (doses w) id since) then
      sendThenUpdate env id kind update w
    else w
  else w.

(** The world in which [id], with document [p], is the only patient. *)
Definition solo (id : PatientId) (p : Patient) (ds : list Dose)
    (ads : list Admin) (j : list Event) : World :=
  mkWorld {[ id := p ]} ds ads j.

(** The view of a world from patient [id]. *)
Definition viewOf (id : PatientId) (p : Patient) (w : World) : World :=
  solo id p (doses w) (admins w) (eventsFor id (journal w)).

(** What a reminder SMS followed by its update does to the document of the
    patient, and what it leaves in the journal. *)
Definition sent (env : Env) (id : PatientId) (kind : SmsKind)
    (update : list FieldUpdate) (p : Patient) : Patient * list Event :=
  match sms env id kind with
  | SmsDelivered =>
      (applyUpdate update p, [EvSms id kind SmsDelivered; EvUpdate id update])
  | SmsFailed => (p, [EvSms id kind SmsFailed])
  | SmsThrew => (p, [EvSms id kind SmsThrew])
  end.

(** The reminder that is due for a document read by the scan of cycle [c],
    with the update that follows a delivery: the transition table of the
    state machine. *)
Inductive Due (now : Z) (ds : list Dose) (id : PatientId) (p : Patient)
    : Cycle -> SmsKind -> list FieldUpdate -> Prop :=
| Due_newUser6h (t : Z) :
    newUsersQuery p = true -> hasPhone p = true ->
    welcomeSmsSentAt p = Some t ->
    t + 6 * msPerHour <= now -> reminderAttempts p = 0 ->
    doseSince ds id t = false ->
    Due now ds id p new_user (NewUserReminder 1)
      [ U_reminderAttempts 1; U_lastReminderSent (Some now) ]
| Due_newUser24h (t : Z) :
    newUsersQuery p = true -> hasPhone p = true ->
    welcomeSmsSentAt p = Some t ->
    t + 24 * msPerHour <= now -> reminderAttempts p = 1 ->
    doseSince ds id (t + 6 * msPerHour) = false ->
    Due now ds id p new_user (NewUserReminder 2)
      [ U_reminderAttempts 2; U_lastReminderSent (Some now);
        U_smsReminderCycle inactive_user ]
| Due_first (t : Z) :
    activeUsersQuery p = true -> hasPhone p = true ->
    lastDoseTime p = Some t ->
    t + (23 * msPerHour + 30 * msPerMinute) <= now -> reminderAttempts p = 0 ->
    doseSince ds id (t + (23 * msPerHour + 30 * msPerMinute)) = false ->
    Due now ds id p active_user (DoseReminder 1)
      [ U_reminderAttempts 1; U_lastReminderSent (Some now) ]
| Due_second (t : Z) :
    activeUsersQuery p = true -> hasPhone p = true ->
    lastDoseTime p = Some t ->
    t + (24 * msPerHour + 30 * msPerMinute) <= now -> reminderAttempts p = 1 ->
    doseSince ds id (t + (24 * msPerHour + 30 * msPerMinute)) = false ->
    Due now ds id p active_user (DoseReminder 2)
      [ U_reminderAttempts 2; U_lastReminderSent (Some now) ]
| Due_final (t : Z) :
    activeUsersQuery p = true -> hasPhone p = true ->
    lastDoseTime p = Some t ->
    t + (48 * msPerHour + 30 * msPerMinute) <= now -> reminderAttempts p = 2 ->
    doseSince ds id (t + (48 * msPerHour + 30 * msPerMinute)) = false ->
    Due now ds id p active_user ThirdReminder
      [ U_reminderAttempts 3; U_lastReminderSent (Some now);
        U_smsReminderCycle inactive_user ].

(** One scan of cycle [c], seen from one patient: nothing, or the reminder
    that is due. *)
Inductive SendStep (env : Env) (now : Z) (ds : list Dose) (id : PatientId)
    (c : Cycle) (p : Patient) : Patient -> list Event -> Prop :=
| Send_none :
    (forall kind us, ~ Due now ds id p c kind us) ->
    SendStep env now ds id c p p []
| Send_due (kind : SmsKind) (us : list FieldUpdate) :
    Due now ds id p c kind us ->
    SendStep env now ds id c p (sent env id kind us p).1 (sent env id kind us p).2.

(** The guard of the reactivation handling: the query and the test of the
    loop. *)
Definition reactivationDue (now : Z) (p : Patient) : bool :=
  reactivatedQuery now p
  && match welcomeSmsSentAt p with
     | None => true
     | Some handled =>
         match lastActivationDate p with
         | Some activation => handled <? activation
         | None => false
         end
     end.

Definition reactivationKind (now : Z) (p : Patient) : SmsKind :=
  SmartReactivation
    match subscriptionExpiry p with
    | Some expiry => expiry <=? now
    | None => false
    end.

Definition reactivationReset (now : Z) : list FieldUpdate :=
  [ U_smsReminderCycle new_user;
    U_hasLoggedFirstDose false;
    U_reminderAttempts 0;
    U_lastReminderSent None;
    U_nextReminderTime None;
    U_welcomeSmsSentAt (Some now) ].

Inductive ReactivationStep (env : Env) (now : Z) (id : PatientId) (p : Patient)
    : Patient -> list Event -> Prop :=
| React_none :
    reactivationDue now p = false ->
    ReactivationStep env now id p p []
| React_threw :
    reactivationDue now p = true ->
    sms env id (reactivationKind now p) = SmsThrew ->
    ReactivationStep env now id p p [EvSms id (reactivationKind now p) SmsThrew]
| React_reset (o : SmsOutcome) :
    reactivationDue now p = true ->
    sms env id (reactivationKind now p) = o -> o <> SmsThrew ->
    ReactivationStep env now id p (applyUpdate (reactivationReset now) p)
      [ EvSms id (reactivationKind now p) o; EvUpdate id (reactivationReset now) ].

(** The addresses the admin alert goes to. *)
Definition adminEmailsOf (ads : list Admin) : list string :=
  map admin_email
    (List.filter (fun a => admin_active a && bool_decide (admin_role a = RoleAdmin))
       ads).

Definition adminNotified (now : Z) : list FieldUpdate :=
  [ U_adminNotifiedDate (Some now); U_smsReminderCycle admin_notified ].

Inductive AdminStep (env : Env) (now : Z) (ads : list Admin) (id : PatientId)
    (p : Patient) : Patient -> list Event -> Prop :=
| Admin_none :
    inactiveUsersQuery p = false \/ adminEmailsOf ads = [] ->
    AdminStep env now ads id p p []
| Admin_alert :
    inactiveUsersQuery p = true -> adminEmailsOf ads <> [] ->
    AdminStep env now ads id p (applyUpdate (adminNotified now) p)
      (map (fun e => EvAdminMail e id (adminMail env e id)) (adminEmailsOf ads)
       ++ [EvUpdate id (adminNotified now)]).

(** One run of the reminder job, seen from one patient. *)
Inductive TickSteps (env : Env) (now : Z) (ds : list Dose) (ads : list Admin)
    (id : PatientId) (p : Patient) : Patient -> list Event -> Prop :=
| TickSteps_intro (p1 p2 p3 p4 : Patient) (e1 e2 e3 e4 : list Event) :
    ReactivationStep env now id p p1 e1 ->
    SendStep env now ds id new_user p1 p2 e2 ->
    SendStep env now ds id active_user p2 p3 e3 ->
    AdminStep env now ads id p3 p4 e4 ->
    TickSteps env now ds ads id p p4 (e1 ++ e2 ++ e3 ++ e4).

(** The entries about patient [id] that a run from [W] to [W'] added to the
    journal. *)
Definition newEvents (id : PatientId) (W W' : World) : list Event :=
  drop (length (eventsFor id (journal W))) (eventsFor id (journal W')).

(** A reminder SMS: one of the five sends of the reminder ladder. *)
Definition isReminderSms (e : Event) : bool :=
  match e with
  | EvSms _ (NewUserReminder _) _ => true
  | EvSms _ (DoseReminder _) _ => true
  | EvSms _ ThirdReminder _ => true
  | _ => false
  end.

Definition isReactivationSms (e : Event) : bool :=
  match e with
  | EvSms _ (SmartReactivation _) _ => true
  | _ => false
  end.

Definition isSms (e : Event) : bool :=
  match e with
  | EvSms _ _ _ => true
  | _ => false
  end.

Definition isAdminMail (e : Event) : bool :=
  match e with
  | EvAdminMail _ _ _ => true
  | _ => false
  end.

(** The update document of the dose-event hook. *)
Definition doseLogged (env : Env) (doseTime : Z) : list FieldUpdate :=
  [ U_lastDoseTime (Some doseTime);
    U_nextReminderTime (Some (calculateNextReminderTime (tz env) doseTime));
    U_reminderAttempts 0;
    U_lastReminderSent None;
    U_hasLoggedFirstDose true;
    U_smsReminderCycle active_user ].

(** The operations that write reminder state: a run of the reminder job and
    a dose-log request. *)
Inductive Operation : Type :=
| OpTick (env : Env) (now : Z)
| OpLogDose (env : Env) (req : DoseRequest).

Definition run (op : Operation) (W : World) : World :=
  match op with
  | OpTick env now => scheduleComprehensiveReminderJob env now W
  | OpLogDose env req => (logDose env req W).2
  end.

(** [d] is a Basal dose of patient [id]. *)
Definition basalOf (id : PatientId) (d : Dose) : Prop :=
  dose_patient d = id /\ dose_type d = Basal.

(** What the search for the last Basal dose knows after the doses [seen]. *)
Definition bestAmong (id : PatientId) (seen : list Dose) (best : option Dose)
    : Prop :=
  match best with
  | Some b =>
      In b seen /\ basalOf id b /\
      forall d, In d seen -> basalOf id d -> dose_timestamp d <= dose_timestamp b
  | None => forall d, In d seen -> ~ basalOf id d
  end.



(** The update that deactivates an expired account. *)
Definition deactivated (now : Z) : list FieldUpdate :=
  [ U_active false;
    U_deactivatedAt (Some now);
    U_deactivationReason (Some SubscriptionExpired) ].

(** Sample data. *)
Module Sample.

(** Services that answer every SMS with [answer] and send every e-mail iff
    [mail]; the server is in UTC. *)
Definition env (answer : SmsOutcome) (mail : bool) : Env :=
  mkEnv 0 (fun _ _ => answer) (fun _ _ => mail) (fun _ _ => mail).

(** A verified, active patient, registered at time -5000 and welcomed at time
    -1000, who logged a dose at time 0. *)
Definition dosed : Patient :=
  {| phone := Some "0241234567"%string;
     isActive := true;
     role := RolePatient;
     subscriptionExpiry := None;
     active := true;
     verified := true;
     deactivatedAt := None;
     deactivationReason := None;
     welcomeSmsSent := true;
     lastDoseTime := Some 0;
     nextReminderTime := Some (23 * msPerHour + 30 * msPerMinute);
     reminderAttempts := 0;
     lastReminderSent := None;
     hasLoggedFirstDose := true;
     smsReminderCycle := active_user;
     adminNotifiedDate := None;
     lastActivationDate := None;
     previousActiveState := None;
     welcomeSmsSentAt := Some (-1000);
     date := Some (-5000) |}.

(** A verified, active patient, registered at time -5000 and welcomed at time
    0, who has not logged a dose. *)
Definition fresh : Patient :=
  {| phone := Some "0241234567"%string;
     isActive := true;
     role := RolePatient;
     subscriptionExpiry := None;
     active := true;
     verified := true;
     deactivatedAt := None;
     deactivationReason := None;
     welcomeSmsSent := true;
     lastDoseTime := None;
     nextReminderTime := None;
     reminderAttempts := 0;
     lastReminderSent := None;
     hasLoggedFirstDose := false;
     smsReminderCycle := new_user;
     adminNotifiedDate := None;
     lastActivationDate := None;
     previousActiveState := None;
     welcomeSmsSentAt := Some 0;
     date := Some (-5000) |}.

(** [p], reactivated by an admin at time [t]. *)
Definition reactivatedAt (t : Z) (p : Patient) : Patient :=
  {| phone := phone p;
     isActive := isActive p;
     role := role p;
     subscriptionExpiry := subscriptionExpiry p;
     active := active p;
     verified := verified p;
     deactivatedAt := deactivatedAt p;
     deactivationReason := deactivationReason p;
     welcomeSmsSent := welcomeSmsSent p;
     lastDoseTime := lastDoseTime p;
     nextReminderTime := nextReminderTime p;
     reminderAttempts := reminderAttempts p;
     lastReminderSent := lastReminderSent p;
     hasLoggedFirstDose := hasLoggedFirstDose p;
     smsReminderCycle := smsReminderCycle p;
     adminNotifiedDate := adminNotifiedDate p;
     lastActivationDate := Some t;
     previousActiveState := Some false;
     welcomeSmsSentAt := welcomeSmsSentAt p;
     date := date p |}.

(** [p], with the account created at time [t]. *)
Definition createdAt (t : Z) (p : Patient) : Patient :=
  {| phone := phone p;
     isActive := isActive p;
     role := role p;
     subscriptionExpiry := subscriptionExpiry p;
     active := active p;
     verified := verified p;
     deactivatedAt := deactivatedAt p;
     deactivationReason := deactivationReason p;
     welcomeSmsSent := welcomeSmsSent p;
     lastDoseTime := lastDoseTime p;
     nextReminderTime := nextReminderTime p;
     reminderAttempts := reminderAttempts p;
     lastReminderSent := lastReminderSent p;
     hasLoggedFirstDose := hasLoggedFirstDose p;
     smsReminderCycle := smsReminderCycle p;
     adminNotifiedDate := adminNotifiedDate p;
     lastActivationDate := lastActivationDate p;
     previousActiveState := previousActiveState p;
     welcomeSmsSentAt := welcomeSmsSentAt p;
     date := Some t |}.

(** [p], without a phone number. *)
Definition withoutPhone (p : Patient) : Patient :=
  {| phone := None;
     isActive := isActive p;
     role := role p;
     subscriptionExpiry := subscriptionExpiry p;
     active := active p;
     verified := verified p;
     deactivatedAt := deactivatedAt p;
     deactivationReason := deactivationReason p;
     welcomeSmsSent := welcomeSmsSent p;
     lastDoseTime := lastDoseTime p;
     nextReminderTime := nextReminderTime p;
     reminderAttempts := reminderAttempts p;
     lastReminderSent := lastReminderSent p;
     hasLoggedFirstDose := hasLoggedFirstDose p;
     smsReminderCycle := smsReminderCycle p;
     adminNotifiedDate := adminNotifiedDate p;
     lastActivationDate := lastActivationDate p;
     previousActiveState := previousActiveState p;
     welcomeSmsSentAt := welcomeSmsSentAt p;
     date := date p |}.

(** [p], with a subscription that expires at time [t]. *)
Definition expiringAt (t : Z) (p : Patient) : Patient :=
  {| phone := phone p;
     isActive := isActive p;
     role := role p;
     subscriptionExpiry := Some t;
     active := active p;
     verified := verified p;
     deactivatedAt := deactivatedAt p;
     deactivationReason := deactivationReason p;
     welcomeSmsSent := welcomeSmsSent p;
     lastDoseTime := lastDoseTime p;
     nextReminderTime := nextReminderTime p;
     reminderAttempts := reminderAttempts p;
     lastReminderSent := lastReminderSent p;
     hasLoggedFirstDose := hasLoggedFirstDose p;
     smsReminderCycle := smsReminderCycle p;
     adminNotifiedDate := adminNotifiedDate p;
     lastActivationDate := lastActivationDate p;
     previousActiveState := previousActiveState p;
     welcomeSmsSentAt := welcomeSmsSentAt p;
     date := date p |}.

Definition admin1 : Admin := mkAdmin "admin@insulinlog.com"%string true RoleAdmin.

(** The world of patient 7 with document [p]: no dose on record, one admin,
    an empty journal. *)
Definition world (p : Patient) : World := mkWorld {[ 7 := p ]} [] [admin1] [].

End Sample.

(** ** Runs of the reminder job *)

(** The fields of the document that the reminder job only reads. *)
Definition sameAccount (p p' : Patient) : Prop :=
  phone p' = phone p /\ isActive p' = isActive p /\ role p' = role p
  /\ subscriptionExpiry p' = subscriptionExpiry p /\ active p' = active p
  /\ verified p' = verified p /\ deactivatedAt p' = deactivatedAt p
  /\ deactivationReason p' = deactivationReason p
  /\ welcomeSmsSent p' = welcomeSmsSent p /\ lastDoseTime p' = lastDoseTime p
  /\ lastActivationDate p' = lastActivationDate p
  /\ previousActiveState p' = previousActiveState p /\ date p' = date p.

(** Successive runs of the reminder job, each with the answers of the
    services during that run and its instant. *)
Definition ticks (rs : list (Env * Z)) (W : World) : World :=
  fold_left (fun w r => scheduleComprehensiveReminderJob r.1 r.2 w) rs W.

(** ** jobs/subscriptionJob.js: the manual check *)

(** [checkSubscriptionStatus], which [checkAllSubscriptions] of the admin
    controller calls on [POST /api/admin/check-subscriptions]. *)
Module Manual.

(** The report.  An entry of [errors] names the patient whose e-mail
    failed (in the code by the e-mail address, which is unique). *)
Record Results : Type := mkResults {
  totalChecked : Z;
  sevenDayWarnings : Z;
  oneDayWarnings : Z;
  expired : Z;
  deactivated : Z;
  errors : list PatientId
}.

Definition query (p : Patient) : bool :=
  active p && verified p
  && bool_decide (is_Some (subscriptionExpiry p))
  && (bool_decide (deactivationReason p = None)
      || bool_decide (deactivationReason p = Some SubscriptionExpired)).

(** [results.sevenDayWarnings++] and the like. *)
Definition countSevenDay (r : Results) : Results :=
  mkResults (totalChecked r) (sevenDayWarnings r + 1) (oneDayWarnings r)
    (expired r) (deactivated r) (errors r).
Definition countOneDay (r : Results) : Results :=
  mkResults (totalChecked r) (sevenDayWarnings r) (oneDayWarnings r + 1)
    (expired r) (deactivated r) (errors r).
Definition countExpired (r : Results) : Results :=
  mkResults (totalChecked r) (sevenDayWarnings r) (oneDayWarnings r)
    (expired r + 1) (deactivated r) (errors r).
Definition countDeactivated (r : Results) : Results :=
  mkResults (totalChecked r) (sevenDayWarnings r) (oneDayWarnings r)
    (expired r) (deactivated r + 1) (errors r).
(** [results.errors.push({ patientEmail, error })] in the [catch]. *)
Definition pushError (id : PatientId) (r : Results) : Results :=
  mkResults (totalChecked r) (sevenDayWarnings r) (oneDayWarnings r)
    (expired r) (deactivated r) (errors r ++ [id]).

(** [if (patient.active) { await findByIdAndUpdate(...); results.deactivated++ }]. *)
Definition deactivate (now : Z) (id : PatientId) (patient : Patient)
    (s : Results * World) : Results * World :=
  if active patient then
    (countDeactivated s.1,
     findByIdAndUpdate id
       [ U_active false;
         U_deactivatedAt (Some now);
         U_deactivationReason (Some SubscriptionExpired) ] s.2)
  else s.

(** [await send(...); count] inside the [try]: when the mailer throws, the
    [catch] records the error and the rest of the block is skipped. *)
Definition mailThen (env : Env) (id : PatientId) (kind : SubscriptionMail)
    (count : Results -> Results) (rest : Results * World -> Results * World)
    (s : Results * World) : Results * World :=
  let sent := subscriptionMail env id kind in
  let w := emit (EvSubscriptionMail id kind sent) s.2 in
  if sent then rest (count s.1, w) else (pushError id s.1, w).

Definition body (env : Env) (now : Z) (id : PatientId) (patient : Patient)
    (s : Results * World) : Results * World :=
  match subscriptionExpiry patient with
  | None => s
  | Some expiryDate =>
      let days := daysUntilExpiry now expiryDate in
      if days =? 7 then
        mailThen env id ExpiryWarning countSevenDay (fun s => s) s
      else if days =? 1 then
        mailThen env id ExpiryUrgent countOneDay (fun s => s) s
      else if days <=? 0 then
        if days =? 0 then
          mailThen env id ExpiredNotification countExpired
            (deactivate now id patient) s
        else deactivate now id patient s
      else s
  end.

Definition checkSubscriptionStatus (env : Env) (now : Z) (w : World)
    : Results * World :=
  let found := find query (patients w) in
  let results := mkResults (Z.of_nat (length found)) 0 0 0 0 [] in
  fold_left (fun s ip => body env now ip.1 ip.2 s) found (results, w).

End Manual.

(** The entries that a run from [W] to [W'] added to the journal. *)
Definition added (W W' : World) : list Event :=
  drop (length (journal W)) (journal W').

(** The number of entries of a journal that satisfy [f]. *)
Definition count (f : Event -> bool) (j : list Event) : Z :=
  Z.of_nat (length (List.filter f j)).

Definition isMailSent (kind : SubscriptionMail) (e : Event) : bool :=
  match e with
  | EvSubscriptionMail _ k true => bool_decide (k = kind)
  | _ => false
  end.

Definition isMailFailed (e : Event) : bool :=
  match e with
  | EvSubscriptionMail _ _ false => true
  | _ => false
  end.

Definition isUpdate (e : Event) : bool :=
  match e with
  | EvUpdate _ _ => true
  | _ => false
  end.


Definition isSubscriptionMail (e : Event) : bool :=
  match e with
  | EvSubscriptionMail _ _ _ => true
  | _ => false
  end.


(** What one turn of the loop adds to the journal and to the report. *)
Definition reported (r r' : Manual.Results) (evs : list Event) : Prop :=
  Manual.totalChecked r' = Manual.totalChecked r
  /\ Manual.sevenDayWarnings r'
     = Manual.sevenDayWarnings r + count (isMailSent ExpiryWarning) evs
  /\ Manual.oneDayWarnings r'
     = Manual.oneDayWarnings r + count (isMailSent ExpiryUrgent) evs
  /\ Manual.expired r'
     = Manual.expired r + count (isMailSent ExpiredNotification) evs
  /\ Manual.deactivated r' = Manual.deactivated r + count isUpdate evs
  /\ Z.of_nat (length (Manual.errors r'))
     = Z.of_nat (length (Manual.errors r)) + count isMailFailed evs.

(** ** utils/smsService.js *)

Module SmsService.

(** A JavaScript string is the list of its UTF-16 code units. *)
Definition JSString : Type := list Z.

(** The JavaScript string of an ASCII literal. *)
Definition str (s : string) : JSString :=
  map (fun a => Z.of_nat (Ascii.nat_of_ascii a)) (String.list_ascii_of_string s).

(** The class [\s] of a regular expression: the WhiteSpace and
    LineTerminator code points of ECMAScript. *)
Definition isWhiteSpace (c : Z) : bool :=
  (c =? 9) || (c =? 10) || (c =? 11) || (c =? 12) || (c =? 13) || (c =? 32)
  || (c =? 160) || (c =? 5760) || ((8192 <=? c) && (c <=? 8202))
  || (c =? 8232) || (c =? 8233) || (c =? 8239) || (c =? 8287)
  || (c =? 12288) || (c =? 65279).

(** The class [[\s\-\+]]. *)
Definition isSeparator (c : Z) : bool :=
  isWhiteSpace c || (c =? 45) || (c =? 43).

(** [s.replace(/[\s\-\+]/g, "")]. *)
Definition removeSeparators (s : JSString) : JSString :=
  List.filter (fun c => negb (isSeparator c)) s.

(** [s.startsWith(prefix)]. *)
Fixpoint startsWith (prefix s : JSString) : bool :=
  match prefix, s with
  | [], _ => true
  | _ :: _, [] => false
  | c :: prefix', d :: s' => (c =? d) && startsWith prefix' s'
  end.

(** The recipient that [sendSMS] computes from [phoneNumber]. *)
Definition finalPhone (phoneNumber : JSString) : JSString :=
  let formattedPhone := removeSeparators phoneNumber in
  if startsWith (str "0") formattedPhone then
    str "233" ++ drop 1 formattedPhone
  else if negb (startsWith (str "233") formattedPhone) then
    str "233" ++ formattedPhone
  else formattedPhone.

(** The environment variables that [sendSMS] reads; [FISH_AFRICA_TIMEOUT]
    is the value that [parseInt] returns for it ([None]: [NaN]). *)
Record Config : Type := mkConfig {
  SMS_ENABLED : option JSString;
  FISH_AFRICA_API_URL : option JSString;
  FISH_AFRICA_APP_ID : option JSString;
  FISH_AFRICA_APP_SECRET : option JSString;
  FISH_AFRICA_SENDER_ID : option JSString;
  FISH_AFRICA_TIMEOUT : option Z
}.

(** [x || fallback] for a string that may be [undefined]. *)
Definition orElse (x : option JSString) (fallback : JSString) : JSString :=
  match x with
  | Some (c :: s) => c :: s
  | Some [] => fallback
  | None => fallback
  end.

(** [!x] for a string that may be [undefined]. *)
Definition missing (x : option JSString) : bool :=
  match x with
  | Some (_ :: _) => false
  | Some [] => true
  | None => true
  end.

(** The request that [axios.post] receives. *)
Record Request : Type := mkRequest {
  url : JSString;
  authorization : JSString;
  sender_id : JSString;
  message : JSString;
  recipients : list JSString;
  timeout : Z
}.

(** What [axios.post] does: it resolves with a response of some status, or
    it throws. *)
Inductive Answer : Type :=
| Responded (status : Z)
| Threw.

(** [sendSMS]: the [success] field of the result, and the requests made.
    Every throw inside the function is caught by its own [catch], which
    returns an unsuccessful result. *)
Definition sendSMS (cfg : Config) (post : Request -> Answer)
    (phoneNumber : option JSString) (message : JSString)
    : bool * list Request :=
  if bool_decide (SMS_ENABLED cfg = Some (str "false")) then (true, [])
  else
    match phoneNumber with
    | None => (false, [])   (* [phoneNumber.replace] throws a TypeError *)
    | Some phoneNumber =>
        let finalPhone := finalPhone phoneNumber in
        let fishAfricaApiUrl :=
          orElse (FISH_AFRICA_API_URL cfg) (str "https://api.letsfish.africa/v1/sms") in
        let appId := FISH_AFRICA_APP_ID cfg in
        let appSecret := FISH_AFRICA_APP_SECRET cfg in
        let senderId := orElse (FISH_AFRICA_SENDER_ID cfg) (str "CimonsTech") in
        if missing appId || missing appSecret then (false, [])
        else
          let bearerToken := orElse appId [] ++ str "." ++ orElse appSecret [] in
          let timeout :=
            match FISH_AFRICA_TIMEOUT cfg with
            | Some t => if t =? 0 then 30000 else t
            | None => 30000
            end in
          let request :=
            mkRequest fishAfricaApiUrl (str "Bearer " ++ bearerToken) senderId
              message [finalPhone] timeout in
          match post request with
          | Responded status =>
              if (status =? 200) || (status =? 201) || (status =? 202)
              then (true, [request])
              else (false, [request])
          | Threw => (false, [request])
          end
    end.

End SmsService.

(** ** The phone number patterns of the validators *)

Module Validation.
Import SmsService.

Definition isDigit (c : Z) : bool := (48 <=? c) && (c <=? 57).

(** [n] digits and nothing else: the pattern [[0-9]{n}$], and [\d{n}$]. *)
Definition digits (n : nat) (s : JSString) : bool :=
  (length s =? n)%nat && forallb isDigit s.

(** [/^(\+233|0)[0-9]{9}$/.test(s)], the pattern of [validateUserRegistration]
    and of [validateAdminCreation]. *)
Definition ghanaPhone (s : JSString) : bool :=
  (startsWith (str "+233") s && digits 9 (drop 4 s))
  || (startsWith (str "0") s && digits 9 (drop 1 s)).

(** [/^\d{10}$/.test(s)], the pattern of [PUT /api/users/update-profile/:id]. *)
Definition tenDigits (s : JSString) : bool := digits 10 s.

End Validation.

(** ** utils/dateUtils.js *)

Module DateUtils.

(** [getDaysUntilExpiry], at the instant [now]; [None] is a missing expiry
    date. *)
Definition getDaysUntilExpiry (now : Z) (expiryDate : option Z) : Z :=
  match expiryDate with
  | None => 0
  | Some expiry =>
      let diffTime := expiry - now in
      let diffDays := JSDate.ceilDiv diffTime (1000 * 60 * 60 * 24) in
      diffDays
  end.

Record Status : Type := mkStatus {
  status : string;
  message : string;
  color : string;
  bgColor : string;
  borderColor : string
}.

Definition getSubscriptionStatus (now : Z) (expiryDate : option Z) : Status :=
  let daysUntilExpiry := getDaysUntilExpiry now expiryDate in
  if daysUntilExpiry <? 0 then
    mkStatus "expired" "Expired" "text-red-600" "bg-red-50" "border-red-200"
  else if daysUntilExpiry =? 0 then
    mkStatus "expires-today" "Expires Today" "text-orange-600" "bg-orange-50"
      "border-orange-200"
  else if daysUntilExpiry <=? 7 then
    mkStatus "expires-soon"
      ("Expires in " +:+ pretty daysUntilExpiry +:+ " day"
       +:+ (if daysUntilExpiry =? 1 then EmptyString else "s"))
      "text-yellow-600" "bg-yellow-50" "border-yellow-200"
  else
    mkStatus "active" ("Expires in " +:+ pretty daysUntilExpiry +:+ " days")
      "text-green-600" "bg-green-50" "border-green-200".

End DateUtils.

(** ** middleware/validation/doseValidation.js *)

Module DoseValidation.

(** What a middleware does: it calls [next()], or it answers with a status
    and, in the body, an error code. *)
Inductive Verdict : Type :=
| Next
| Respond (status : Z) (error : option string).

(** [checkSubscriptionStatus], the first middleware of [POST /api/doses]
    after authentication, for the authenticated user [userId]. *)
Definition checkSubscriptionStatus (now : Z) (userId : PatientId) (w : World)
    : Verdict :=
  match patients w !! userId with
  | None => Respond 404 None
  | Some patient =>
      if match subscriptionExpiry patient with
         | Some expiry => expiry <? now
         | None => false
         end
      then Respond 403 (Some "SUBSCRIPTION_EXPIRED")
      else if negb (active patient) then Respond 403 (Some "ACCOUNT_INACTIVE")
      else if negb (verified patient) then Respond 403 (Some "EMAIL_NOT_VERIFIED")
      else Next
  end.

(** The custom validator of the field [timestamp] in [validateDoseLogging]:
    it returns [true], or it throws an error with a message. *)
Inductive Checked : Type :=
| Valid
| Invalid (msg : string).

Definition validateTimestamp (now : Z) (value : Z) : Checked :=
  let doseTime := value in
  let oneHourAgo := now - 60 * 60 * 1000 in
  let oneHourFromNow := now + 60 * 60 * 1000 in
  if doseTime <? oneHourAgo then
    Invalid "Dose time cannot be more than 1 hour in the past"
  else if oneHourFromNow <? doseTime then
    Invalid "Dose time cannot be more than 1 hour in the future"
  else Valid.

End DoseValidation.

(** ** The routes that change an account

    [routes/patients.js], [verifyEmail] of
    [controllers/authController.js] and [bulkPatientAction] of
    [controllers/adminController.js].  A handler runs at one instant [now];
    it returns the HTTP status and the resulting server.  A document is
    written with [patient.save()]; such writes are seen in the store, the
    journal of the world keeps recording the updates of the jobs and the SMS
    of the kinds that the jobs send. *)

Module Routes.

Definition set_isActive (v : bool) (p : Patient) : Patient :=
  {| phone := phone p;
     isActive := v;
     role := role p;
     subscriptionExpiry := subscriptionExpiry p;
     active := active p;
     verified := verified p;
     deactivatedAt := deactivatedAt p;
     deactivationReason := deactivationReason p;
     welcomeSmsSent := welcomeSmsSent p;
     lastDoseTime := lastDoseTime p;
     nextReminderTime := nextReminderTime p;
     reminderAttempts := reminderAttempts p;
     lastReminderSent := lastReminderSent p;
     hasLoggedFirstDose := hasLoggedFirstDose p;
     smsReminderCycle := smsReminderCycle p;
     adminNotifiedDate := adminNotifiedDate p;
     lastActivationDate := lastActivationDate p;
     previousActiveState := previousActiveState p;
     welcomeSmsSentAt := welcomeSmsSentAt p;
     date := date p |}.

Definition set_subscriptionExpiry (v : option Z) (p : Patient) : Patient :=
  {| phone := phone p;
     isActive := isActive p;
     role := role p;
     subscriptionExpiry := v;
     active := active p;
     verified := verified p;
     deactivatedAt := deactivatedAt p;
     deactivationReason := deactivationReason p;
     welcomeSmsSent := welcomeSmsSent p;
     lastDoseTime := lastDoseTime p;
     nextReminderTime := nextReminderTime p;
     reminderAttempts := reminderAttempts p;
     lastReminderSent := lastReminderSent p;
     hasLoggedFirstDose := hasLoggedFirstDose p;
     smsReminderCycle := smsReminderCycle p;
     adminNotifiedDate := adminNotifiedDate p;
     lastActivationDate := lastActivationDate p;
     previousActiveState := previousActiveState p;
     welcomeSmsSentAt := welcomeSmsSentAt p;
     date := date p |}.

Definition set_verified (v : bool) (p : Patient) : Patient :=
  {| phone := phone p;
     isActive := isActive p;
     role := role p;
     subscriptionExpiry := subscriptionExpiry p;
     active := active p;
     verified := v;
     deactivatedAt := deactivatedAt p;
     deactivationReason := deactivationReason p;
     welcomeSmsSent := welcomeSmsSent p;
     lastDoseTime := lastDoseTime p;
     nextReminderTime := nextReminderTime p;
     reminderAttempts := reminderAttempts p;
     lastReminderSent := lastReminderSent p;
     hasLoggedFirstDose := hasLoggedFirstDose p;
     smsReminderCycle := smsReminderCycle p;
     adminNotifiedDate := adminNotifiedDate p;
     lastActivationDate := lastActivationDate p;
     previousActiveState := previousActiveState p;
     welcomeSmsSentAt := welcomeSmsSentAt p;
     date := date p |}.

Definition set_welcomeSmsSent (v : bool) (p : Patient) : Patient :=
  {| phone := phone p;
     isActive := isActive p;
     role := role p;
     subscriptionExpiry := subscriptionExpiry p;
     active := active p;
     verified := verified p;
     deactivatedAt := deactivatedAt p;
     deactivationReason := deactivationReason p;
     welcomeSmsSent := v;
     lastDoseTime := lastDoseTime p;
     nextReminderTime := nextReminderTime p;
     reminderAttempts := reminderAttempts p;
     lastReminderSent := lastReminderSent p;
     hasLoggedFirstDose := hasLoggedFirstDose p;
     smsReminderCycle := smsReminderCycle p;
     adminNotifiedDate := adminNotifiedDate p;
     lastActivationDate := lastActivationDate p;
     previousActiveState := previousActiveState p;
     welcomeSmsSentAt := welcomeSmsSentAt p;
     date := date p |}.

Definition set_lastActivationDate (v : option Z) (p : Patient) : Patient :=
  {| phone := phone p;
     isActive := isActive p;
     role := role p;
     subscriptionExpiry := subscriptionExpiry p;
     active := active p;
     verified := verified p;
     deactivatedAt := deactivatedAt p;
     deactivationReason := deactivationReason p;
     welcomeSmsSent := welcomeSmsSent p;
     lastDoseTime := lastDoseTime p;
     nextReminderTime := nextReminderTime p;
     reminderAttempts := reminderAttempts p;
     lastReminderSent := lastReminderSent p;
     hasLoggedFirstDose := hasLoggedFirstDose p;
     smsReminderCycle := smsReminderCycle p;
     adminNotifiedDate := adminNotifiedDate p;
     lastActivationDate := v;
     previousActiveState := previousActiveState p;
     welcomeSmsSentAt := welcomeSmsSentAt p;
     date := date p |}.

Definition set_previousActiveState (v : option bool) (p : Patient) : Patient :=
  {| phone := phone p;
     isActive := isActive p;
     role := role p;
     subscriptionExpiry := subscriptionExpiry p;
     active := active p;
     verified := verified p;
     deactivatedAt := deactivatedAt p;
     deactivationReason := deactivationReason p;
     welcomeSmsSent := welcomeSmsSent p;
     lastDoseTime := lastDoseTime p;
     nextReminderTime := nextReminderTime p;
     reminderAttempts := reminderAttempts p;
     lastReminderSent := lastReminderSent p;
     hasLoggedFirstDose := hasLoggedFirstDose p;
     smsReminderCycle := smsReminderCycle p;
     adminNotifiedDate := adminNotifiedDate p;
     lastActivationDate := lastActivationDate p;
     previousActiveState := v;
     welcomeSmsSentAt := welcomeSmsSentAt p;
     date := date p |}.

Inductive SubscriptionType : Type := Monthly | Yearly.

(** An entry of [subscriptionRenewalHistory]. *)
Record Renewal : Type := mkRenewal {
  renewedAt : Z;
  renewedBy : Role;
  previousExpiry : Z;
  newExpiry : Z;
  renewedType : option SubscriptionType   (* the field [subscriptionType] *)
}.

(** The fields of [models/Patient.js] that only the routes read or write. *)
Record Profile : Type := mkProfile {
  subscriptionType : option SubscriptionType;
  subscriptionRenewalCount : Z;
  lastSubscriptionRenewal : option Z;
  subscriptionRenewalHistory : list Renewal;
  deactivatedBy : option Z;
  deactivationNotes : option string;
  deletedAt : option Z
}.

(** The defaults of the schema. *)
Definition newProfile : Profile := mkProfile None 0 None [] None None None.

(** [models/Token.js]; the token string is the key (it is unique). *)
Inductive TokenType : Type := emailVerification | passwordReset.

Record Token : Type := mkToken {
  userId : PatientId;
  type : TokenType;
  expiresAt : Z
}.

#[global] Instance SubscriptionType_eq_dec : EqDecision SubscriptionType.
Proof. solve_decision. Defined.
#[global] Instance TokenType_eq_dec : EqDecision TokenType.
Proof. solve_decision. Defined.

(** [req.user], as [protect] sets it from the token. *)
Record User : Type := mkUser {
  user_id : Z;
  user_role : Role
}.

(** What the routes send besides the SMS of the jobs. *)
Inductive Outgoing : Type :=
| OutWelcomeSms (id : PatientId) (outcome : SmsOutcome)
| OutDeactivationSms (id : PatientId) (reason : string) (outcome : SmsOutcome)
| OutReactivationMail (id : PatientId) (sent : bool).

(** What the delivery services answer to the routes: [jobs] for the SMS
    kinds of the jobs; [reactivationMail id] is [false] when the mailer
    throws. *)
Record Services : Type := mkServices {
  jobs : Env;
  welcomeSms : PatientId -> SmsOutcome;
  deactivationSms : PatientId -> string -> SmsOutcome;
  reactivationMail : PatientId -> bool
}.

Record Server : Type := mkServer {
  world : World;
  profiles : gmap Z Profile;
  tokens : gmap string Token;
  outbox : list Outgoing
}.

Definition profileOf (id : PatientId) (s : Server) : Profile :=
  default newProfile (profiles s !! id).

(** [patient.save()]. *)
Definition save (id : PatientId) (patient : Patient) (profile : Profile)
    (s : Server) : Server :=
  mkServer
    (mkWorld (<[id := patient]> (patients (world s))) (doses (world s))
       (admins (world s)) (journal (world s)))
    (<[id := profile]> (profiles s)) (tokens s) (outbox s).

Definition sendOut (o : Outgoing) (s : Server) : Server :=
  mkServer (world s) (profiles s) (tokens s) (outbox s ++ [o]).

Definition record (e : Event) (s : Server) : Server :=
  mkServer (emit e (world s)) (profiles s) (tokens s) (outbox s).

(** [middleware/roleMiddleware.js]: [authorizeRoles(allowedRoles)] lets the
    request through. *)
Definition authorizeRoles (allowedRoles : list Role) (user : User) : bool :=
  bool_decide (user_role user ∈ allowedRoles).

(** *** PATCH /api/patients/:id/toggle-active *)

(** The renewal period, in days. *)
Definition renewalDays (t : option SubscriptionType) : Z :=
  match t with
  | Some Yearly => 365
  | _ => 30
  end.

(** The renewal that goes with an activation, for an account that has an
    expiry date. *)
Definition renewOnActivation (now : Z) (user : User) (patient : Patient)
    (profile : Profile) : Patient * Profile :=
  match subscriptionExpiry patient with
  | None => (patient, profile)
  | Some expiry =>
      let baseDate := if now <? expiry then expiry else now in
      let days := renewalDays (subscriptionType profile) in
      let newExpiry := baseDate + days * 24 * 60 * 60 * 1000 in
      let previousExpiry := expiry in
      (set_subscriptionExpiry (Some newExpiry) patient,
       mkProfile (subscriptionType profile)
         (subscriptionRenewalCount profile + 1)
         (Some now)
         (subscriptionRenewalHistory profile
          ++ [mkRenewal now (user_role user) previousExpiry newExpiry
                (subscriptionType profile)])
         (deactivatedBy profile) (deactivationNotes profile) (deletedAt profile))
  end.

(** The block "handle smart reactivation immediately": the SMS, the
    e-mail in a [try] of its own, and the reset of the cycle on the
    document in memory.  When the SMS call throws, the outer [catch] skips
    the rest. *)
Definition smartReactivation (sv : Services) (now : Z) (id : PatientId)
    (patient : Patient) (s : Server) : Patient * Server :=
  let subscriptionExpired :=
    match subscriptionExpiry patient with
    | Some expiry => expiry <=? now
    | None => false
    end in
  let kind := SmartReactivation subscriptionExpired in
  let smsResult := sms (jobs sv) id kind in
  let s := record (EvSms id kind smsResult) s in
  match smsResult with
  | SmsThrew => (patient, s)
  | SmsDelivered | SmsFailed =>
      let s := sendOut (OutReactivationMail id (reactivationMail sv id)) s in
      (applyUpdate
         [ U_smsReminderCycle new_user;
           U_hasLoggedFirstDose false;
           U_reminderAttempts 0;
           U_lastReminderSent None;
           U_nextReminderTime None ] patient,
       s)
  end.

(** The values of the enumeration of [deactivationReason]; saving another
    string fails the validation of the schema. *)
Definition reasonOfString (reason : string) : option DeactivationReason :=
  if String.eqb reason "Subscription expired" then Some SubscriptionExpired
  else if String.eqb reason "Manual deactivation - Medical reasons"
  then Some ManualMedicalReasons
  else if String.eqb reason "Manual deactivation - Cost" then Some ManualCost
  else if String.eqb reason "Manual deactivation - Other" then Some ManualOther
  else if String.eqb reason "Manual deactivation - Account violation"
  then Some ManualAccountViolation
  else if String.eqb reason "Manual deactivation - User request"
  then Some ManualUserRequest
  else if String.eqb reason "Manual deactivation - Technical issue"
  then Some ManualTechnicalIssue
  else None.

(** [x || null] for a string that may be missing. *)
Definition orNull (x : option string) : option string :=
  match x with
  | Some EmptyString => None
  | Some s => Some s
  | None => None
  end.

Definition toggleActive (sv : Services) (now : Z) (user : User)
    (id : PatientId) (deactivationReason deactivationNotes : option string)
    (s : Server) : Z * Server :=
  if negb (authorizeRoles [RoleAdmin; RoleSuperadmin] user) then (403, s) else
  match patients (world s) !! id with
  | None => (404, s)
  | Some patient =>
      let profile := profileOf id s in
      if bool_decide (user_role user = RoleAdmin)
         && bool_decide (role patient = RoleSuperadmin)
      then (403, s)
      else
        let previousActiveState := active patient in
        let isDeactivating := previousActiveState && negb (active patient) in
        let patient := applyField (U_active (negb (active patient))) patient in
        (* track reactivation (active changed from false to true) *)
        let '(patient, profile, s) :=
          if negb previousActiveState && active patient then
            let patient := set_lastActivationDate (Some now) patient in
            let patient :=
              set_previousActiveState (Some previousActiveState) patient in
            let '(patient, profile) :=
              renewOnActivation now user patient profile in
            let '(patient, s) := smartReactivation sv now id patient s in
            (patient, profile, s)
          else (patient, profile, s) in
        (* handle manual deactivation (active changed from true to false) *)
        if isDeactivating then
          match deactivationReason with
          | None => (400, s)
          | Some reason =>
              if negb (negb (String.eqb reason EmptyString)
                       && String.prefix "Manual deactivation" reason)
              then (400, s)
              else
                let s :=
                  sendOut
                    (OutDeactivationSms id reason (deactivationSms sv id reason))
                    s in
                match reasonOfString reason with
                | None => (500, s)   (* [save] rejects the document *)
                | Some r =>
                    let patient :=
                      applyUpdate
                        [ U_deactivatedAt (Some now);
                          U_deactivationReason (Some r) ] patient in
                    let patient :=
                      set_previousActiveState (Some previousActiveState)
                        patient in
                    let profile :=
                      mkProfile (subscriptionType profile)
                        (subscriptionRenewalCount profile)
                        (lastSubscriptionRenewal profile)
                        (subscriptionRenewalHistory profile)
                        (Some (user_id user)) (orNull deactivationNotes)
                        (deletedAt profile) in
                    (200, save id patient profile s)
                end
          end
        else (200, save id patient profile s)
  end.

(** *** POST /api/patients/:id/renew-subscription *)

Definition renewSubscription (now : Z) (user : User) (id : PatientId)
    (s : Server) : Z * Server :=
  if negb (authorizeRoles [RoleAdmin; RoleSuperadmin; RolePatient] user)
  then (403, s) else
  match patients (world s) !! id with
  | None => (404, s)
  | Some patient =>
      if bool_decide (user_role user = RolePatient)
         && negb (user_id user =? id)
      then (403, s)
      else
        let days := renewalDays (subscriptionType (profileOf id s)) in
        let baseDate :=
          match subscriptionExpiry patient with
          | Some expiry => if now <? expiry then expiry else now
          | None => now
          end in
        let newExpiry := baseDate + days * 24 * 60 * 60 * 1000 in
        (200, save id (set_subscriptionExpiry (Some newExpiry) patient)
                (profileOf id s) s)
  end.

(** *** DELETE /api/patients/:id *)

Definition deletePatient (now : Z) (user : User) (id : PatientId)
    (s : Server) : Z * Server :=
  if negb (authorizeRoles [RoleAdmin; RoleSuperadmin] user) then (403, s) else
  match patients (world s) !! id with
  | None => (404, s)
  | Some patient =>
      if bool_decide (user_role user = RoleAdmin)
         && bool_decide (role patient = RoleSuperadmin)
      then (403, s)
      else
        let profile := profileOf id s in
        (* findByIdAndUpdate(id, { isActive: false, deletedAt: new Date() }) *)
        (200, save id (set_isActive false patient)
                (mkProfile (subscriptionType profile)
                   (subscriptionRenewalCount profile)
                   (lastSubscriptionRenewal profile)
                   (subscriptionRenewalHistory profile)
                   (deactivatedBy profile) (deactivationNotes profile)
                   (Some now)) s)
  end.

(** *** POST /api/admin/patients/bulk-action *)

(** [Patient.updateMany({ _id: { $in: patientIds }, role: "patient" }, ...)]
    with the new values of the document and of its other fields. *)
Definition updateMany (patientIds : list PatientId) (f : Patient -> Patient)
    (g : Profile -> Profile) (s : Server) : Server :=
  fold_left
    (fun s id =>
       match patients (world s) !! id with
       | Some patient =>
           if bool_decide (role patient = RolePatient)
           then save id (f patient) (g (profileOf id s)) s
           else s
       | None => s
       end)
    patientIds s.

Definition bulkPatientAction (now : Z) (user : User) (action : string)
    (patientIds : list PatientId) (s : Server) : Z * Server :=
  if negb (authorizeRoles [RoleAdmin; RoleSuperadmin] user) then (403, s) else
  if (length patientIds =? 0)%nat then (400, s)
  else if String.eqb action "activate" then
    (200, updateMany patientIds (applyField (U_active true)) (fun pr => pr) s)
  else if String.eqb action "deactivate" then
    (200, updateMany patientIds (applyField (U_active false)) (fun pr => pr) s)
  else if String.eqb action "delete" then
    (200, updateMany patientIds (set_isActive false)
            (fun profile =>
               mkProfile (subscriptionType profile)
                 (subscriptionRenewalCount profile)
                 (lastSubscriptionRenewal profile)
                 (subscriptionRenewalHistory profile)
                 (deactivatedBy profile) (deactivationNotes profile)
                 (Some now)) s)
  else (400, s).

(** *** GET /api/auth/verify-email/:token *)

Definition verifyEmail (sv : Services) (now : Z) (token : string) (s : Server)
    : Z * Server :=
  match tokens s !! token with
  | None => (400, s)
  | Some verificationToken =>
      if negb (bool_decide (type verificationToken = emailVerification)
               && (now <? expiresAt verificationToken))
      then (400, s)
      else
        let id := userId verificationToken in
        match patients (world s) !! id with
        | None => (404, s)
        | Some patient =>
            let patient := set_verified true patient in
            let patient := applyField (U_active true) patient in
            let s := save id patient (profileOf id s) s in
            let smsResult := welcomeSms sv id in
            let s := sendOut (OutWelcomeSms id smsResult) s in
            let s :=
              match smsResult with
              | SmsDelivered =>
                  let patient := set_welcomeSmsSent true patient in
                  let patient :=
                    applyField (U_welcomeSmsSentAt (Some now)) patient in
                  let patient := set_lastActivationDate (Some now) patient in
                  save id patient (profileOf id s) s
              | SmsFailed => s
              | SmsThrew => s
              end in
            (200, mkServer (world s) (profiles s) (delete token (tokens s))
                    (outbox s))
        end
  end.

End Routes.


(** Sample data for the routes. *)
Module RouteSample.
Import Routes.

Definition admin : User := mkUser 1 RoleAdmin.

(** Services that deliver every SMS and every e-mail. *)
Definition services : Services :=
  mkServices (Sample.env SmsDelivered true) (fun _ => SmsDelivered)
    (fun _ _ => SmsDelivered) (fun _ => true).


(** The sample patient with a subscription that expired at time 0,
    deactivated. *)
Definition lapsed : Patient :=
  applyField (U_active false) (Sample.expiringAt 0 Sample.dosed).

(** A patient who registered at time 0 and has not verified the e-mail
    address. *)
Definition registered : Patient :=
  {| phone := Some "0241234567"%string;
     isActive := true;
     role := RolePatient;
     subscriptionExpiry := Some (30 * msPerDay);
     active := false;
     verified := false;
     deactivatedAt := None;
     deactivationReason := None;
     welcomeSmsSent := false;
     lastDoseTime := None;
     nextReminderTime := None;
     reminderAttempts := 0;
     lastReminderSent := None;
     hasLoggedFirstDose := false;
     smsReminderCycle := new_user;
     adminNotifiedDate := None;
     lastActivationDate := None;
     previousActiveState := None;
     welcomeSmsSentAt := None;
     date := Some 0 |}.

(** The server that holds patient 7 with document [p], and the
    verification token "c0ffee" of that patient, valid until one hour. *)
Definition server (p : Patient) : Server :=
  mkServer (Sample.world p) ∅
    {[ "c0ffee"%string := mkToken 7 emailVerification msPerHour ]} [].

End RouteSample.

(** * Properties *)

(** ** Date arithmetic *)

Module JSDateFacts.
Import JSDate.

(** A time value is the sum of its day and of its time fields. *)
Lemma fields_sum (t : Z) :
  MakeDate (Day t)
    (MakeTime (HourFromTime t) (MinFromTime t) (SecFromTime t) (msFromTime t)) = t.
Proof.
  unfold MakeDate, MakeTime, Day, HourFromTime, MinFromTime, SecFromTime,
    msFromTime, msPerDay, msPerHour, msPerMinute, msPerSecond.
  Z.div_mod_to_equations. lia.
Qed.

Lemma setHours_add (tz t n : Z) :
  setHours tz t (getHours tz t + n) = t + n * msPerHour.
Proof.
  unfold setHours, getHours, UTC.
  pose proof (fields_sum (LocalTime tz t)) as H.
  unfold MakeDate, MakeTime in *. unfold LocalTime in *. lia.
Qed.

Lemma setMinutes_add (tz t n : Z) :
  setMinutes tz t (getMinutes tz t + n) = t + n * msPerMinute.
Proof.
  unfold setMinutes, getMinutes, UTC.
  pose proof (fields_sum (LocalTime tz t)) as H.
  unfold MakeDate, MakeTime in *. unfold LocalTime in *. lia.
Qed.

(** [ceilDiv a b] is the least integer [q] with [a <= q * b]. *)
Lemma ceilDiv_spec (a b q : Z) :
  0 < b -> (ceilDiv a b = q <-> (q - 1) * b < a <= q * b).
Proof.
  intros Hb. unfold ceilDiv.
  pose proof (Z.div_mod (- a) b ltac:(lia)) as Hdm.
  pose proof (Z.mod_pos_bound (- a) b Hb) as Hm.
  split; intros H; nia.
Qed.

End JSDateFacts.

(** 23 hours 30 minutes, 24 hours 30 minutes and 48 hours 30 minutes after
    the last dose, whatever the offset of the zone. *)
Lemma calculateNextReminderTime_eq (tz t : Z) :
  calculateNextReminderTime tz t = t + (23 * msPerHour + 30 * msPerMinute).
Proof.
  unfold calculateNextReminderTime.
  rewrite JSDateFacts.setHours_add, JSDateFacts.setMinutes_add. lia.
Qed.

Lemma calculateSecondReminderTime_eq (tz t : Z) :
  calculateSecondReminderTime tz t = t + (24 * msPerHour + 30 * msPerMinute).
Proof.
  unfold calculateSecondReminderTime.
  rewrite JSDateFacts.setHours_add, JSDateFacts.setMinutes_add. lia.
Qed.

Lemma calculateThirdReminderTime_eq (tz t : Z) :
  calculateThirdReminderTime tz t = t + 24 * msPerHour.
Proof.
  unfold calculateThirdReminderTime.
  rewrite JSDateFacts.setHours_add. lia.
Qed.

(** ** The algebra of effects *)

Lemma applyUpdate_app us1 us2 p :
  applyUpdate (us1 ++ us2) p = applyUpdate us2 (applyUpdate us1 p).
Proof. unfold applyUpdate. apply fold_left_app. Qed.

Lemma World_eq (w1 w2 : World) :
  patients w1 = patients w2 -> doses w1 = doses w2 -> admins w1 = admins w2 ->
  journal w1 = journal w2 -> w1 = w2.
Proof. destruct w1, w2; simpl; congruence. Qed.

Lemma effect_nil id w : effect id [] [] w = w.
Proof.
  apply World_eq; simpl; auto using app_nil_r.
  apply alter_id. reflexivity.
Qed.

Lemma emit_effect id e w : emit e w = effect id [] [e] w.
Proof.
  apply World_eq; simpl; auto.
  symmetry. apply alter_id. reflexivity.
Qed.

Lemma findByIdAndUpdate_effect id us w :
  findByIdAndUpdate id us w = effect id us [EvUpdate id us] w.
Proof. reflexivity. Qed.

Lemma effect_effect id us1 evs1 us2 evs2 w :
  effect id us2 evs2 (effect id us1 evs1 w)
  = effect id (us1 ++ us2) (evs1 ++ evs2) w.
Proof.
  apply World_eq; simpl; auto using app_assoc.
  rewrite alter_alter_eq. apply alter_ext.
  intros p _. simpl. symmetry. apply applyUpdate_app.
Qed.

Lemma effect_lookup_ne id k us evs w :
  k <> id -> patients (effect k us evs w) !! id = patients w !! id.
Proof. intros H. simpl. by rewrite lookup_alter_ne. Qed.

Lemma effect_lookup_eq id us evs w :
  patients (effect id us evs w) !! id = applyUpdate us <$> patients w !! id.
Proof. simpl. by rewrite lookup_alter_eq. Qed.

Lemma effect_solo id us evs p ds ads j :
  effect id us evs (solo id p ds ads j) = solo id (applyUpdate us p) ds ads (j ++ evs).
Proof. unfold effect, solo. simpl. by rewrite alter_singleton_eq. Qed.

(** ** Journals *)

Lemma eventsFor_app id j1 j2 :
  eventsFor id (j1 ++ j2) = eventsFor id j1 ++ eventsFor id j2.
Proof. unfold eventsFor. apply List.filter_app. Qed.

Lemma eventsFor_same id evs :
  Forall (fun e => eventPatient e = id) evs -> eventsFor id evs = evs.
Proof.
  induction 1 as [|e evs He _ IH]; simpl; [done|].
  rewrite IH. by rewrite (proj2 (Z.eqb_eq _ _) He).
Qed.

Lemma eventsFor_other id k evs :
  k <> id -> Forall (fun e => eventPatient e = k) evs -> eventsFor id evs = [].
Proof.
  intros Hk. induction 1 as [|e evs He _ IH]; simpl; [done|].
  rewrite IH. destruct (Z.eqb_spec (eventPatient e) id); [congruence|done].
Qed.

(** ** The loop bodies act on their own patient *)

Lemma local_skip id ds ads : LocalAt id ds ads (fun w => w).
Proof. exists [], []. split; [constructor|]. intros. symmetry. apply effect_nil. Qed.

Lemma local_seq id ds ads f g :
  LocalAt id ds ads f -> LocalAt id ds ads g -> LocalAt id ds ads (fun w => g (f w)).
Proof.
  intros (us1 & evs1 & H1 & E1) (us2 & evs2 & H2 & E2).
  exists (us1 ++ us2), (evs1 ++ evs2). split; [by apply Forall_app|].
  intros w Hd Ha. rewrite (E1 w Hd Ha), E2 by done. apply effect_effect.
Qed.

Lemma local_sendThenUpdate env id ds ads kind us :
  LocalAt id ds ads (sendThenUpdate env id kind us).
Proof.
  unfold sendThenUpdate.
  destruct (sms env id kind) eqn:E.
  - exists us, [EvSms id kind SmsDelivered; EvUpdate id us].
    split; [by repeat constructor|]. intros w _ _.
    rewrite findByIdAndUpdate_effect, (emit_effect id), effect_effect. done.
  - exists [], [EvSms id kind SmsFailed].
    split; [by repeat constructor|]. intros w _ _. apply emit_effect.
  - exists [], [EvSms id kind SmsThrew].
    split; [by repeat constructor|]. intros w _ _. apply emit_effect.
Qed.

Lemma local_reminderBlock env id ds ads due since kind us :
  LocalAt id ds ads (reminderBlock env id due since kind us).
Proof.
  unfold reminderBlock. destruct due; [|apply local_skip].
  destruct (doseSince ds id since) eqn:E.
  - exists [], []. split; [constructor|]. intros w Hd _.
    rewrite Hd, E. simpl. symmetry. apply effect_nil.
  - destruct (local_sendThenUpdate env id ds ads kind us) as (us' & evs & H1 & H2).
    exists us', evs. split; [done|]. intros w Hd Ha.
    rewrite Hd, E. simpl. by apply H2.
Qed.

Lemma local_ext id ds ads f g :
  (forall w, g w = f w) -> LocalAt id ds ads f -> LocalAt id ds ads g.
Proof.
  intros E (us & evs & H1 & H2). exists us, evs. split; [done|].
  intros w Hd Ha. rewrite E. by apply H2.
Qed.

Lemma newUserBody_blocks env now id p w :
  newUserBody env now id p w
  = if negb (hasPhone p) then w else
    match welcomeSmsSentAt p with
    | None => w
    | Some t =>
        reminderBlock env id
          ((t + 24 * 60 * 60 * 1000 <=? now) && (reminderAttempts p =? 1))
          (t + 6 * 60 * 60 * 1000) (NewUserReminder 2)
          [ U_reminderAttempts 2; U_lastReminderSent (Some now);
            U_smsReminderCycle inactive_user ]
          (reminderBlock env id
             ((t + 6 * 60 * 60 * 1000 <=? now) && (reminderAttempts p =? 0))
             t (NewUserReminder 1)
             [ U_reminderAttempts 1; U_lastReminderSent (Some now) ] w)
    end.
Proof. unfold newUserBody, reminderBlock. reflexivity. Qed.

Lemma activeUserBody_blocks env now id p w :
  activeUserBody env now id p w
  = if negb (hasPhone p) then w else
    match lastDoseTime p with
    | None => w
    | Some t =>
        let t1 := calculateNextReminderTime (tz env) t in
        let t2 := calculateSecondReminderTime (tz env) t in
        let t3 := calculateThirdReminderTime (tz env) t2 in
        reminderBlock env id ((t3 <=? now) && (reminderAttempts p =? 2)) t3
          ThirdReminder
          [ U_reminderAttempts 3; U_lastReminderSent (Some now);
            U_smsReminderCycle inactive_user ]
          (reminderBlock env id ((t2 <=? now) && (reminderAttempts p =? 1)) t2
             (DoseReminder 2)
             [ U_reminderAttempts 2; U_lastReminderSent (Some now) ]
             (reminderBlock env id ((t1 <=? now) && (reminderAttempts p =? 0)) t1
                (DoseReminder 1)
                [ U_reminderAttempts 1; U_lastReminderSent (Some now) ] w))
    end.
Proof. unfold activeUserBody, reminderBlock. reflexivity. Qed.

Lemma local_newUserBody env now id p ds ads :
  LocalAt id ds ads (newUserBody env now id p).
Proof.
  eapply local_ext; [apply newUserBody_blocks|].
  destruct (negb (hasPhone p)); [apply local_skip|].
  destruct (welcomeSmsSentAt p) as [t|]; [|apply local_skip].
  apply (local_seq id ds ads (reminderBlock env id _ _ _ _)
           (reminderBlock env id _ _ _ _)); apply local_reminderBlock.
Qed.

Lemma local_activeUserBody env now id p ds ads :
  LocalAt id ds ads (activeUserBody env now id p).
Proof.
  eapply local_ext; [apply activeUserBody_blocks|].
  destruct (negb (hasPhone p)); [apply local_skip|].
  destruct (lastDoseTime p) as [t|]; [|apply local_skip].
  cbv zeta.
  apply (local_seq id ds ads
           (fun w => reminderBlock env id _ _ _ _ (reminderBlock env id _ _ _ _ w))
           (reminderBlock env id _ _ _ _)); [|apply local_reminderBlock].
  apply (local_seq id ds ads (reminderBlock env id _ _ _ _)
           (reminderBlock env id _ _ _ _)); apply local_reminderBlock.
Qed.

Lemma local_handleReactivation env now id p ds ads :
  LocalAt id ds ads (handleReactivation env now id p).
Proof.
  unfold handleReactivation. cbv zeta.
  set (k := SmartReactivation _).
  destruct (sms env id k) eqn:E.
  1,2: eexists _, [EvSms id k _; EvUpdate id _];
       (split; [by repeat constructor|]); intros w _ _;
       rewrite findByIdAndUpdate_effect, (emit_effect id), effect_effect; done.
  exists [], [EvSms id k SmsThrew].
  split; [by repeat constructor|]. intros w _ _. apply emit_effect.
Qed.

Lemma local_reactivationBody env now id p ds ads :
  LocalAt id ds ads (reactivationBody env now id p).
Proof.
  unfold reactivationBody. cbv zeta.
  match goal with |- context [if ?c then _ else _] => destruct c end;
    [apply local_handleReactivation | apply local_skip].
Qed.

Lemma sendInactive_effect env id es w :
  sendInactiveUserNotificationToAdmins env id es w
  = effect id [] (map (fun e => EvAdminMail e id (adminMail env e id)) es) w.
Proof.
  unfold sendInactiveUserNotificationToAdmins.
  revert w. induction es as [|e es IH]; intros w; simpl.
  - symmetry. apply effect_nil.
  - rewrite IH, (emit_effect id), effect_effect. done.
Qed.

Lemma local_sendAdminNotification env now id p ds ads :
  LocalAt id ds ads (sendAdminNotification env now id p).
Proof.
  unfold sendAdminNotification. cbv zeta.
  set (es := fun (l : list Admin) => map admin_email
      (List.filter (fun a => admin_active a && bool_decide (admin_role a = RoleAdmin)) l)).
  destruct (0 <? Z.of_nat (length (es ads))) eqn:E.
  - eexists _, (map (fun e => EvAdminMail e id (adminMail env e id)) (es ads)
                 ++ [EvUpdate id _]).
    split.
    + apply Forall_app. split; [|by repeat constructor].
      generalize (es ads). intros l. induction l; simpl; by constructor.
    + intros w _ Ha. subst es. simpl in *. rewrite Ha, E.
      rewrite findByIdAndUpdate_effect, sendInactive_effect, effect_effect. done.
  - exists [], []. split; [constructor|]. intros w _ Ha.
    subst es. simpl in *. rewrite Ha, E. symmetry. apply effect_nil.
Qed.

(** ** A scan, seen from one patient *)

Lemma forEach_solo q body id p ds ads j :
  forEach q body (solo id p ds ads j)
  = if q p then body id p (solo id p ds ads j) else solo id p ds ads j.
Proof.
  unfold forEach, forEachOf, find. simpl. rewrite map_filter_singleton. simpl.
  destruct (q p) eqn:E.
  - rewrite decide_True by done. by rewrite map_to_list_singleton.
  - rewrite decide_False by congruence. by rewrite map_to_list_empty.
Qed.

Lemma viewOf_effect_same id p us evs W :
  Forall (fun e => eventPatient e = id) evs ->
  effect id us evs (viewOf id p W) = viewOf id (applyUpdate us p) (effect id us evs W).
Proof.
  intros H. unfold viewOf. rewrite effect_solo. simpl.
  by rewrite eventsFor_app, (eventsFor_same id evs H).
Qed.

Lemma viewOf_effect_other id k p us evs W :
  k <> id -> Forall (fun e => eventPatient e = k) evs ->
  viewOf id p (effect k us evs W) = viewOf id p W.
Proof.
  intros Hk H. unfold viewOf. simpl.
  by rewrite eventsFor_app, (eventsFor_other id k evs Hk H), app_nil_r.
Qed.

Section Loop.
Context (body : PatientId -> Patient -> World -> World).
Context (body_local : forall k pk ds ads, LocalAt k ds ads (body k pk)).
Context (id : PatientId).

Lemma forEachOf_cons k pk l W :
  forEachOf body ((k, pk) :: l) W = forEachOf body l (body k pk W).
Proof. reflexivity. Qed.

Lemma loop_view_out l : forall W p,
  id ∉ l.*1 -> patients W !! id = Some p ->
  patients (forEachOf body l W) !! id = Some p
  /\ viewOf id p (forEachOf body l W) = viewOf id p W.
Proof.
  induction l as [|[k pk] l IH]; intros W p Hn HW; [done|].
  rewrite fmap_cons, not_elem_of_cons in Hn. destruct Hn as [Hk Hn]. simpl in Hk.
  destruct (body_local k pk (doses W) (admins W)) as (us & evs & Hevs & E).
  rewrite forEachOf_cons, (E W) by done.
  destruct (IH (effect k us evs W) p Hn) as [H1 H2].
  { rewrite effect_lookup_ne by done. done. }
  split; [done|]. rewrite H2.
  apply viewOf_effect_other; [congruence | done].
Qed.

Lemma loop_view_in l : forall W p pk,
  NoDup l.*1 -> (id, pk) ∈ l -> patients W !! id = Some p ->
  exists p', patients (forEachOf body l W) !! id = Some p'
             /\ viewOf id p' (forEachOf body l W) = body id pk (viewOf id p W).
Proof.
  induction l as [|[k pk0] l IH]; intros W p pk Hnd Hin HW.
  { by apply elem_of_nil in Hin. }
  rewrite fmap_cons in Hnd. apply NoDup_cons in Hnd as [Hk Hnd]. simpl in Hk.
  destruct (body_local k pk0 (doses W) (admins W)) as (us & evs & Hevs & E).
  rewrite forEachOf_cons, (E W) by done.
  apply elem_of_cons in Hin as [Heq | Hin].
  - injection Heq as <- <-.
    destruct (loop_view_out l (effect id us evs W) (applyUpdate us p) Hk) as [H1 H2].
    { rewrite effect_lookup_eq, HW. done. }
    exists (applyUpdate us p). split; [done|].
    rewrite H2.
    rewrite (E (viewOf id p W)) by done.
    symmetry. by apply viewOf_effect_same.
  - assert (k <> id) as Hne.
    { intros ->. apply Hk. apply list_elem_of_fmap. by exists (id, pk). }
    destruct (IH (effect k us evs W) p pk Hnd Hin) as (p' & H1 & H2).
    { by rewrite effect_lookup_ne. }
    exists p'. split; [done|]. rewrite H2.
    f_equal. by apply viewOf_effect_other.
Qed.

(** A scan seen from one patient is the scan of that patient alone. *)
Lemma forEach_view q W p :
  patients W !! id = Some p ->
  exists p', patients (forEach q body W) !! id = Some p'
             /\ viewOf id p' (forEach q body W) = forEach q body (viewOf id p W).
Proof.
  intros HW. unfold viewOf at 2. rewrite forEach_solo.
  fold (viewOf id p W). unfold forEach.
  pose proof (NoDup_fst_map_to_list (filter (fun ip => q ip.2 = true) (patients W))) as Hnd.
  destruct (q p) eqn:Hq.
  - apply (loop_view_in _ W p p Hnd); [|done].
    unfold find. apply elem_of_map_to_list. by apply map_lookup_filter_Some.
  - exists p. apply loop_view_out; [|done].
    unfold find. intros Hin. apply list_elem_of_fmap in Hin as ([k pk] & Hk & Hin).
    simpl in Hk. subst k. apply elem_of_map_to_list, map_lookup_filter_Some in Hin.
    destruct Hin as [Hl Hq']. simpl in Hq'. congruence.
Qed.
End Loop.

(** ** The scans on the world of one patient *)

Lemma emit_solo e id p ds ads j :
  emit e (solo id p ds ads j) = solo id p ds ads (j ++ [e]).
Proof. reflexivity. Qed.

Lemma findByIdAndUpdate_solo id us p ds ads j :
  findByIdAndUpdate id us (solo id p ds ads j)
  = solo id (applyUpdate us p) ds ads (j ++ [EvUpdate id us]).
Proof. rewrite findByIdAndUpdate_effect. apply effect_solo. Qed.

Lemma sendThenUpdate_solo env id kind us p ds ads j :
  sendThenUpdate env id kind us (solo id p ds ads j)
  = solo id (sent env id kind us p).1 ds ads (j ++ (sent env id kind us p).2).
Proof.
  unfold sendThenUpdate, sent. cbv zeta. rewrite emit_solo.
  destruct (sms env id kind); simpl; [|done..].
  rewrite findByIdAndUpdate_solo. by rewrite <- app_assoc.
Qed.

Lemma reminderBlock_solo env id due since kind us p ds ads j :
  reminderBlock env id due since kind us (solo id p ds ads j)
  = if due && negb (doseSince ds id since)
    then solo id (sent env id kind us p).1 ds ads (j ++ (sent env id kind us p).2)
    else solo id p ds ads j.
Proof.
  unfold reminderBlock. simpl. destruct due; simpl; [|done].
  destruct (doseSince ds id since); simpl; [done|]. apply sendThenUpdate_solo.
Qed.

Lemma handleReactivation_solo env now id p ds ads j :
  handleReactivation env now id p (solo id p ds ads j)
  = match sms env id (reactivationKind now p) with
    | SmsThrew =>
        solo id p ds ads (j ++ [EvSms id (reactivationKind now p) SmsThrew])
    | o =>
        solo id (applyUpdate (reactivationReset now) p) ds ads
          (j ++ [EvSms id (reactivationKind now p) o;
                 EvUpdate id (reactivationReset now)])
    end.
Proof.
  unfold handleReactivation. cbv zeta. fold (reactivationKind now p).
  rewrite emit_solo.
  destruct (sms env id (reactivationKind now p)); [| |done];
    rewrite findByIdAndUpdate_solo; by rewrite <- app_assoc.
Qed.

Lemma reactivation_scan_solo env now id p ds ads j :
  forEach (reactivatedQuery now) (reactivationBody env now) (solo id p ds ads j)
  = if reactivationDue now p
    then handleReactivation env now id p (solo id p ds ads j)
    else solo id p ds ads j.
Proof.
  rewrite forEach_solo. unfold reactivationDue, reactivationBody.
  destruct (reactivatedQuery now p); simpl; done.
Qed.

Lemma sendAdminNotification_solo env now id p ds ads j :
  sendAdminNotification env now id p (solo id p ds ads j)
  = match adminEmailsOf ads with
    | [] => solo id p ds ads j
    | _ =>
        solo id (applyUpdate (adminNotified now) p) ds ads
          (j ++ map (fun e => EvAdminMail e id (adminMail env e id)) (adminEmailsOf ads)
             ++ [EvUpdate id (adminNotified now)])
    end.
Proof.
  unfold sendAdminNotification. cbv zeta. simpl admins.
  fold (adminEmailsOf ads).
  destruct (adminEmailsOf ads) as [|e es] eqn:E; [done|].
  replace (0 <? Z.of_nat (length (e :: es))) with true
    by (symmetry; apply Z.ltb_lt; simpl; lia).
  rewrite sendInactive_effect, findByIdAndUpdate_effect, effect_effect, effect_solo.
  by rewrite app_nil_l.
Qed.

Lemma reactivation_scan_step env now id p ds ads j :
  exists p' evs,
    ReactivationStep env now id p p' evs /\
    forEach (reactivatedQuery now) (reactivationBody env now) (solo id p ds ads j)
    = solo id p' ds ads (j ++ evs).
Proof.
  rewrite reactivation_scan_solo.
  destruct (reactivationDue now p) eqn:D.
  - rewrite handleReactivation_solo.
    destruct (sms env id (reactivationKind now p)) eqn:S.
    + eexists _, _. split; [|done]. by apply (React_reset _ _ _ _ SmsDelivered).
    + eexists _, _. split; [|done]. by apply (React_reset _ _ _ _ SmsFailed).
    + eexists _, _. split; [|done]. by apply React_threw.
  - exists p, []. split; [by apply React_none | by rewrite app_nil_r].
Qed.

(** Comparisons and tests, as propositions. *)
Ltac bools_to_props :=
  repeat match goal with
    | H : (_ <=? _) = true |- _ => apply Z.leb_le in H
    | H : (_ <=? _) = false |- _ => apply Z.leb_gt in H
    | H : (_ =? _) = true |- _ => apply Z.eqb_eq in H
    | H : (_ =? _) = false |- _ => apply Z.eqb_neq in H
    end.

(** No reminder is due: every row of the table contradicts the tests that
    the block made. *)
Ltac no_due :=
  let D := fresh "D" in
  intros ? ? D; inversion D; subst;
  repeat match goal with
    | H1 : ?x = Some ?a, H2 : ?x = Some ?b |- _ =>
        assert (b = a) by congruence; subst b; clear H2
    end;
  bools_to_props; try congruence; try lia.

Ltac step_none p :=
  exists p, []; split; [apply Send_none; no_due | by rewrite app_nil_r].

Lemma reminderBlock_false env id since kind us w :
  reminderBlock env id false since kind us w = w.
Proof. reflexivity. Qed.

(** The value of the test [reminderAttempts p =? k], once the number of
    attempts is known. *)
Ltac attempts_tests :=
  repeat match goal with
    | |- context [reminderAttempts ?p =? ?k] =>
        first
          [ replace (reminderAttempts p =? k) with true
              by (symmetry; apply Z.eqb_eq; lia)
          | replace (reminderAttempts p =? k) with false
              by (symmetry; apply Z.eqb_neq; lia) ]
    end;
  rewrite ?andb_false_r, ?andb_true_r, ?reminderBlock_false.

Lemma newUser_scan_step env now id p ds ads j :
  exists p' evs,
    SendStep env now ds id new_user p p' evs /\
    forEach newUsersQuery (newUserBody env now) (solo id p ds ads j)
    = solo id p' ds ads (j ++ evs).
Proof.
  rewrite forEach_solo.
  destruct (newUsersQuery p) eqn:Q; [|step_none p].
  rewrite newUserBody_blocks.
  destruct (hasPhone p) eqn:Ph; cbn [negb]; [|step_none p].
  destruct (welcomeSmsSentAt p) as [t|] eqn:Wt; [|step_none p].
  change (6 * 60 * 60 * 1000) with (6 * msPerHour).
  change (24 * 60 * 60 * 1000) with (24 * msPerHour).
  destruct (Z.eq_dec (reminderAttempts p) 0) as [A|A0];
    [|destruct (Z.eq_dec (reminderAttempts p) 1) as [A|A1]];
    attempts_tests; [| |step_none p].
  - rewrite reminderBlock_solo.
    destruct (t + 6 * msPerHour <=? now) eqn:T;
      destruct (doseSince ds id t) eqn:D; simpl; try (step_none p).
    eexists _, _. split; [|reflexivity]. apply Send_due. bools_to_props.
    by apply (Due_newUser6h now ds id p t).
  - rewrite reminderBlock_solo.
    destruct (t + 24 * msPerHour <=? now) eqn:T;
      destruct (doseSince ds id (t + 6 * msPerHour)) eqn:D; simpl;
      try (step_none p).
    eexists _, _. split; [|reflexivity]. apply Send_due. bools_to_props.
    by apply (Due_newUser24h now ds id p t).
Qed.

Lemma thirdReminderTime_eq (tzv t : Z) :
  calculateThirdReminderTime tzv (calculateSecondReminderTime tzv t)
  = t + (48 * msPerHour + 30 * msPerMinute).
Proof.
  rewrite calculateThirdReminderTime_eq, calculateSecondReminderTime_eq.
  unfold msPerHour, msPerMinute. lia.
Qed.

Lemma activeUser_scan_step env now id p ds ads j :
  exists p' evs,
    SendStep env now ds id active_user p p' evs /\
    forEach activeUsersQuery (activeUserBody env now) (solo id p ds ads j)
    = solo id p' ds ads (j ++ evs).
Proof.
  rewrite forEach_solo.
  destruct (activeUsersQuery p) eqn:Q; [|step_none p].
  rewrite activeUserBody_blocks.
  destruct (hasPhone p) eqn:Ph; cbn [negb]; [|step_none p].
  destruct (lastDoseTime p) as [t|] eqn:Lt; [|step_none p].
  cbv zeta.
  rewrite thirdReminderTime_eq, calculateSecondReminderTime_eq,
    calculateNextReminderTime_eq.
  destruct (Z.eq_dec (reminderAttempts p) 0) as [A|A0];
    [|destruct (Z.eq_dec (reminderAttempts p) 1) as [A|A1];
      [|destruct (Z.eq_dec (reminderAttempts p) 2) as [A|A2]]];
    attempts_tests; [| | |step_none p].
  - rewrite reminderBlock_solo.
    destruct (t + (23 * msPerHour + 30 * msPerMinute) <=? now) eqn:T;
      destruct (doseSince ds id (t + (23 * msPerHour + 30 * msPerMinute))) eqn:D;
      simpl; try (step_none p).
    eexists _, _. split; [|reflexivity]. apply Send_due. bools_to_props.
    by apply (Due_first now ds id p t).
  - rewrite reminderBlock_solo.
    destruct (t + (24 * msPerHour + 30 * msPerMinute) <=? now) eqn:T;
      destruct (doseSince ds id (t + (24 * msPerHour + 30 * msPerMinute))) eqn:D;
      simpl; try (step_none p).
    eexists _, _. split; [|reflexivity]. apply Send_due. bools_to_props.
    by apply (Due_second now ds id p t).
  - rewrite reminderBlock_solo.
    destruct (t + (48 * msPerHour + 30 * msPerMinute) <=? now) eqn:T;
      destruct (doseSince ds id (t + (48 * msPerHour + 30 * msPerMinute))) eqn:D;
      simpl; try (step_none p).
    eexists _, _. split; [|reflexivity]. apply Send_due. bools_to_props.
    by apply (Due_final now ds id p t).
Qed.

Lemma admin_scan_step env now id p ds ads j :
  exists p' evs,
    AdminStep env now ads id p p' evs /\
    forEach inactiveUsersQuery (sendAdminNotification env now) (solo id p ds ads j)
    = solo id p' ds ads (j ++ evs).
Proof.
  rewrite forEach_solo.
  destruct (inactiveUsersQuery p) eqn:Q.
  - rewrite sendAdminNotification_solo.
    destruct (adminEmailsOf ads) as [|e es] eqn:E.
    + exists p, []. split; [apply Admin_none; by right | by rewrite app_nil_r].
    + eexists _, _. split; [|reflexivity].
      rewrite <- E. apply Admin_alert; [done|]. by rewrite E.
  - exists p, []. split; [apply Admin_none; by left | by rewrite app_nil_r].
Qed.

Lemma tick_solo_steps env now id p ds ads j :
  exists p' evs,
    TickSteps env now ds ads id p p' evs /\
    scheduleComprehensiveReminderJob env now (solo id p ds ads j)
    = solo id p' ds ads (j ++ evs).
Proof.
  unfold scheduleComprehensiveReminderJob. cbv zeta.
  destruct (reactivation_scan_step env now id p ds ads j) as (p1 & e1 & S1 & ->).
  destruct (newUser_scan_step env now id p1 ds ads (j ++ e1)) as (p2 & e2 & S2 & ->).
  destruct (activeUser_scan_step env now id p2 ds ads ((j ++ e1) ++ e2))
    as (p3 & e3 & S3 & ->).
  destruct (admin_scan_step env now id p3 ds ads (((j ++ e1) ++ e2) ++ e3))
    as (p4 & e4 & S4 & ->).
  exists p4, (e1 ++ e2 ++ e3 ++ e4). split.
  - by apply (TickSteps_intro env now ds ads id p p1 p2 p3 p4).
  - by rewrite <- !app_assoc.
Qed.

Lemma solo_inj id p ds ads j p' ds' ads' j' :
  solo id p ds ads j = solo id p' ds' ads' j' ->
  p = p' /\ ds = ds' /\ ads = ads' /\ j = j'.
Proof.
  intros H.
  pose proof (f_equal (fun w => patients w !! id) H) as Hm.
  pose proof (f_equal doses H) as Hd.
  pose proof (f_equal admins H) as Ha.
  pose proof (f_equal journal H) as Hj.
  simpl in *. rewrite !lookup_singleton_eq in Hm.
  repeat split; congruence.
Qed.

Lemma tick_view env now id W p :
  patients W !! id = Some p ->
  exists p', patients (scheduleComprehensiveReminderJob env now W) !! id = Some p'
    /\ viewOf id p' (scheduleComprehensiveReminderJob env now W)
       = scheduleComprehensiveReminderJob env now (viewOf id p W).
Proof.
  intros H0. unfold scheduleComprehensiveReminderJob. cbv zeta.
  destruct (forEach_view _ (local_reactivationBody env now) id
              (reactivatedQuery now) W p H0) as (p1 & H1 & <-).
  destruct (forEach_view _ (local_newUserBody env now) id newUsersQuery _ p1 H1)
    as (p2 & H2 & <-).
  destruct (forEach_view _ (local_activeUserBody env now) id activeUsersQuery _ p2 H2)
    as (p3 & H3 & <-).
  destruct (forEach_view _ (local_sendAdminNotification env now) id
              inactiveUsersQuery _ p3 H3) as (p4 & H4 & <-).
  by exists p4.
Qed.

(** One run of the reminder job, seen from any patient of any world, is a
    sequence of four steps of the state machine. *)
Theorem tick_steps env now W id p :
  patients W !! id = Some p ->
  exists p' evs,
    TickSteps env now (doses W) (admins W) id p p' evs /\
    patients (scheduleComprehensiveReminderJob env now W) !! id = Some p' /\
    eventsFor id (journal (scheduleComprehensiveReminderJob env now W))
    = eventsFor id (journal W) ++ evs /\
    doses (scheduleComprehensiveReminderJob env now W) = doses W /\
    admins (scheduleComprehensiveReminderJob env now W) = admins W.
Proof.
  intros H0.
  destruct (tick_view env now id W p H0) as (p' & H1 & H2).
  unfold viewOf at 2 in H2.
  destruct (tick_solo_steps env now id p (doses W) (admins W)
              (eventsFor id (journal W))) as (p'' & evs & S & E).
  rewrite E in H2. apply solo_inj in H2 as (-> & Hd & Ha & Hj).
  by exists p'', evs.
Qed.

(** ** The dose-event hook *)




(** ** Logging a dose *)

Section LastBasal.
Context (id : PatientId).

Lemma pick_matches d :
  (dose_patient d =? id) && bool_decide (dose_type d = Basal) = true
  <-> basalOf id d.
Proof.
  unfold basalOf. rewrite andb_true_iff, Z.eqb_eq, bool_decide_eq_true. tauto.
Qed.

Lemma pick_inv seen best d :
  bestAmong id seen best -> bestAmong id (seen ++ [d]) (pickLater id best d).
Proof.
  unfold bestAmong, pickLater. intros H.
  destruct ((dose_patient d =? id) && bool_decide (dose_type d = Basal)) eqn:M.
  - apply pick_matches in M.
    destruct best as [b|].
    + destruct H as (Hb & Mb & Hmax).
      destruct (Z.ltb_spec (dose_timestamp b) (dose_timestamp d)).
      * split; [apply in_or_app; right; by left|]. split; [done|].
        intros d' [Hd'|[<-|[]]]%in_app_or Md'; [|lia].
        specialize (Hmax d' Hd' Md'). lia.
      * split; [apply in_or_app; by left|]. split; [done|].
        intros d' [Hd'|[<-|[]]]%in_app_or Md'; [by apply Hmax | done].
    + split; [apply in_or_app; right; by left|]. split; [done|].
      intros d' [Hd'|[<-|[]]]%in_app_or Md'; [by destruct (H d' Hd') | lia].
  - assert (~ basalOf id d) as Nd.
    { intros Md. apply pick_matches in Md. congruence. }
    destruct best as [b|].
    + destruct H as (Hb & Mb & Hmax).
      split; [apply in_or_app; by left|]. split; [done|].
      intros d' [Hd'|[<-|[]]]%in_app_or Md'; [by apply Hmax | done].
    + intros d' [Hd'|[<-|[]]]%in_app_or; [by apply H | done].
Qed.

Lemma fold_pick_inv ds : forall seen best,
  bestAmong id seen best ->
  bestAmong id (seen ++ ds) (fold_left (pickLater id) ds best).
Proof.
  induction ds as [|d ds IH]; intros seen best H; simpl.
  - by rewrite app_nil_r.
  - replace (seen ++ d :: ds) with ((seen ++ [d]) ++ ds)
      by (by rewrite <- app_assoc).
    apply IH. by apply pick_inv.
Qed.




End LastBasal.



(** ** What the queries select *)

Lemma newUsersQuery_true p :
  newUsersQuery p = true ->
  smsReminderCycle p = new_user /\ hasLoggedFirstDose p = false.
Proof.
  unfold newUsersQuery. rewrite !andb_true_iff, !bool_decide_eq_true, negb_true_iff.
  tauto.
Qed.

Lemma activeUsersQuery_true p :
  activeUsersQuery p = true -> smsReminderCycle p = active_user.
Proof.
  unfold activeUsersQuery. rewrite !andb_true_iff, !bool_decide_eq_true. tauto.
Qed.

Lemma inactiveUsersQuery_true p :
  inactiveUsersQuery p = true ->
  smsReminderCycle p = inactive_user /\ reminderAttempts p = 3
  /\ adminNotifiedDate p = None.
Proof.
  unfold inactiveUsersQuery.
  rewrite !andb_true_iff, !bool_decide_eq_true, Z.eqb_eq. tauto.
Qed.

(** ** One run of the reminder job, by cases *)

Lemma newEvents_app id W W' evs :
  eventsFor id (journal W') = eventsFor id (journal W) ++ evs ->
  newEvents id W W' = evs.
Proof. intros H. unfold newEvents. rewrite H. apply drop_app_length. Qed.

Lemma tick_run env now W id p :
  patients W !! id = Some p ->
  exists p',
    patients (scheduleComprehensiveReminderJob env now W) !! id = Some p' /\
    TickSteps env now (doses W) (admins W) id p p'
      (newEvents id W (scheduleComprehensiveReminderJob env now W)).
Proof.
  intros H. destruct (tick_steps env now W id p H) as (p' & evs & S & L & E & _).
  exists p'. split; [done|]. by rewrite (newEvents_app _ _ _ _ E).
Qed.

(** *** The steps, one by one *)

Lemma Due_facts now ds id p c kind us :
  Due now ds id p c kind us ->
  smsReminderCycle p = c /\ hasPhone p = true
  /\ (c = new_user \/ c = active_user)
  /\ (forall o, isReminderSms (EvSms id kind o) = true)
  /\ (forall q,
        hasPhone (applyUpdate us q) = hasPhone q
        /\ adminNotifiedDate (applyUpdate us q) = adminNotifiedDate q
        /\ reminderAttempts (applyUpdate us q) = reminderAttempts p + 1
        /\ 1 <= reminderAttempts (applyUpdate us q) <= 3
        /\ (smsReminderCycle (applyUpdate us q) = smsReminderCycle q
            /\ reminderAttempts (applyUpdate us q) <> 3
            \/ smsReminderCycle (applyUpdate us q) = inactive_user
               /\ 2 <= reminderAttempts (applyUpdate us q))).
Proof.
  destruct 1;
    repeat match goal with
      | H : newUsersQuery _ = true |- _ => apply newUsersQuery_true in H; destruct H
      | H : activeUsersQuery _ = true |- _ => apply activeUsersQuery_true in H
      end;
    (split; [done|]); (split; [done|]); (split; [tauto|]); (split; [done|]);
    intros q; simpl; repeat split; try lia; auto;
    first [left; split; [reflexivity | lia] | right; split; [reflexivity | lia]].
Qed.

Lemma SendStep_inv env now ds id c p p' evs :
  SendStep env now ds id c p p' evs ->
  (p' = p /\ evs = [] /\ forall kind us, ~ Due now ds id p c kind us)
  \/ exists kind us,
       Due now ds id p c kind us
       /\ (sms env id kind = SmsDelivered /\ p' = applyUpdate us p
           /\ evs = [EvSms id kind SmsDelivered; EvUpdate id us]
           \/ sms env id kind <> SmsDelivered /\ p' = p
              /\ evs = [EvSms id kind (sms env id kind)]).
Proof.
  destruct 1 as [Hn|kind us D]; [by left|]. right. exists kind, us. split; [done|].
  unfold sent. destruct (sms env id kind) eqn:E; simpl.
  - by left.
  - by right.
  - by right.
Qed.

Lemma SendStep_frame env now ds id c p p' evs :
  SendStep env now ds id c p p' evs ->
  hasPhone p' = hasPhone p /\ adminNotifiedDate p' = adminNotifiedDate p
  /\ reminderAttempts p <= reminderAttempts p'
  /\ List.filter isAdminMail evs = [] /\ List.filter isReactivationSms evs = [].
Proof.
  intros S. apply SendStep_inv in S as [(-> & -> & _) | (kind & us & D & S)].
  - repeat split; done.
  - apply Due_facts in D as (_ & _ & _ & Hk & Hq).
    destruct (Hq p) as (H1 & H2 & H3 & _).
    pose proof (Hk SmsDelivered) as Hk1.
    destruct kind; try discriminate;
    destruct S as [(E & -> & ->) | (E & -> & ->)]; repeat split; try done; lia.
Qed.

(** A scan step that sends: exactly one reminder SMS, to a patient of the
    cycle of the scan, who stays in it or becomes inactive. *)
Lemma SendStep_sends env now ds id c p p' evs :
  SendStep env now ds id c p p' evs ->
  evs <> [] ->
  length (List.filter isReminderSms evs) = 1%nat
  /\ smsReminderCycle p = c /\ hasPhone p = true
  /\ (c = new_user \/ c = active_user)
  /\ (smsReminderCycle p' = c \/ smsReminderCycle p' = inactive_user).
Proof.
  intros S Hne. apply SendStep_inv in S as [(-> & -> & _) | (kind & us & D & S)]; [done|].
  apply Due_facts in D as (Hc & Hp & Hcc & Hk & Hq).
  destruct (Hq p) as (_ & _ & _ & _ & Hcy).
  pose proof (Hk SmsDelivered) as Hk1.
  destruct kind; try discriminate Hk1;
    destruct S as [(E & -> & ->) | (E & -> & ->)]; simpl;
    repeat split; try done; auto;
    destruct Hcy as [[-> _]|[-> _]]; auto.
Qed.

Lemma SendStep_quiet env now ds id c p p' evs :
  SendStep env now ds id c p p' evs ->
  smsReminderCycle p <> c \/ hasPhone p = false ->
  p' = p /\ evs = [].
Proof.
  intros S Hq. apply SendStep_inv in S as [(? & ? & _) | (kind & us & D & S)]; [done|].
  apply Due_facts in D as (Hc & Hp & _). destruct Hq; congruence.
Qed.

Lemma reset_facts now p :
  let p' := applyUpdate (reactivationReset now) p in
  smsReminderCycle p' = new_user /\ hasLoggedFirstDose p' = false
  /\ reminderAttempts p' = 0 /\ lastReminderSent p' = None
  /\ nextReminderTime p' = None /\ welcomeSmsSentAt p' = Some now
  /\ hasPhone p' = hasPhone p /\ adminNotifiedDate p' = adminNotifiedDate p.
Proof. simpl. repeat split. Qed.

(** After the reset of a reactivation, the rest of the run does nothing: the
    6-hour mark lies in the future. *)
Lemma SendStep_after_reset env now ds id c p p' evs :
  SendStep env now ds id c (applyUpdate (reactivationReset now) p) p' evs ->
  p' = applyUpdate (reactivationReset now) p /\ evs = [].
Proof.
  intros S. apply SendStep_inv in S as [(? & ? & _) | (kind & us & D & S)]; [done|].
  exfalso. clear S.
  set (q := applyUpdate (reactivationReset now) p) in *.
  assert (smsReminderCycle q = new_user /\ reminderAttempts q = 0
          /\ welcomeSmsSentAt q = Some now) as (Hc & Ha & Hw) by done.
  clearbody q.
  destruct D;
    repeat match goal with
      | H : activeUsersQuery _ = true |- _ => apply activeUsersQuery_true in H
      end; try congruence; try lia.
  assert (t = now) as -> by congruence. unfold msPerHour in *. lia.
Qed.

Lemma AdminStep_inv env now ads id p p' evs :
  AdminStep env now ads id p p' evs ->
  (p' = p /\ evs = []
   /\ (inactiveUsersQuery p = false \/ adminEmailsOf ads = []))
  \/ (smsReminderCycle p = inactive_user /\ reminderAttempts p = 3
      /\ adminNotifiedDate p = None /\ adminEmailsOf ads <> []
      /\ p' = applyUpdate (adminNotified now) p
      /\ evs = map (fun e => EvAdminMail e id (adminMail env e id)) (adminEmailsOf ads)
               ++ [EvUpdate id (adminNotified now)]
      /\ inactiveUsersQuery p = true).
Proof.
  destruct 1 as [|Q E]; [by left|]. right.
  pose proof Q as Q'. apply inactiveUsersQuery_true in Q as (? & ? & ?). done.
Qed.

Lemma adminMails_filters env id es :
  let evs := map (fun e => EvAdminMail e id (adminMail env e id)) es in
  List.filter isReminderSms evs = [] /\ List.filter isReactivationSms evs = []
  /\ List.filter isSms evs = [] /\ List.filter isAdminMail evs = evs.
Proof.
  induction es as [|e es (H1 & H2 & H3 & H4)]; simpl; [done|].
  repeat split; try done. by rewrite H4.
Qed.

(** The two shapes of a run seen from a patient: the reset of a
    reactivation and nothing else, or (after at most a reactivation SMS
    that threw) a new-user step, an active-user step and an admin step. *)
Lemma TickSteps_inv env now ds ads id p p' evs :
  TickSteps env now ds ads id p p' evs ->
  (reactivationDue now p = true
   /\ sms env id (reactivationKind now p) <> SmsThrew
   /\ p' = applyUpdate (reactivationReset now) p
   /\ evs = [ EvSms id (reactivationKind now p) (sms env id (reactivationKind now p));
              EvUpdate id (reactivationReset now) ])
  \/ exists pre p2 p3 e2 e3 e4,
       (pre = [] /\ reactivationDue now p = false
        \/ pre = [EvSms id (reactivationKind now p) SmsThrew]
           /\ reactivationDue now p = true
           /\ sms env id (reactivationKind now p) = SmsThrew)
       /\ SendStep env now ds id new_user p p2 e2
       /\ SendStep env now ds id active_user p2 p3 e3
       /\ AdminStep env now ads id p3 p' e4
       /\ evs = pre ++ e2 ++ e3 ++ e4.
Proof.
  destruct 1 as [p1 p2 p3 p4 e1 e2 e3 e4 S1 S2 S3 S4].
  destruct S1 as [D | D E | o D E Ho].
  - right. exists [], p2, p3, e2, e3, e4. repeat split; auto.
  - right. exists [EvSms id (reactivationKind now p) SmsThrew], p2, p3, e2, e3, e4.
    repeat split; auto.
  - left. apply SendStep_after_reset in S2 as [-> ->].
    apply SendStep_after_reset in S3 as [-> ->].
    apply AdminStep_inv in S4 as [(-> & -> & _) | (Hc & _)]; [|discriminate].
    subst o. repeat split; auto.
Qed.

Lemma AdminStep_filters env now ads id p p' evs :
  AdminStep env now ads id p p' evs ->
  List.filter isReminderSms evs = [] /\ List.filter isReactivationSms evs = []
  /\ List.filter isSms evs = [].
Proof.
  intros S. apply AdminStep_inv in S as [(-> & -> & _) | (_ & _ & _ & _ & _ & -> & _)]; [done|].
  destruct (adminMails_filters env id (adminEmailsOf ads)) as (H1 & H2 & H3 & _).
  rewrite !List.filter_app, H1, H2, H3. done.
Qed.

(** The reminder SMS of a scan step: none, or one. *)
Lemma SendStep_count env now ds id c p p' evs :
  SendStep env now ds id c p p' evs ->
  evs = [] /\ p' = p /\ (forall kind us, ~ Due now ds id p c kind us)
  \/ length (List.filter isReminderSms evs) = 1%nat
     /\ smsReminderCycle p = c /\ hasPhone p = true
     /\ (c = new_user \/ c = active_user)
     /\ (smsReminderCycle p' = c \/ smsReminderCycle p' = inactive_user).
Proof.
  intros S. destruct evs as [|e evs].
  - left. apply SendStep_inv in S as [(-> & _ & ?) | (k & us & _ & [S|S])];
      [done | destruct S as (_ & _ & ?); done..].
  - right. apply (SendStep_sends _ _ _ _ _ _ _ _ S). done.
Qed.

(** C4. In one run of the reminder job at most one reminder SMS goes to a
    patient: the 6-hour and the 24-hour reminders of the new-user scan never
    go out together, nor do the first, the second and the final reminder of
    the active-user scan, nor a reminder of one scan with one of the other,
    since each block tests the number of attempts read when the patient was
    queried. *)
Theorem C4_one_reminder_per_tick
    (env : Env) (now : Z) (W : World) (id : PatientId) (p : Patient) :
  patients W !! id = Some p ->
  (length (List.filter isReminderSms
             (newEvents id W (scheduleComprehensiveReminderJob env now W))) <= 1)%nat.
Proof.
  intros H. destruct (tick_run env now W id p H) as (p' & _ & T).
  apply TickSteps_inv in T
    as [(_ & _ & _ & ->)
       | (pre & p2 & p3 & e2 & e3 & e4 & Hpre & S2 & S3 & S4 & ->)].
  - simpl. lia.
  - rewrite !List.filter_app, !length_app.
    apply AdminStep_filters in S4 as (-> & _).
    assert (List.filter isReminderSms pre = []) as ->
      by (destruct Hpre as [(-> & _) | (-> & _)]; done).
    apply SendStep_count in S2 as [(-> & -> & _) | (L2 & C2 & _ & _ & C2')];
      apply SendStep_count in S3 as [(-> & -> & _) | (L3 & C3 & _ & _ & C3')];
      simpl; try lia.
    destruct C2'; congruence.
Qed.

(** A run 100 hours after the last dose. *)
Lemma C4_witness :
  patients (Sample.world Sample.dosed) !! 7 = Some Sample.dosed
  /\ (length (List.filter isReminderSms
                (newEvents 7%Z (Sample.world Sample.dosed)
                   (scheduleComprehensiveReminderJob (Sample.env SmsDelivered true)
                      (100 * msPerHour)%Z (Sample.world Sample.dosed)))) <= 1)%nat.
Proof.
  split; [reflexivity|].
  apply (C4_one_reminder_per_tick (Sample.env SmsDelivered true) (100 * msPerHour)
           (Sample.world Sample.dosed) 7 Sample.dosed).
  reflexivity.
Defined.

Example C4_sample_sends_exactly_the_first_reminder :
  newEvents 7 (Sample.world Sample.dosed)
    (scheduleComprehensiveReminderJob (Sample.env SmsDelivered true)
       (100 * msPerHour) (Sample.world Sample.dosed))
  = [ EvSms 7 (DoseReminder 1) SmsDelivered;
      EvUpdate 7 [U_reminderAttempts 1; U_lastReminderSent (Some (100 * msPerHour))] ].
Proof. vm_compute. reflexivity. Qed.

Example final_reminder_and_admin_alert_in_one_run :
  let p := applyUpdate [ U_reminderAttempts 2;
                         U_lastReminderSent (Some (24 * msPerHour + 30 * msPerMinute)) ]
             Sample.dosed in
  newEvents 7 (Sample.world p)
    (scheduleComprehensiveReminderJob (Sample.env SmsDelivered true)
       (49 * msPerHour) (Sample.world p))
  = [ EvSms 7 ThirdReminder SmsDelivered;
      EvUpdate 7 [ U_reminderAttempts 3; U_lastReminderSent (Some (49 * msPerHour));
                   U_smsReminderCycle inactive_user ];
      EvAdminMail "admin@insulinlog.com" 7 true;
      EvUpdate 7 [ U_adminNotifiedDate (Some (49 * msPerHour));
                   U_smsReminderCycle admin_notified ] ].
Proof. vm_compute. reflexivity. Qed.

(** ** The admin alert *)

Lemma TickSteps_admin env now ds ads id p p' evs :
  TickSteps env now ds ads id p p' evs ->
  (List.filter isAdminMail evs <> [] ->
   adminNotifiedDate p = None /\ adminNotifiedDate p' = Some now
   /\ smsReminderCycle p' = admin_notified)
  /\ (forall d, adminNotifiedDate p = Some d ->
        adminNotifiedDate p' = Some d /\ List.filter isAdminMail evs = []).
Proof.
  intros T. apply TickSteps_inv in T
    as [(_ & _ & -> & ->)
       | (pre & p2 & p3 & e2 & e3 & e4 & Hpre & S2 & S3 & S4 & ->)].
  - split; [by intros []|]. intros d Hd. by split.
  - apply SendStep_frame in S2 as (_ & A2 & _ & F2 & _).
    apply SendStep_frame in S3 as (_ & A3 & _ & F3 & _).
    rewrite !List.filter_app, F2, F3.
    assert (List.filter isAdminMail pre = []) as ->
      by (destruct Hpre as [(-> & _) | (-> & _)]; done).
    simpl.
    apply AdminStep_inv in S4 as [(-> & -> & _) | (_ & _ & N & _ & -> & -> & _)].
    + split; [by intros []|]. intros d Hd. split; [congruence | done].
    + split; [intros _; split; [congruence | done] |].
      intros d Hd. congruence.
Qed.

Lemma logDose_cases env req W :
  logDose env req W = (400, W)
  \/ logDose env req W
     = (201, updatePatientReminderData env (req_user req) (req_timestamp req)
               (saveDose (mkDose (req_user req) (req_type req) (req_timestamp req)) W)).
Proof.
  unfold logDose. cbv zeta.
  destruct (match lastBasalDose (doses W) (req_user req) with
            | Some last => _ | None => false end); [by left | by right].
Qed.

(** A dose-log request, seen from a patient: the hook on this patient, or
    nothing. *)
Lemma logDose_patient env req W id p :
  patients W !! id = Some p ->
  exists p' evs,
    patients (logDose env req W).2 !! id = Some p'
    /\ eventsFor id (journal (logDose env req W).2) = eventsFor id (journal W) ++ evs
    /\ List.filter isAdminMail evs = [] /\ List.filter isSms evs = []
    /\ (p' = p /\ ((logDose env req W).1 = 400 \/ req_user req <> id)
        \/ req_user req = id /\ (logDose env req W).1 = 201
           /\ p' = applyUpdate (doseLogged env (req_timestamp req)) p).
Proof.
  intros H. destruct (logDose_cases env req W) as [-> | ->]; simpl.
  - exists p, []. rewrite app_nil_r. repeat split; auto.
  - unfold updatePatientReminderData. simpl.
    destruct (Z.eq_dec (req_user req) id) as [E|E].
    + rewrite E, H. simpl. rewrite lookup_alter_eq, H. simpl.
      eexists _, [_; _]. rewrite <- app_assoc, eventsFor_app. simpl.
      rewrite Z.eqb_refl. repeat split; auto.
    + destruct (patients W !! req_user req); simpl.
      * rewrite lookup_alter_ne by done. exists p, [].
        rewrite <- app_assoc, eventsFor_app. simpl.
        destruct (Z.eqb_spec (req_user req) id); [done|].
        repeat split; auto.
      * exists p, []. rewrite eventsFor_app. simpl.
        destruct (Z.eqb_spec (req_user req) id); [done|].
        repeat split; auto.
Qed.

Lemma run_admin op W id p d :
  patients W !! id = Some p -> adminNotifiedDate p = Some d ->
  exists p' evs,
    patients (run op W) !! id = Some p' /\ adminNotifiedDate p' = Some d
    /\ eventsFor id (journal (run op W)) = eventsFor id (journal W) ++ evs
    /\ List.filter isAdminMail evs = [].
Proof.
  intros H Hd. destruct op as [env now | env req]; cbn [run].
  - destruct (tick_steps env now W id p H) as (p' & evs & T & L & E & _).
    apply TickSteps_admin in T as [_ T]. destruct (T d Hd).
    by exists p', evs.
  - destruct (logDose_patient env req W id p H)
      as (p' & evs & L & E & F & _ & [(-> & _) | (_ & _ & ->)]);
      eexists _, evs; repeat split; eauto.
Qed.

Lemma runs_admin ops : forall W id p d,
  patients W !! id = Some p -> adminNotifiedDate p = Some d ->
  exists p' evs,
    patients (fold_left (fun w op => run op w) ops W) !! id = Some p'
    /\ adminNotifiedDate p' = Some d
    /\ eventsFor id (journal (fold_left (fun w op => run op w) ops W))
       = eventsFor id (journal W) ++ evs
    /\ List.filter isAdminMail evs = [].
Proof.
  induction ops as [|op ops IH]; intros W id p d H Hd; simpl.
  - exists p, []. by rewrite app_nil_r.
  - destruct (run_admin op W id p d H Hd) as (p1 & e1 & L1 & A1 & E1 & F1).
    destruct (IH (run op W) id p1 d L1 A1) as (p2 & e2 & L2 & A2 & E2 & F2).
    exists p2, (e1 ++ e2). repeat split; auto.
    + by rewrite E2, E1, <- app_assoc.
    + by rewrite List.filter_app, F1, F2.
Qed.

(** C3. The admin alert about a patient goes out only while adminNotifiedDate
    is absent, and the run that sends it sets adminNotifiedDate to the time
    of the run and the cycle to admin_notified; once adminNotifiedDate is
    set, no later run of the job (nor any dose log) sends the alert again or
    clears the date. *)
Theorem C3_admin_alert_once (W : World) (id : PatientId) (p : Patient) :
  patients W !! id = Some p ->
  (forall env now,
     List.filter isAdminMail
       (newEvents id W (scheduleComprehensiveReminderJob env now W)) <> [] ->
     adminNotifiedDate p = None
     /\ exists p',
          patients (scheduleComprehensiveReminderJob env now W) !! id = Some p'
          /\ adminNotifiedDate p' = Some now
          /\ smsReminderCycle p' = admin_notified)
  /\ (forall d, adminNotifiedDate p = Some d ->
      forall ops : list Operation,
        List.filter isAdminMail
          (newEvents id W (fold_left (fun w op => run op w) ops W)) = []
        /\ exists p',
             patients (fold_left (fun w op => run op w) ops W) !! id = Some p'
             /\ adminNotifiedDate p' = Some d).
Proof.
  intros H. split.
  - intros env now Hne.
    destruct (tick_run env now W id p H) as (p' & L & T).
    apply TickSteps_admin in T as [T _]. destruct (T Hne) as (? & ? & ?).
    split; [done|]. by exists p'.
  - intros d Hd ops.
    destruct (runs_admin ops W id p d H Hd) as (p' & evs & L & A & E & F).
    rewrite (newEvents_app _ _ _ _ E). split; [done|]. by exists p'.
Qed.

(** A patient who waits for the alert gets it at 50 hours; once notified,
    two more runs send nothing to the admins. *)
Lemma C3_witness :
  let waiting := applyUpdate [ U_reminderAttempts 3;
                               U_lastReminderSent (Some (49 * msPerHour));
                               U_smsReminderCycle inactive_user ]
                   Sample.dosed in
  let notified := applyUpdate (adminNotified (50 * msPerHour)) waiting in
  let env := Sample.env SmsDelivered true in
  (adminNotifiedDate waiting = None
   /\ exists p',
        patients (scheduleComprehensiveReminderJob env (50 * msPerHour)
                    (Sample.world waiting)) !! 7 = Some p'
        /\ adminNotifiedDate p' = Some (50 * msPerHour)
        /\ smsReminderCycle p' = admin_notified)
  /\ List.filter isAdminMail
       (newEvents 7 (Sample.world notified)
          (fold_left (fun w op => run op w)
             [OpTick env (51 * msPerHour); OpTick env (52 * msPerHour)]
             (Sample.world notified))) = [].
Proof.
  intros waiting notified env. split.
  - apply (proj1 (C3_admin_alert_once (Sample.world waiting) 7 waiting eq_refl)
             env (50 * msPerHour)).
    vm_compute. discriminate.
  - apply (proj2 (C3_admin_alert_once (Sample.world notified) 7 notified eq_refl)
             (50 * msPerHour) eq_refl
             [OpTick env (51 * msPerHour); OpTick env (52 * msPerHour)]).
Defined.

(** ** Reactivation *)

Lemma reactivationDue_spec now p :
  reactivationDue now p = true <->
  active p = true /\ verified p = true /\ previousActiveState p = Some false
  /\ exists la,
       lastActivationDate p = Some la
       /\ now - 2 * msPerHour <= la
       /\ (forall created, date p = Some created -> created < la)
       /\ (forall handled, welcomeSmsSentAt p = Some handled -> handled < la).
Proof.
  unfold reactivationDue, reactivatedQuery. cbv zeta.
  change (2 * 60 * 60 * 1000) with (2 * msPerHour).
  rewrite !andb_true_iff, bool_decide_eq_true.
  destruct (lastActivationDate p) as [la|].
  - rewrite andb_true_iff, Z.leb_le. split.
    + intros ((((A & V) & P) & (T & C)) & Hh). repeat split; try done.
      exists la. repeat split; try done.
      * intros created Hc. rewrite Hc in C. by apply Z.ltb_lt.
      * intros handled Hw. rewrite Hw in Hh. by apply Z.ltb_lt.
    + intros (A & V & P & la' & [= <-] & T & C & Hh). repeat split; try done.
      * destruct (date p) as [created|]; [|done]. apply Z.ltb_lt. by apply C.
      * destruct (welcomeSmsSentAt p) as [handled|]; [|done].
        apply Z.ltb_lt. by apply Hh.
  - split.
    + intros ((_ & [=]) & _).
    + intros (_ & _ & _ & la & [=] & _).
Qed.

Lemma TickSteps_reactivation env now ds ads id p p' evs :
  TickSteps env now ds ads id p p' evs ->
  (List.filter isReactivationSms evs <> [] <-> reactivationDue now p = true)
  /\ (reactivationDue now p = true ->
      sms env id (reactivationKind now p) <> SmsThrew ->
      p' = applyUpdate (reactivationReset now) p).
Proof.
  intros T. apply TickSteps_inv in T
    as [(D & Ho & -> & ->)
       | (pre & p2 & p3 & e2 & e3 & e4 & Hpre & S2 & S3 & S4 & ->)].
  - split; [|done]. split; [done|]. intros _. simpl. discriminate.
  - apply SendStep_frame in S2 as (_ & _ & _ & _ & F2).
    apply SendStep_frame in S3 as (_ & _ & _ & _ & F3).
    apply AdminStep_filters in S4 as (_ & F4 & _).
    rewrite !List.filter_app, F2, F3, F4, !app_nil_r.
    destruct Hpre as [(-> & D) | (-> & D & E)].
    + split; [|congruence]. simpl. split; [done | congruence].
    + split; [|congruence]. simpl. split; [done | discriminate].
Qed.

(** C6 (amended). A run of the reminder job handles a reactivation for a
    patient exactly when active and verified are true, previousActiveState is
    false, lastActivationDate is present, within the last 2 hours and later
    than the creation date of the account (when there is one), and
    welcomeSmsSentAt is absent or earlier than lastActivationDate.  Unless
    the SMS call throws, the handling resets the patient to cycle new_user,
    hasLoggedFirstDose false, reminderAttempts 0, lastReminderSent and
    nextReminderTime absent, welcomeSmsSentAt the time of the run. *)
Theorem C6_reactivation_handling
    (env : Env) (now : Z) (W : World) (id : PatientId) (p : Patient) :
  patients W !! id = Some p ->
  (List.filter isReactivationSms
     (newEvents id W (scheduleComprehensiveReminderJob env now W)) <> []
   <->
   active p = true /\ verified p = true /\ previousActiveState p = Some false
   /\ exists la,
        lastActivationDate p = Some la
        /\ now - 2 * msPerHour <= la
        /\ (forall created, date p = Some created -> created < la)
        /\ (forall handled, welcomeSmsSentAt p = Some handled -> handled < la))
  /\ (List.filter isReactivationSms
        (newEvents id W (scheduleComprehensiveReminderJob env now W)) <> [] ->
      sms env id (reactivationKind now p) <> SmsThrew ->
      exists p',
        patients (scheduleComprehensiveReminderJob env now W) !! id = Some p'
        /\ smsReminderCycle p' = new_user
        /\ hasLoggedFirstDose p' = false
        /\ reminderAttempts p' = 0
        /\ lastReminderSent p' = None
        /\ nextReminderTime p' = None
        /\ welcomeSmsSentAt p' = Some now).
Proof.
  intros H. destruct (tick_run env now W id p H) as (p' & L & T).
  apply TickSteps_reactivation in T as [T1 T2].
  split.
  - rewrite T1. apply reactivationDue_spec.
  - intros Hne Ho. apply T1 in Hne. rewrite (T2 Hne Ho) in L.
    eexists. split; [exact L|]. repeat split.
Qed.

(** Without the guard on the creation date the equivalence fails: a patient
    whose account is created at the time of the activation meets every other
    condition, and the run does not handle the reactivation. *)
Lemma C6_counterexample :
  let p := Sample.createdAt 1000 (Sample.reactivatedAt 1000 Sample.dosed) in
  let W := Sample.world p in
  let now := 1000 + 10 * msPerMinute in
  (active p = true /\ verified p = true /\ previousActiveState p = Some false
   /\ exists la,
        lastActivationDate p = Some la
        /\ now - 2 * msPerHour <= la
        /\ (forall handled, welcomeSmsSentAt p = Some handled -> handled < la))
  /\ List.filter isReactivationSms
       (newEvents 7 W
          (scheduleComprehensiveReminderJob (Sample.env SmsDelivered true) now W))
     = [].
Proof.
  split.
  - repeat split. exists 1000. repeat split; [vm_compute; discriminate|].
    intros handled [= <-]. lia.
  - vm_compute. reflexivity.
Qed.

(** A patient reactivated ten minutes before the run. *)
Lemma C6_witness :
  let p := Sample.reactivatedAt 1000 Sample.dosed in
  let W := Sample.world p in
  let env := Sample.env SmsDelivered true in
  let now := 1000 + 10 * msPerMinute in
  patients W !! 7 = Some p
  /\ exists p',
       patients (scheduleComprehensiveReminderJob env now W) !! 7 = Some p'
       /\ smsReminderCycle p' = new_user
       /\ hasLoggedFirstDose p' = false
       /\ reminderAttempts p' = 0
       /\ lastReminderSent p' = None
       /\ nextReminderTime p' = None
       /\ welcomeSmsSentAt p' = Some now.
Proof.
  intros p W env now. split; [reflexivity|].
  apply (proj2 (C6_reactivation_handling env now W 7 p eq_refl)).
  - vm_compute. discriminate.
  - vm_compute. discriminate.
Defined.

(** ** The table of reminders is deterministic *)

Lemma Due_functional now ds id p c k1 u1 k2 u2 :
  Due now ds id p c k1 u1 -> Due now ds id p c k2 u2 -> k1 = k2 /\ u1 = u2.
Proof.
  intros D1 D2. destruct D1; inversion D2; subst; try done; lia.
Qed.

Lemma Due_later now now' ds id p c kind us :
  Due now ds id p c kind us -> now <= now' ->
  exists us', Due now' ds id p c kind us'.
Proof.
  intros D Hle. destruct D; eexists;
    [ eapply Due_newUser6h | eapply Due_newUser24h | eapply Due_first
    | eapply Due_second | eapply Due_final ]; eauto; lia.
Qed.

(** A reminder that is due is sent by the scan of its cycle. *)
Lemma SendStep_due env now ds id c p p' evs kind us :
  SendStep env now ds id c p p' evs -> Due now ds id p c kind us ->
  In (EvSms id kind (sms env id kind)) evs
  /\ (sms env id kind = SmsDelivered -> p' = applyUpdate us p)
  /\ (sms env id kind <> SmsDelivered -> p' = p).
Proof.
  intros S D. apply SendStep_inv in S as [(_ & _ & N) | (k & us' & D' & S)].
  - by destruct (N kind us).
  - destruct (Due_functional _ _ _ _ _ _ _ _ _ D D') as [<- <-].
    destruct S as [(E & -> & ->) | (E & -> & ->)].
    + rewrite E. split; [by left|]. split; [done | congruence].
    + split; [by left|]. split; [congruence | done].
Qed.

Lemma AdminStep_quiet env now ads id p p' evs :
  AdminStep env now ads id p p' evs ->
  smsReminderCycle p <> inactive_user ->
  p' = p /\ evs = [].
Proof.
  intros S Hc. apply AdminStep_inv in S as [(-> & -> & _) | (? & _)]; done.
Qed.

(** The run of the job when a reminder is due and no reactivation is. *)
Lemma TickSteps_due env now ds ads id p p' evs c kind us :
  TickSteps env now ds ads id p p' evs ->
  reactivationDue now p = false ->
  Due now ds id p c kind us ->
  (sms env id kind = SmsDelivered ->
     evs = [EvSms id kind SmsDelivered; EvUpdate id us] /\ p' = applyUpdate us p
     \/ exists adminEvs,
          evs = [EvSms id kind SmsDelivered; EvUpdate id us] ++ adminEvs
          /\ kind = ThirdReminder)
  /\ (sms env id kind <> SmsDelivered ->
        evs = [EvSms id kind (sms env id kind)] /\ p' = p)
  /\ In (EvSms id kind (sms env id kind)) evs.
Proof.
  intros T Hd D. apply TickSteps_inv in T
    as [(D' & _) | (pre & p2 & p3 & e2 & e3 & e4 & Hpre & S2 & S3 & S4 & ->)];
    [congruence|].
  destruct Hpre as [(-> & _) | (_ & ? & _)]; [|congruence]. simpl.
  pose proof (Due_facts _ _ _ _ _ _ _ D) as (Hc & Hp & Hcc & Hk & Hq).
  destruct Hcc as [-> | ->].
  - (* a new-user reminder *)
    destruct (SendStep_due _ _ _ _ _ _ _ _ _ _ S2 D) as (I2 & Y2 & N2).
    apply SendStep_inv in S2 as [(_ & _ & N) | (k & us' & D' & S2)];
      [by destruct (N kind us)|].
    destruct (Due_functional _ _ _ _ _ _ _ _ _ D D') as [<- <-].
    assert (smsReminderCycle p2 <> active_user) as C2.
    { destruct S2 as [(_ & -> & _) | (_ & -> & _)]; [|congruence].
      destruct (Hq p) as (_ & _ & _ & _ & [[-> _] | [-> _]]); congruence. }
    apply SendStep_quiet in S3 as [-> ->]; [|by left].
    assert (evs3 : e4 = [] /\ p' = p2 \/ kind = ThirdReminder).
    { apply AdminStep_inv in S4 as [(-> & -> & _) | (C4 & A4 & _)]; [by left|].
      destruct S2 as [(_ & -> & _) | (_ & -> & _)]; [|congruence].
      revert A4. clear -D. inversion D; subst; simpl; intros; lia. }
    destruct S2 as [(E & -> & ->) | (E & -> & ->)].
    + split; [|split]; [|intros ?; congruence | rewrite E; by left].
      intros _. destruct evs3 as [[-> ->] | ->]; [by left|]. right. by exists e4.
    + split; [intros ?; congruence|]. split; [|by left]. intros _.
      apply AdminStep_quiet in S4 as [-> ->]; [done | congruence].
  - (* an active-user reminder *)
    apply SendStep_quiet in S2 as [-> ->]; [|left; congruence].
    destruct (SendStep_due _ _ _ _ _ _ _ _ _ _ S3 D) as (I3 & Y3 & N3).
    apply SendStep_inv in S3 as [(_ & _ & N) | (k & us' & D' & S3)];
      [by destruct (N kind us)|].
    destruct (Due_functional _ _ _ _ _ _ _ _ _ D D') as [<- <-].
    destruct S3 as [(E & -> & ->) | (E & -> & ->)].
    + split; [|split]; [|intros ?; congruence | rewrite E; by left].
      intros _. simpl.
      apply AdminStep_inv in S4 as [(-> & -> & _) | (C4 & A4 & _)]; [by left|].
      right. exists e4. split; [done|].
      revert A4. clear -D. inversion D; subst; simpl; intros; first [done | lia].
    + split; [intros ?; congruence|]. split; [|by left]. intros _.
      apply AdminStep_quiet in S4 as [-> ->]; [done | congruence].
Qed.

(** ** The first reminder of the active-user scan *)




(** ** Failed sends *)

Lemma In_adminMails_sms env id es i k o :
  ~ In (EvSms i k o) (map (fun e => EvAdminMail e id (adminMail env e id)) es).
Proof. induction es as [|e es IH]; simpl; [tauto|]. intros [[=]|?]. tauto. Qed.

Lemma AdminStep_no_sms env now ads id p p' evs i k o :
  AdminStep env now ads id p p' evs -> ~ In (EvSms i k o) evs.
Proof.
  intros S. apply AdminStep_inv in S as [(_ & -> & _) | (_ & _ & _ & _ & _ & -> & _)];
    [by intros []|].
  intros [H | [[=] | []]]%in_app_or. by apply In_adminMails_sms in H.
Qed.

Lemma SendStep_In env now ds id c p p' evs k o :
  SendStep env now ds id c p p' evs -> In (EvSms id k o) evs ->
  exists us, Due now ds id p c k us /\ o = sms env id k
             /\ (o <> SmsDelivered -> p' = p).
Proof.
  intros S I. apply SendStep_inv in S as [(_ & -> & _) | (k' & us & D & S)];
    [by destruct I|].
  exists us. destruct S as [(E & -> & ->) | (E & -> & ->)].
  - destruct I as [[= <- <-] | [[=] | []]]. by rewrite E.
  - destruct I as [[= <- <-] | []]. done.
Qed.

(** A reminder SMS that failed: it was due, and the run left the document
    as it was. *)
Lemma TickSteps_failed env now ds ads id p p' evs kind o :
  TickSteps env now ds ads id p p' evs ->
  In (EvSms id kind o) evs ->
  isReminderSms (EvSms id kind o) = true ->
  o <> SmsDelivered ->
  p' = p /\ exists c us, Due now ds id p c kind us.
Proof.
  intros T I K O. apply TickSteps_inv in T
    as [(_ & _ & _ & ->)
       | (pre & p2 & p3 & e2 & e3 & e4 & Hpre & S2 & S3 & S4 & ->)].
  - destruct I as [[= <- <-] | [[=] | []]]. discriminate.
  - apply in_app_or in I as [I | I].
    { destruct Hpre as [(-> & _) | (-> & _)]; [by destruct I|].
      destruct I as [[= <- <-] | []]. discriminate. }
    apply in_app_or in I as [I | I]; [|apply in_app_or in I as [I | I]].
    + destruct (SendStep_In _ _ _ _ _ _ _ _ _ _ S2 I) as (us & D & -> & N).
      rewrite (N O) in *.
      pose proof (Due_facts _ _ _ _ _ _ _ D) as (C & _).
      apply SendStep_quiet in S3 as [-> _]; [|left; congruence].
      apply AdminStep_quiet in S4 as [-> _]; [|congruence].
      split; [done|]. by exists new_user, us.
    + destruct (SendStep_In _ _ _ _ _ _ _ _ _ _ S3 I) as (us & D & -> & N).
      rewrite (N O) in *.
      pose proof (Due_facts _ _ _ _ _ _ _ D) as (C & _).
      apply SendStep_count in S2 as [(_ & -> & _) | (_ & _ & _ & _ & [C2|C2])];
        [|congruence..].
      apply AdminStep_quiet in S4 as [-> _]; [|congruence].
      split; [done|]. by exists active_user, us.
    + by apply (AdminStep_no_sms _ _ _ _ _ _ _ _ _ _ S4) in I.
Qed.

(** *** The run is a function of the patient and of what is answered about
    that patient *)

Lemma ReactivationStep_functional env now id p p1 e1 p2 e2 :
  ReactivationStep env now id p p1 e1 -> ReactivationStep env now id p p2 e2 ->
  p1 = p2 /\ e1 = e2.
Proof. intros S1 S2. destruct S1; inversion S2; subst; try done; congruence. Qed.

Lemma SendStep_functional env now ds id c p p1 e1 p2 e2 :
  SendStep env now ds id c p p1 e1 -> SendStep env now ds id c p p2 e2 ->
  p1 = p2 /\ e1 = e2.
Proof.
  intros S1 S2. destruct S1 as [N1 | k1 u1 D1]; inversion S2 as [N2 | k2 u2 D2]; subst.
  - done.
  - by destruct (N1 k2 u2).
  - by destruct (N2 k1 u1).
  - by destruct (Due_functional _ _ _ _ _ _ _ _ _ D1 D2) as [-> ->].
Qed.

Lemma AdminStep_functional env now ads id p p1 e1 p2 e2 :
  AdminStep env now ads id p p1 e1 -> AdminStep env now ads id p p2 e2 ->
  p1 = p2 /\ e1 = e2.
Proof.
  intros S1 S2. destruct S1 as [[?|?]|]; inversion S2 as [[?|?]|]; subst;
    try done; congruence.
Qed.

Lemma TickSteps_functional env now ds ads id p p1 e1 p2 e2 :
  TickSteps env now ds ads id p p1 e1 -> TickSteps env now ds ads id p p2 e2 ->
  p1 = p2 /\ e1 = e2.
Proof.
  intros T1 T2.
  destruct T1 as [a1 a2 a3 a4 x1 x2 x3 x4 A1 A2 A3 A4].
  destruct T2 as [b1 b2 b3 b4 y1 y2 y3 y4 B1 B2 B3 B4].
  destruct (ReactivationStep_functional _ _ _ _ _ _ _ _ A1 B1) as [-> ->].
  destruct (SendStep_functional _ _ _ _ _ _ _ _ _ _ A2 B2) as [-> ->].
  destruct (SendStep_functional _ _ _ _ _ _ _ _ _ _ A3 B3) as [-> ->].
  destruct (AdminStep_functional _ _ _ _ _ _ _ _ _ A4 B4) as [-> ->].
  done.
Qed.

Section SameAnswers.
Context (env env' : Env) (id : PatientId).
Context (same_sms : forall k, sms env' id k = sms env id k).
Context (same_mail : forall e, adminMail env' e id = adminMail env e id).

Lemma TickSteps_same_answers now ds ads p p' evs :
  TickSteps env' now ds ads id p p' evs -> TickSteps env now ds ads id p p' evs.
Proof.
  destruct 1 as [p1 p2 p3 p4 e1 e2 e3 e4 S1 S2 S3 S4].
  apply (TickSteps_intro env now ds ads id p p1 p2 p3 p4).
  - destruct S1 as [D | D E | o D E Ho].
    + by apply React_none.
    + rewrite same_sms in E. by apply React_threw.
    + rewrite same_sms in E. by apply React_reset.
  - destruct S2 as [N | k us D]; [by apply Send_none|].
    replace (sent env' id k us p1) with (sent env id k us p1)
      by (unfold sent; by rewrite same_sms).
    by apply Send_due.
  - destruct S3 as [N | k us D]; [by apply Send_none|].
    replace (sent env' id k us p2) with (sent env id k us p2)
      by (unfold sent; by rewrite same_sms).
    by apply Send_due.
  - destruct S4 as [N | Q E]; [by apply Admin_none|].
    replace (map (fun e => EvAdminMail e id (adminMail env' e id)) (adminEmailsOf ads))
      with (map (fun e => EvAdminMail e id (adminMail env e id)) (adminEmailsOf ads))
      by (apply map_ext; intros; by rewrite same_mail).
    by apply Admin_alert.
Qed.

End SameAnswers.

(** C7 (amended). When a reminder SMS of the new-user or of the active-user
    scan fails (unsuccessful result, or a throw), the run leaves the document
    of the patient as it was, and the next run sends the same reminder again
    unless a reactivation is pending then; a reactivation SMS that throws is
    followed by no reset (one that returns, successfully or not, is); and what
    a run does to a patient does not depend on what the services answer about
    other patients. *)
Theorem C7_failed_reminder_changes_nothing
    (env : Env) (now : Z) (W : World) (id : PatientId) (p : Patient) :
  patients W !! id = Some p ->
  (forall kind o,
     In (EvSms id kind o)
        (newEvents id W (scheduleComprehensiveReminderJob env now W)) ->
     isReminderSms (EvSms id kind o) = true ->
     o <> SmsDelivered ->
     patients (scheduleComprehensiveReminderJob env now W) !! id = Some p
     /\ forall env2 now2,
          now <= now2 -> reactivationDue now2 p = false ->
          In (EvSms id kind (sms env2 id kind))
             (newEvents id (scheduleComprehensiveReminderJob env now W)
                (scheduleComprehensiveReminderJob env2 now2
                   (scheduleComprehensiveReminderJob env now W))))
  /\ (sms env id (reactivationKind now p) = SmsThrew ->
      ~ In (EvUpdate id (reactivationReset now))
           (newEvents id W (scheduleComprehensiveReminderJob env now W)))
  /\ (forall env',
        (forall k, sms env' id k = sms env id k) ->
        (forall e, adminMail env' e id = adminMail env e id) ->
        patients (scheduleComprehensiveReminderJob env' now W) !! id
        = patients (scheduleComprehensiveReminderJob env now W) !! id
        /\ newEvents id W (scheduleComprehensiveReminderJob env' now W)
           = newEvents id W (scheduleComprehensiveReminderJob env now W)).
Proof.
  intros H.
  destruct (tick_steps env now W id p H) as (p' & evs & T & L & E & Hd & Ha).
  rewrite (newEvents_app _ _ _ _ E). split; [|split].
  - intros kind o I K O.
    destruct (TickSteps_failed _ _ _ _ _ _ _ _ _ _ T I K O) as (-> & c & us & D).
    split; [done|]. intros env2 now2 Hle R.
    destruct (tick_run env2 now2 _ id p L) as (p2 & _ & T2).
    rewrite Hd, Ha in T2.
    destruct (Due_later _ now2 _ _ _ _ _ _ D Hle) as (us' & D').
    by destruct (TickSteps_due _ _ _ _ _ _ _ _ _ _ _ T2 R D') as (_ & _ & ?).
  - intros Thr. apply TickSteps_inv in T
      as [(_ & Ho & _) | (pre & p2 & p3 & e2 & e3 & e4 & Hpre & S2 & S3 & S4 & ->)];
      [done|].
    intros I. apply in_app_or in I as [I | I].
    { destruct Hpre as [(-> & _) | (-> & _)]; [by destruct I|].
      by destruct I as [[=] | []]. }
    assert (forall c q q' e, SendStep env now (doses W) id c q q' e ->
                             ~ In (EvUpdate id (reactivationReset now)) e) as NoReset.
    { intros c q q' e S J.
      apply SendStep_inv in S as [(_ & -> & _) | (k & us & D & S)]; [by destruct J|].
      destruct S as [(_ & _ & ->) | (_ & _ & ->)].
      - destruct J as [[=] | [[= ->] | []]].
        unfold reactivationReset in D. inversion D.
      - by destruct J as [[=] | []]. }
    apply in_app_or in I as [I | I]; [by apply NoReset in S2|].
    apply in_app_or in I as [I | I]; [by apply NoReset in S3|].
    apply AdminStep_inv in S4 as [(_ & -> & _) | (_ & _ & _ & _ & _ & -> & _)];
      [by destruct I|].
    apply in_app_or in I as [I | [[=] | []]].
    clear -I. induction (adminEmailsOf (admins W)); simpl in I; [done|].
    destruct I as [[=] | I]; auto.
  - intros env' Hs Hm.
    destruct (tick_steps env' now W id p H) as (q & evs' & T' & L' & E' & _).
    rewrite (newEvents_app _ _ _ _ E').
    apply (TickSteps_same_answers env env' id Hs Hm) in T'.
    destruct (TickSteps_functional _ _ _ _ _ _ _ _ _ _ T T') as [-> ->].
    by rewrite L, L'.
Qed.

(** A reactivation SMS that returns an unsuccessful result is followed by the
    reset all the same: the document changes, and the next run will not send
    it again. *)
Lemma C7_counterexample :
  let p := Sample.reactivatedAt 1000 Sample.dosed in
  let W := Sample.world p in
  let env := Sample.env SmsFailed true in
  let now := 1000 + 10 * msPerMinute in
  patients W !! 7 = Some p
  /\ newEvents 7 W (scheduleComprehensiveReminderJob env now W)
     = [ EvSms 7 (SmartReactivation false) SmsFailed;
         EvUpdate 7 (reactivationReset now) ]
  /\ patients (scheduleComprehensiveReminderJob env now W) !! 7
     = Some (applyUpdate (reactivationReset now) p)
  /\ applyUpdate (reactivationReset now) p <> p.
Proof.
  intros p W env now.
  split; [reflexivity|]. split; [vm_compute; reflexivity|].
  split; [vm_compute; reflexivity|].
  intros Heq. apply (f_equal smsReminderCycle) in Heq. discriminate Heq.
Qed.

(** The first reminder fails at 24 hours: the document stays as it was, and
    the run half an hour later sends the reminder again. *)
Lemma C7_witness :
  let W := Sample.world Sample.dosed in
  let env := Sample.env SmsFailed true in
  let now := 24 * msPerHour in
  patients W !! 7 = Some Sample.dosed
  /\ patients (scheduleComprehensiveReminderJob env now W) !! 7 = Some Sample.dosed
  /\ In (EvSms 7 (DoseReminder 1) SmsDelivered)
        (newEvents 7 (scheduleComprehensiveReminderJob env now W)
           (scheduleComprehensiveReminderJob (Sample.env SmsDelivered true)
              (now + 30 * msPerMinute)
              (scheduleComprehensiveReminderJob env now W))).
Proof.
  intros W env now. split; [reflexivity|].
  destruct (proj1 (C7_failed_reminder_changes_nothing env now W 7 Sample.dosed
                     eq_refl) (DoseReminder 1) SmsFailed) as [Same Again].
  - vm_compute. by left.
  - reflexivity.
  - discriminate.
  - split; [exact Same|].
    apply (Again (Sample.env SmsDelivered true) (now + 30 * msPerMinute)).
    + vm_compute. discriminate.
    + reflexivity.
Defined.

(** ** Patients without a phone *)

(** C9 (amended). For a patient with no phone number, the new-user and the
    active-user scans send no SMS and write nothing: a run sends the patient
    no reminder, its only possible updates are the reset of a reactivation
    and the mark of the admin alert, and when neither of these two is due
    the run leaves the document as it is and does nothing about the
    patient. *)
Theorem C9_no_phone_no_reminder
    (env : Env) (now : Z) (W : World) (id : PatientId) (p : Patient) :
  patients W !! id = Some p ->
  hasPhone p = false ->
  List.filter isReminderSms
    (newEvents id W (scheduleComprehensiveReminderJob env now W)) = []
  /\ (forall us,
        In (EvUpdate id us)
           (newEvents id W (scheduleComprehensiveReminderJob env now W)) ->
        us = reactivationReset now \/ us = adminNotified now)
  /\ (reactivationDue now p = false -> inactiveUsersQuery p = false ->
      patients (scheduleComprehensiveReminderJob env now W) !! id = Some p
      /\ newEvents id W (scheduleComprehensiveReminderJob env now W) = []).
Proof.
  intros H Ph. destruct (tick_run env now W id p H) as (p' & L & T).
  revert T. generalize (newEvents id W (scheduleComprehensiveReminderJob env now W)).
  intros evs T.
  apply TickSteps_inv in T
    as [(R & _ & -> & ->)
       | (pre & p2 & p3 & e2 & e3 & e4 & Hpre & S2 & S3 & S4 & ->)].
  - split; [done|]. split; [|congruence].
    intros us [[=] | [[= <-] | []]]. by left.
  - apply SendStep_quiet in S2 as [-> ->]; [|by right].
    apply SendStep_quiet in S3 as [-> ->]; [|by right].
    simpl. rewrite !List.filter_app.
    assert (List.filter isReminderSms pre = []) as ->
      by (destruct Hpre as [(-> & _) | (-> & _)]; done).
    pose proof (AdminStep_filters _ _ _ _ _ _ _ S4) as (-> & _).
    split; [done|]. split.
    + intros us [I | I]%in_app_or.
      { destruct Hpre as [(-> & _) | (-> & _)]; [by destruct I|].
        by destruct I as [[=] | []]. }
      apply AdminStep_inv in S4 as [(_ & -> & _) | (_ & _ & _ & _ & _ & -> & _)];
        [by destruct I|].
      apply in_app_or in I as [I | [[= <-] | []]]; [|by right].
      exfalso. clear -I. induction (adminEmailsOf (admins W)); simpl in I; [done|].
      destruct I as [[=] | I]; auto.
    + intros R Q. destruct Hpre as [(-> & _) | (_ & ? & _)]; [|congruence].
      apply AdminStep_inv in S4 as [(-> & -> & _) | (_ & _ & _ & _ & _ & _ & ?)];
        [done | congruence].
Qed.

(** A patient with no phone number whose reactivation is pending: the run
    attempts the reactivation SMS and resets the document. *)
Lemma C9_counterexample :
  let p := Sample.withoutPhone (Sample.reactivatedAt 1000 Sample.dosed) in
  let W := Sample.world p in
  let env := Sample.env SmsFailed true in
  let now := 1000 + 10 * msPerMinute in
  patients W !! 7 = Some p
  /\ hasPhone p = false
  /\ newEvents 7 W (scheduleComprehensiveReminderJob env now W)
     = [ EvSms 7 (SmartReactivation false) SmsFailed;
         EvUpdate 7 (reactivationReset now) ]
  /\ (reminderAttempts <$> patients (scheduleComprehensiveReminderJob env now W) !! 7)
     = Some 0
  /\ (smsReminderCycle <$> patients (scheduleComprehensiveReminderJob env now W) !! 7)
     = Some new_user.
Proof.
  intros p W env now.
  split; [reflexivity|]. split; [reflexivity|].
  split; [vm_compute; reflexivity|]. split; vm_compute; reflexivity.
Qed.

(** A patient with no phone number, 24 hours after the last dose: nothing is
    sent, nothing is written. *)
Lemma C9_witness :
  let p := Sample.withoutPhone Sample.dosed in
  let W := Sample.world p in
  let env := Sample.env SmsDelivered true in
  let now := 24 * msPerHour in
  (patients W !! 7 = Some p /\ hasPhone p = false)
  /\ List.filter isReminderSms
       (newEvents 7 W (scheduleComprehensiveReminderJob env now W)) = []
  /\ patients (scheduleComprehensiveReminderJob env now W) !! 7 = Some p
  /\ newEvents 7 W (scheduleComprehensiveReminderJob env now W) = [].
Proof.
  intros p W env now. split; [by split|].
  destruct (C9_no_phone_no_reminder env now W 7 p eq_refl eq_refl)
    as (NoSms & _ & Unchanged).
  split; [exact NoSms|]. by apply Unchanged.
Defined.

(** ** The number of attempts *)





(** ** The subscription job *)

Lemma daysUntilExpiry_spec now expiry k :
  daysUntilExpiry now expiry = k
  <-> (k - 1) * msPerDay < expiry - now <= k * msPerDay.
Proof.
  unfold daysUntilExpiry. cbv zeta.
  change (1000 * 60 * 60 * 24) with msPerDay.
  apply JSDateFacts.ceilDiv_spec. reflexivity.
Qed.

Lemma local_subscriptionBody env now id p ds ads :
  LocalAt id ds ads (subscriptionBody env now id p).
Proof.
  unfold subscriptionBody, awaitSubscriptionMail, andThen, tryCatch.
  destruct (subscriptionExpiry p) as [e|]; [|apply local_skip].
  cbv zeta.
  destruct (daysUntilExpiry now e =? 7);
    [|destruct (daysUntilExpiry now e =? 1);
      [|destruct (daysUntilExpiry now e <=? 0);
        [destruct (daysUntilExpiry now e =? 0)|]]];
    try destruct (subscriptionMail env id _);
    try destruct (active p);
    try apply local_skip.
  all: eexists _, _; split;
    [| intros w _ _;
       rewrite ?findByIdAndUpdate_effect, ?(emit_effect id), ?effect_effect;
       reflexivity ].
  all: by repeat constructor.
Qed.

(** The daily job, seen from one patient whose subscription expires in
    [daysUntilExpiry] days. *)
Lemma subscription_scan_solo env now id p ds ads j expiry :
  subscriptionQuery p = true -> subscriptionExpiry p = Some expiry ->
  let days := daysUntilExpiry now expiry in
  let mail kind := EvSubscriptionMail id kind (subscriptionMail env id kind) in
  scheduleSubscriptionJob env now (solo id p ds ads j)
  = if days =? 7 then solo id p ds ads (j ++ [mail ExpiryWarning])
    else if days =? 1 then solo id p ds ads (j ++ [mail ExpiryUrgent])
    else if days =? 0 then
      if subscriptionMail env id ExpiredNotification
      then solo id (applyUpdate (deactivated now) p) ds ads
             (j ++ [mail ExpiredNotification; EvUpdate id (deactivated now)])
      else solo id p ds ads (j ++ [mail ExpiredNotification])
    else if days <? 0 then
      solo id (applyUpdate (deactivated now) p) ds ads
        (j ++ [EvUpdate id (deactivated now)])
    else solo id p ds ads j.
Proof.
  intros Q E days mail. unfold scheduleSubscriptionJob.
  rewrite forEach_solo, Q.
  assert (active p = true) as A.
  { unfold subscriptionQuery in Q. rewrite !andb_true_iff in Q. tauto. }
  unfold subscriptionBody, awaitSubscriptionMail, andThen, tryCatch.
  rewrite E, A. cbv zeta. fold days.
  destruct (Z.eqb_spec days 7) as [D7|D7].
  { destruct (subscriptionMail env id ExpiryWarning) eqn:M; subst mail; simpl;
      by rewrite M. }
  destruct (Z.eqb_spec days 1) as [D1|D1].
  { destruct (subscriptionMail env id ExpiryUrgent) eqn:M; subst mail; simpl;
      by rewrite M. }
  destruct (Z.eqb_spec days 0) as [D0|D0].
  { rewrite D0. simpl.
    destruct (subscriptionMail env id ExpiredNotification) eqn:M; subst mail; simpl;
      rewrite ?M; [|done].
    rewrite emit_solo, findByIdAndUpdate_solo. by rewrite <- app_assoc. }
  destruct (Z.leb_spec days 0), (Z.ltb_spec days 0); try lia; [|done].
  apply findByIdAndUpdate_solo.
Qed.

Lemma subscription_view env now id W p :
  patients W !! id = Some p ->
  exists p', patients (scheduleSubscriptionJob env now W) !! id = Some p'
    /\ viewOf id p' (scheduleSubscriptionJob env now W)
       = scheduleSubscriptionJob env now (viewOf id p W).
Proof.
  intros H. unfold scheduleSubscriptionJob.
  apply (forEach_view _ (local_subscriptionBody env now) id subscriptionQuery W p H).
Qed.

(** What the daily job does for a patient it selects, in any world. *)
Theorem subscription_run env now W id p expiry :
  patients W !! id = Some p ->
  subscriptionQuery p = true -> subscriptionExpiry p = Some expiry ->
  let days := daysUntilExpiry now expiry in
  let mail kind := EvSubscriptionMail id kind (subscriptionMail env id kind) in
  let W' := scheduleSubscriptionJob env now W in
  exists p',
    patients W' !! id = Some p'
    /\ (days = 7 -> newEvents id W W' = [mail ExpiryWarning] /\ p' = p)
    /\ (days = 1 -> newEvents id W W' = [mail ExpiryUrgent] /\ p' = p)
    /\ (days = 0 -> subscriptionMail env id ExpiredNotification = true ->
        newEvents id W W' = [mail ExpiredNotification; EvUpdate id (deactivated now)]
        /\ p' = applyUpdate (deactivated now) p)
    /\ (days = 0 -> subscriptionMail env id ExpiredNotification = false ->
        newEvents id W W' = [mail ExpiredNotification] /\ p' = p)
    /\ (days < 0 ->
        newEvents id W W' = [EvUpdate id (deactivated now)]
        /\ p' = applyUpdate (deactivated now) p)
    /\ (0 < days -> days <> 1 -> days <> 7 -> newEvents id W W' = [] /\ p' = p).
Proof.
  intros H Q E days mail W'.
  destruct (subscription_view env now id W p H) as (p' & L & V).
  exists p'. split; [done|].
  unfold viewOf at 2 in V.
  rewrite (subscription_scan_solo env now id p _ _ _ expiry Q E) in V.
  fold days in V. fold W' in V. unfold viewOf in V.
  assert (forall q evs,
            solo id p' (doses W') (admins W') (eventsFor id (journal W'))
            = solo id q (doses W) (admins W) (eventsFor id (journal W) ++ evs) ->
            newEvents id W W' = evs /\ p' = q) as Hinj.
  { intros q evs Hs. apply solo_inj in Hs as (-> & _ & _ & Hj).
    split; [|done]. by apply newEvents_app. }
  subst mail. cbv beta.
  split; [intros D | split; [intros D | split; [intros D M | split;
    [intros D M | split; [intros D | intros D D1 D7]]]]];
    rewrite ?M in V |- *;
    destruct (Z.eqb_spec days 7); try lia;
    destruct (Z.eqb_spec days 1); try lia;
    destruct (Z.eqb_spec days 0); try lia;
    destruct (Z.ltb_spec days 0); try lia;
    first [ apply Hinj in V; exact V
          | rewrite <- (app_nil_r (eventsFor id (journal W))) in V;
            apply Hinj in V; exact V ].
Qed.

(** C8 (defect of the daily job). On the day of expiry (daysUntilExpiry = 0)
    the expired notice is sent first; when that e-mail cannot be sent, the
    throw leaves the block before the deactivation, and the patient stays
    active with no deactivation date and no reason, although
    daysUntilExpiry <= 0. *)
Theorem C8_failed_expired_notice_skips_deactivation :
  let now := 500 * msPerDay in
  let p := Sample.expiringAt now Sample.dosed in
  let W := Sample.world p in
  let env := Sample.env SmsDelivered false in
  subscriptionQuery p = true
  /\ daysUntilExpiry now now = 0
  /\ newEvents 7 W (scheduleSubscriptionJob env now W)
     = [EvSubscriptionMail 7 ExpiredNotification false]
  /\ patients (scheduleSubscriptionJob env now W) !! 7 = Some p
  /\ active p = true /\ deactivatedAt p = None /\ deactivationReason p = None.
Proof.
  intros now p W env.
  split; [reflexivity|]. split; [reflexivity|].
  split; [vm_compute; reflexivity|]. split; [vm_compute; reflexivity|].
  repeat split.
Qed.

(** * Further properties of the jobs *)

(** ** What the reminder job leaves alone *)

Section LoopFrame.
Context (body : PatientId -> Patient -> World -> World).
Context (body_local : forall k pk ds ads, LocalAt k ds ads (body k pk)).

Lemma loop_frame l : forall W,
  doses (forEachOf body l W) = doses W
  /\ admins (forEachOf body l W) = admins W
  /\ forall id, patients W !! id = None ->
                patients (forEachOf body l W) !! id = None.
Proof.
  induction l as [|[k pk] l IH]; intros W; [done|].
  destruct (body_local k pk (doses W) (admins W)) as (us & evs & _ & E).
  rewrite forEachOf_cons, (E W) by done.
  destruct (IH (effect k us evs W)) as (Hd & Ha & Hn).
  repeat split; [done | done |].
  intros id H. apply Hn. simpl.
  destruct (decide (k = id)) as [->|Hk].
  - by rewrite lookup_alter_eq, H.
  - by rewrite lookup_alter_ne.
Qed.

Lemma forEach_frame q W :
  doses (forEach q body W) = doses W
  /\ admins (forEach q body W) = admins W
  /\ forall id, patients W !! id = None -> patients (forEach q body W) !! id = None.
Proof. apply loop_frame. Qed.
End LoopFrame.

Lemma tick_frame_none env now W :
  doses (scheduleComprehensiveReminderJob env now W) = doses W
  /\ admins (scheduleComprehensiveReminderJob env now W) = admins W
  /\ forall id, patients W !! id = None ->
       patients (scheduleComprehensiveReminderJob env now W) !! id = None.
Proof.
  unfold scheduleComprehensiveReminderJob. cbv zeta.
  set (W1 := forEach (reactivatedQuery now) (reactivationBody env now) W).
  set (W2 := forEach newUsersQuery (newUserBody env now) W1).
  set (W3 := forEach activeUsersQuery (activeUserBody env now) W2).
  destruct (forEach_frame _ (local_reactivationBody env now) (reactivatedQuery now) W)
    as (D1 & A1 & N1).
  destruct (forEach_frame _ (local_newUserBody env now) newUsersQuery W1)
    as (D2 & A2 & N2).
  destruct (forEach_frame _ (local_activeUserBody env now) activeUsersQuery W2)
    as (D3 & A3 & N3).
  destruct (forEach_frame _ (local_sendAdminNotification env now) inactiveUsersQuery W3)
    as (D4 & A4 & N4).
  subst W1 W2 W3.
  repeat split; [congruence | congruence |].
  intros id H. apply N4, N3, N2, N1, H.
Qed.

Lemma sameAccount_refl p : sameAccount p p.
Proof. by repeat split. Qed.

Lemma sameAccount_trans p q r : sameAccount p q -> sameAccount q r -> sameAccount p r.
Proof.
  unfold sameAccount. intros H1 H2.
  destruct H1 as (?&?&?&?&?&?&?&?&?&?&?&?&?).
  destruct H2 as (?&?&?&?&?&?&?&?&?&?&?&?&?).
  repeat split; congruence.
Qed.

Lemma Due_sameAccount now ds id p c kind us q :
  Due now ds id p c kind us -> sameAccount q (applyUpdate us q).
Proof. intros D. inversion D; subst; by repeat split. Qed.

Lemma SendStep_sameAccount env now ds id c p p' evs :
  SendStep env now ds id c p p' evs -> sameAccount p p'.
Proof.
  intros S. apply SendStep_inv in S
    as [(-> & _) | (kind & us & D & [(_ & -> & _) | (_ & -> & _)])].
  - apply sameAccount_refl.
  - eapply Due_sameAccount, D.
  - apply sameAccount_refl.
Qed.

Lemma TickSteps_sameAccount env now ds ads id p p' evs :
  TickSteps env now ds ads id p p' evs -> sameAccount p p'.
Proof.
  intros T. apply TickSteps_inv in T
    as [(_ & _ & -> & _) | (pre & p2 & p3 & e2 & e3 & e4 & _ & S2 & S3 & S4 & _)].
  - by repeat split.
  - apply SendStep_sameAccount in S2. apply SendStep_sameAccount in S3.
    apply AdminStep_inv in S4 as [(-> & _) | (_ & _ & _ & _ & -> & _)].
    + eapply sameAccount_trans; eauto.
    + eapply sameAccount_trans; [eauto|]. eapply sameAccount_trans; [eauto|].
      by repeat split.
Qed.

(** X1. A run of the reminder job creates and deletes no patient, no dose
    and no admin, and in every patient document it leaves alone the
    account fields: phone, role, the two activity flags, verification,
    subscription expiry, deactivation data, the welcome flag, the time of
    the last dose, and the activation and creation dates. *)
Theorem reminder_job_writes_reminder_fields_only env now W :
  let W' := scheduleComprehensiveReminderJob env now W in
  doses W' = doses W /\ admins W' = admins W
  /\ forall id,
       match patients W !! id with
       | None => patients W' !! id = None
       | Some p => exists p', patients W' !! id = Some p' /\ sameAccount p p'
       end.
Proof.
  intros W'. destruct (tick_frame_none env now W) as (D & A & N).
  repeat split; [done | done |].
  intros id. destruct (patients W !! id) as [p|] eqn:H; [|by apply N].
  destruct (tick_steps env now W id p H) as (p' & evs & T & L & _).
  exists p'. split; [done|]. by apply TickSteps_sameAccount in T.
Qed.

(** ** Runs that do nothing for a patient *)


Lemma never_reactivated now p :
  previousActiveState p <> Some false -> reactivationDue now p = false.
Proof.
  intros H. destruct (reactivationDue now p) eqn:E; [|done].
  apply reactivationDue_spec in E as (_ & _ & E & _). congruence.
Qed.

Lemma TickSteps_silent env now ds ads id p p' evs :
  TickSteps env now ds ads id p p' evs ->
  reactivationDue now p = false ->
  (forall c kind us, ~ Due now ds id p c kind us) ->
  inactiveUsersQuery p = false \/ adminEmailsOf ads = [] ->
  p' = p /\ evs = [].
Proof.
  intros T R N A. apply TickSteps_inv in T
    as [(R' & _) | (pre & p2 & p3 & e2 & e3 & e4 & P & S2 & S3 & S4 & ->)];
    [congruence|].
  destruct P as [[-> _] | (_ & R' & _)]; [|congruence].
  apply SendStep_inv in S2 as [(-> & -> & _) | (k & us & D & _)];
    [|by apply N in D].
  apply SendStep_inv in S3 as [(-> & -> & _) | (k & us & D & _)];
    [|by apply N in D].
  apply AdminStep_inv in S4 as [(-> & -> & _) | (_ & _ & _ & Ne & _ & _ & Q)];
    [done|].
  destruct A; congruence.
Qed.

Lemma ticks_cons r rs W :
  ticks (r :: rs) W = ticks rs (scheduleComprehensiveReminderJob r.1 r.2 W).
Proof. reflexivity. Qed.

(** Runs at instants at which nothing is due for the patient. *)
Lemma ticks_silent rs : forall W id p,
  patients W !! id = Some p ->
  Forall (fun r => reactivationDue r.2 p = false
                   /\ forall c kind us, ~ Due r.2 (doses W) id p c kind us) rs ->
  inactiveUsersQuery p = false \/ adminEmailsOf (admins W) = [] ->
  patients (ticks rs W) !! id = Some p
  /\ eventsFor id (journal (ticks rs W)) = eventsFor id (journal W)
  /\ doses (ticks rs W) = doses W /\ admins (ticks rs W) = admins W.
Proof.
  induction rs as [|[env now] rs IH]; intros W id p H F A; [done|].
  apply Forall_cons in F as [[R N] F]. rewrite ticks_cons. simpl in *.
  destruct (tick_steps env now W id p H) as (p' & evs & T & L & E & D & Ad).
  destruct (TickSteps_silent _ _ _ _ _ _ _ _ T R N A) as [-> ->].
  rewrite app_nil_r in E.
  destruct (IH (scheduleComprehensiveReminderJob env now W) id p L) as (L' & E' & D' & A').
  - by rewrite D.
  - by rewrite Ad.
  - repeat split; congruence.
Qed.

Lemma newEvents_none id W W' :
  eventsFor id (journal W') = eventsFor id (journal W) -> newEvents id W W' = [].
Proof. intros E. apply newEvents_app. by rewrite app_nil_r. Qed.

Lemma Due_cycle now ds id p c kind us :
  Due now ds id p c kind us ->
  smsReminderCycle p = new_user \/ smsReminderCycle p = active_user.
Proof. intros D. apply Due_facts in D as (C & _ & Hc & _). by rewrite C. Qed.

(** ** One delivery *)








(** ** The admin alert *)

Lemma adminEmailsOf_nil ads :
  (forall a, In a ads -> admin_active a = false \/ admin_role a <> RoleAdmin) ->
  adminEmailsOf ads = [].
Proof.
  intros H. unfold adminEmailsOf.
  induction ads as [|a ads IH]; [done|]. simpl.
  destruct (H a (or_introl eq_refl)) as [E | E].
  - rewrite E. simpl. apply IH. intros b Hb. apply H. by right.
  - rewrite (bool_decide_eq_false_2 _ E), andb_false_r. apply IH.
    intros b Hb. apply H. by right.
Qed.

(** X5. The alert goes to the active admins of role admin only.  When
    there is none (all admins are super admins, or inactive), a patient who
    waits for the alert is never reported: every run leaves the document as
    it is and sends nothing. *)
Theorem no_regular_admin_no_alert W id p rs :
  patients W !! id = Some p ->
  inactiveUsersQuery p = true ->
  previousActiveState p <> Some false ->
  (forall a, In a (admins W) -> admin_active a = false \/ admin_role a <> RoleAdmin) ->
  patients (ticks rs W) !! id = Some p
  /\ newEvents id W (ticks rs W) = [].
Proof.
  intros H Q Pa Ad.
  destruct (ticks_silent rs W id p H) as (L & E & _).
  - apply Forall_forall. intros r _. split; [by apply never_reactivated|].
    intros c kind us D. apply Due_cycle in D.
    apply inactiveUsersQuery_true in Q as (C & _). rewrite C in D. by destruct D.
  - right. by apply adminEmailsOf_nil.
  - split; [done | by apply newEvents_none].
Qed.

Lemma adminMails_all_failed env id es :
  (forall e, adminMail env e id = false) ->
  map (fun e => EvAdminMail e id (adminMail env e id)) es
  = map (fun e => EvAdminMail e id false) es.
Proof. intros H. apply map_ext. intros e. by rewrite H. Qed.

(** X6. The alert is marked as sent even when no e-mail could be sent: if
    every e-mail to the admins fails, the run still sets adminNotifiedDate
    and the cycle admin_notified, and no later run or dose log sends the
    alert again. *)
Theorem failed_admin_alert_is_not_retried env now W id p :
  patients W !! id = Some p ->
  inactiveUsersQuery p = true ->
  previousActiveState p <> Some false ->
  adminEmailsOf (admins W) <> [] ->
  (forall e, adminMail env e id = false) ->
  let W1 := scheduleComprehensiveReminderJob env now W in
  newEvents id W W1
  = map (fun e => EvAdminMail e id false) (adminEmailsOf (admins W))
    ++ [EvUpdate id (adminNotified now)]
  /\ patients W1 !! id = Some (applyUpdate (adminNotified now) p)
  /\ forall ops : list Operation,
       List.filter isAdminMail
         (newEvents id W1 (fold_left (fun w op => run op w) ops W1)) = [].
Proof.
  intros H Q Pa Ne Fail W1.
  destruct (tick_steps env now W id p H) as (p1 & evs & T & L & E & _).
  fold W1 in L, E.
  pose proof (inactiveUsersQuery_true _ Q) as (C & A & N).
  apply TickSteps_inv in T
    as [(R' & _) | (pre & p2 & p3 & e2 & e3 & e4 & P & S2 & S3 & S4 & ->)].
  { by rewrite never_reactivated in R'. }
  destruct P as [[-> _] | (_ & R' & _)]; [|by rewrite never_reactivated in R'].
  apply SendStep_quiet in S2 as [-> ->]; [|left; by rewrite C].
  apply SendStep_quiet in S3 as [-> ->]; [|left; by rewrite C].
  apply AdminStep_inv in S4
    as [(_ & _ & [Bad | Bad]) | (_ & _ & _ & _ & -> & -> & _)]; [congruence..|].
  rewrite adminMails_all_failed in E by done. cbn [app] in E.
  split; [by apply newEvents_app|]. split; [done|].
  intros ops.
  destruct (runs_admin ops W1 id _ now L eq_refl) as (p' & evs & _ & _ & E' & F).
  by rewrite (newEvents_app _ _ _ _ E').
Qed.

(** ** The daily job *)


Lemma subscription_skip env now W id p :
  patients W !! id = Some p ->
  subscriptionQuery p = false ->
  patients (scheduleSubscriptionJob env now W) !! id = Some p
  /\ eventsFor id (journal (scheduleSubscriptionJob env now W))
     = eventsFor id (journal W).
Proof.
  intros H Q.
  destruct (subscription_view env now id W p H) as (p' & L & V).
  unfold viewOf at 2 in V. unfold scheduleSubscriptionJob in V at 2.
  rewrite forEach_solo, Q in V. apply solo_inj in V as (-> & _ & _ & V).
  done.
Qed.


Ltac sample_facts :=
  first [ reflexivity
        | discriminate
        | (vm_compute; discriminate)
        | (vm_compute; reflexivity)
        | (unfold msPerHour, msPerMinute, msPerDay; lia) ].




(** The sample patient after the final reminder, in a world whose only
    admin is a super admin. *)
Lemma no_regular_admin_no_alert_witness :
  let p := applyUpdate [ U_reminderAttempts 3;
                         U_lastReminderSent (Some (49 * msPerHour));
                         U_smsReminderCycle inactive_user ] Sample.dosed in
  let W := mkWorld {[ 7 := p ]} []
             [mkAdmin "root@insulinlog.com"%string true RoleSuperadmin] [] in
  let env := Sample.env SmsDelivered true in
  newEvents 7 W (ticks [(env, 50 * msPerHour); (env, 51 * msPerHour)] W) = [].
Proof.
  intros p W env.
  destruct (no_regular_admin_no_alert W 7 p
              [(env, 50 * msPerHour); (env, 51 * msPerHour)])
    as (_ & E); [sample_facts.. | | exact E].
  intros a [<- | []]. right. discriminate.
Defined.

(** The sample patient after the final reminder, with a mailer that fails. *)
Lemma failed_admin_alert_is_not_retried_witness :
  let p := applyUpdate [ U_reminderAttempts 3;
                         U_lastReminderSent (Some (49 * msPerHour));
                         U_smsReminderCycle inactive_user ] Sample.dosed in
  let env := Sample.env SmsDelivered false in
  let W1 := scheduleComprehensiveReminderJob env (50 * msPerHour) (Sample.world p) in
  newEvents 7 (Sample.world p) W1
  = [ EvAdminMail "admin@insulinlog.com" 7 false;
      EvUpdate 7 (adminNotified (50 * msPerHour)) ]
  /\ List.filter isAdminMail
       (newEvents 7 W1 (run (OpTick (Sample.env SmsDelivered true) (51 * msPerHour)) W1))
     = [].
Proof.
  intros p env W1.
  destruct (failed_admin_alert_is_not_retried env (50 * msPerHour) (Sample.world p) 7 p)
    as (E & _ & Later); [sample_facts..|].
  split; [exact E|].
  apply (Later [OpTick (Sample.env SmsDelivered true) (51 * msPerHour)]).
Defined.


(** ** The manual subscription check *)

Lemma manual_body_world env now id p r w :
  (Manual.body env now id p (r, w)).2 = subscriptionBody env now id p w.
Proof.
  unfold Manual.body, subscriptionBody.
  destruct (subscriptionExpiry p) as [e|]; [|done]. cbv zeta.
  unfold Manual.mailThen, awaitSubscriptionMail, Manual.deactivate. cbv zeta.
  cbn [fst snd].
  repeat match goal with
    | |- context [if ?c then _ else _] => destruct c eqn:?; cbn [fst snd andThen tryCatch]
    end; reflexivity.
Qed.

Lemma manual_fold_world env now l : forall r w,
  (fold_left (fun s ip => Manual.body env now ip.1 ip.2 s) l (r, w)).2
  = forEachOf (subscriptionBody env now) l w.
Proof.
  induction l as [|[k pk] l IH]; intros r w; [done|].
  rewrite forEachOf_cons. simpl.
  rewrite <- (manual_body_world env now k pk r w).
  destruct (Manual.body env now k pk (r, w)) as [r' w']. apply IH.
Qed.

(** The manual check does to the store and to the mailer what the body of
    the daily job does, on the accounts that its own query selects. *)
Lemma manual_world env now W :
  (Manual.checkSubscriptionStatus env now W).2
  = forEach Manual.query (subscriptionBody env now) W.
Proof. unfold Manual.checkSubscriptionStatus. cbv zeta. apply manual_fold_world. Qed.

Lemma find_ext q1 q2 (m : gmap Z Patient) :
  (forall id p, m !! id = Some p -> q1 p = q2 p) -> find q1 m = find q2 m.
Proof.
  intros H. unfold find. f_equal. apply map_filter_strong_ext.
  intros id p. split; intros [Hq Hl]; (split; [|done]); simpl in *.
  - by rewrite <- (H id p Hl).
  - by rewrite (H id p Hl).
Qed.

(** X9. On a store that holds no soft-deleted account and no account with
    a manual deactivation reason, the manual check sends the same e-mails
    and makes the same updates as a run of the daily job at that instant. *)
Theorem manual_check_agrees_with_daily_job env now W :
  (forall id p, patients W !! id = Some p ->
     isActive p = true
     /\ (deactivationReason p = None
         \/ deactivationReason p = Some SubscriptionExpired)) ->
  (Manual.checkSubscriptionStatus env now W).2 = scheduleSubscriptionJob env now W.
Proof.
  intros H. rewrite manual_world. unfold scheduleSubscriptionJob, forEach.
  f_equal. apply find_ext. intros id p Hl.
  destruct (H id p Hl) as [Hi Hr].
  unfold Manual.query, subscriptionQuery. rewrite Hi, andb_true_r.
  destruct Hr as [-> | ->]; simpl; by rewrite andb_true_r.
Qed.

Lemma subscriptionBody_expired_solo env now id p ds ads j expiry :
  subscriptionExpiry p = Some expiry -> active p = true ->
  daysUntilExpiry now expiry < 0 ->
  subscriptionBody env now id p (solo id p ds ads j)
  = solo id (applyUpdate (deactivated now) p) ds ads
      (j ++ [EvUpdate id (deactivated now)]).
Proof.
  intros E A D. unfold subscriptionBody. rewrite E, A. cbv zeta.
  destruct (Z.eqb_spec (daysUntilExpiry now expiry) 7); [lia|].
  destruct (Z.eqb_spec (daysUntilExpiry now expiry) 1); [lia|].
  destruct (Z.leb_spec (daysUntilExpiry now expiry) 0); [|lia].
  destruct (Z.eqb_spec (daysUntilExpiry now expiry) 0); [lia|].
  cbn [andThen tryCatch]. apply findByIdAndUpdate_solo.
Qed.

(** X10. The manual check does not exclude soft-deleted accounts: a
    soft-deleted account that is still active and whose subscription ran
    out more than a day ago is deactivated by the manual check, while the
    daily job leaves it alone. *)
Theorem manual_check_reaches_deleted_accounts env now W id p expiry :
  patients W !! id = Some p ->
  isActive p = false -> active p = true -> verified p = true ->
  deactivationReason p = None ->
  subscriptionExpiry p = Some expiry -> expiry + msPerDay <= now ->
  let W1 := (Manual.checkSubscriptionStatus env now W).2 in
  let W2 := scheduleSubscriptionJob env now W in
  (patients W1 !! id = Some (applyUpdate (deactivated now) p)
   /\ newEvents id W W1 = [EvUpdate id (deactivated now)])
  /\ (patients W2 !! id = Some p /\ newEvents id W W2 = []).
Proof.
  intros H Hi Ha Hv Hr He Hn W1 W2. split.
  - subst W1. rewrite manual_world.
    destruct (forEach_view _ (local_subscriptionBody env now) id Manual.query W p H)
      as (p' & L & V).
    unfold viewOf at 2 in V. rewrite forEach_solo in V.
    assert (Manual.query p = true) as Q.
    { unfold Manual.query. by rewrite Ha, Hv, He, Hr. }
    rewrite Q, (subscriptionBody_expired_solo _ _ _ _ _ _ _ expiry) in V; try done.
    + apply solo_inj in V as (-> & _ & _ & V). split; [done|].
      by apply newEvents_app.
    + assert (daysUntilExpiry now expiry <= -1); [|lia].
      destruct (Z.le_gt_cases (daysUntilExpiry now expiry) (-1)) as [?|G]; [done|].
      pose proof (proj1 (daysUntilExpiry_spec now expiry _) eq_refl) as S.
      unfold msPerDay in *. nia.
  - destruct (subscription_skip env now W id p H) as [L E].
    + unfold subscriptionQuery. by rewrite Hi, andb_false_r.
    + split; [done | by apply newEvents_none].
Qed.

(** ** The report of the manual check *)

Lemma count_app f j1 j2 : count f (j1 ++ j2) = count f j1 + count f j2.
Proof. unfold count. rewrite List.filter_app, length_app. lia. Qed.

Lemma manual_body_step env now id p r w :
  exists evs,
    journal (Manual.body env now id p (r, w)).2 = journal w ++ evs
    /\ reported r (Manual.body env now id p (r, w)).1 evs
    /\ count isSubscriptionMail evs <= 1 /\ count isUpdate evs <= 1.
Proof.
  unfold Manual.body.
  destruct (subscriptionExpiry p) as [e|];
    [|exists []; rewrite app_nil_r; unfold reported, count; simpl;
      repeat split; lia].
  cbv zeta. unfold Manual.mailThen, Manual.deactivate. cbv zeta. cbn [fst snd].
  repeat match goal with
    | |- context [if ?c then _ else _] => destruct c eqn:?; cbn [fst snd]
    end;
    try (exists []; rewrite app_nil_r; unfold reported, count; simpl;
         repeat split; lia);
    cbn [journal emit findByIdAndUpdate]; rewrite <- ?app_assoc;
    eexists; (split; [reflexivity|]);
    unfold reported, count; simpl; rewrite ?length_app; simpl;
    repeat split; lia.
Qed.

Lemma manual_fold_step env now l : forall r w,
  exists evs,
    journal (fold_left (fun s ip => Manual.body env now ip.1 ip.2 s) l (r, w)).2
    = journal w ++ evs
    /\ reported r
         (fold_left (fun s ip => Manual.body env now ip.1 ip.2 s) l (r, w)).1 evs
    /\ count isSubscriptionMail evs <= Z.of_nat (length l)
    /\ count isUpdate evs <= Z.of_nat (length l).
Proof.
  induction l as [|[k pk] l IH]; intros r w.
  - exists []. rewrite app_nil_r. unfold reported, count. simpl. repeat split; lia.
  - cbn [fold_left fst snd].
    destruct (manual_body_step env now k pk r w) as (e1 & J1 & R1 & M1 & U1).
    destruct (Manual.body env now k pk (r, w)) as [r1 w1]. cbn [fst snd] in *.
    destruct (IH r1 w1) as (e2 & J2 & R2 & M2 & U2).
    exists (e1 ++ e2). rewrite J2, J1, <- app_assoc. split; [done|].
    unfold reported in *. rewrite !count_app.
    destruct R1 as (?&?&?&?&?&?), R2 as (?&?&?&?&?&?).
    cbn [length]. repeat split; lia.
Qed.

Lemma count_mails evs :
  count isSubscriptionMail evs
  = count (isMailSent ExpiryWarning) evs + count (isMailSent ExpiryUrgent) evs
    + count (isMailSent ExpiredNotification) evs + count isMailFailed evs.
Proof.
  induction evs as [|e evs IH]; [done|].
  change (e :: evs) with ([e] ++ evs). rewrite !count_app, IH.
  destruct e as [| |i k []| |]; try (unfold count; simpl; lia).
  destruct k; unfold count; simpl; lia.
Qed.

(** X11. The report of the manual check agrees with what the check did:
    each counter is the number of e-mails of that kind that were sent,
    [deactivated] is the number of updates, [errors] has one entry for each
    e-mail that failed; and no account is counted twice. *)
Theorem manual_report_matches_journal env now W :
  let r := (Manual.checkSubscriptionStatus env now W).1 in
  let new := added W (Manual.checkSubscriptionStatus env now W).2 in
  Manual.totalChecked r = Z.of_nat (length (find Manual.query (patients W)))
  /\ Manual.sevenDayWarnings r = count (isMailSent ExpiryWarning) new
  /\ Manual.oneDayWarnings r = count (isMailSent ExpiryUrgent) new
  /\ Manual.expired r = count (isMailSent ExpiredNotification) new
  /\ Manual.deactivated r = count isUpdate new
  /\ Z.of_nat (length (Manual.errors r)) = count isMailFailed new
  /\ Manual.sevenDayWarnings r + Manual.oneDayWarnings r + Manual.expired r
     + Z.of_nat (length (Manual.errors r)) <= Manual.totalChecked r
  /\ Manual.deactivated r <= Manual.totalChecked r.
Proof.
  intros r new. subst r new. unfold Manual.checkSubscriptionStatus. cbv zeta.
  set (l := find Manual.query (patients W)).
  destruct (manual_fold_step env now l
              (Manual.mkResults (Z.of_nat (length l)) 0 0 0 0 []) W)
    as (evs & J & R & M & U).
  unfold added. rewrite J, drop_app_length.
  rewrite count_mails in M.
  destruct R as (R0 & R1 & R2 & R3 & R4 & R5). cbn [Manual.totalChecked
    Manual.sevenDayWarnings Manual.oneDayWarnings Manual.expired
    Manual.deactivated Manual.errors length] in *.
  repeat split; lia.
Qed.

(** One account, on the day its subscription expires. *)
Lemma manual_check_agrees_with_daily_job_witness :
  let now := 500 * msPerDay in
  let W := Sample.world (Sample.expiringAt now Sample.dosed) in
  let env := Sample.env SmsDelivered true in
  (Manual.checkSubscriptionStatus env now W).2 = scheduleSubscriptionJob env now W.
Proof.
  intros now W env.
  apply (manual_check_agrees_with_daily_job env now W).
  intros id p H. unfold W, Sample.world in H. cbn [patients] in H.
  apply lookup_singleton_Some in H as [_ <-].
  split; [reflexivity | left; reflexivity].
Defined.

(** A soft-deleted account whose subscription ran out two days ago. *)
Lemma manual_check_reaches_deleted_accounts_witness :
  let now := 500 * msPerDay in
  let p := {| phone := Some "0241234567"%string;
       isActive := false;
       role := RolePatient;
       subscriptionExpiry := Some (498 * msPerDay);
       active := true;
       verified := true;
       deactivatedAt := None;
       deactivationReason := None;
       welcomeSmsSent := true;
       lastDoseTime := Some 0;
       nextReminderTime := None;
       reminderAttempts := 0;
       lastReminderSent := None;
       hasLoggedFirstDose := true;
       smsReminderCycle := active_user;
       adminNotifiedDate := None;
       lastActivationDate := None;
       previousActiveState := None;
       welcomeSmsSentAt := Some (-1000);
       date := Some (-5000) |} in
  let W := Sample.world p in
  let env := Sample.env SmsDelivered true in
  patients (Manual.checkSubscriptionStatus env now W).2 !! 7
  = Some (applyUpdate (deactivated now) p)
  /\ patients (scheduleSubscriptionJob env now W) !! 7 = Some p.
Proof.
  intros now p W env.
  destruct (manual_check_reaches_deleted_accounts env now W 7 p (498 * msPerDay))
    as ((L1 & _) & (L2 & _)); [sample_facts..|].
  split; [exact L1 | exact L2].
Defined.

(** * The SMS service *)

Module SmsFacts.
Import SmsService Validation.

Lemma startsWith_app prefix s : startsWith prefix (prefix ++ s) = true.
Proof. induction prefix as [|c p IH]; simpl; [done|]. by rewrite Z.eqb_refl. Qed.

Lemma startsWith_spec prefix s :
  startsWith prefix s = true <-> exists rest, s = prefix ++ rest.
Proof.
  split.
  - revert s. induction prefix as [|c p IH]; intros s H; [by exists s|].
    destruct s as [|d s]; [done|]. simpl in H.
    apply andb_true_iff in H as [H1 H2]. apply Z.eqb_eq in H1 as ->.
    destruct (IH s H2) as [rest ->]. by exists rest.
  - intros [rest ->]. apply startsWith_app.
Qed.

Lemma removeSeparators_clean s :
  Forall (fun c => isSeparator c = false) (removeSeparators s).
Proof.
  unfold removeSeparators. induction s as [|c s IH]; simpl; [constructor|].
  destruct (isSeparator c) eqn:E; simpl; [done|]. by constructor.
Qed.

Lemma removeSeparators_id s :
  Forall (fun c => isSeparator c = false) s -> removeSeparators s = s.
Proof.
  unfold removeSeparators. induction 1 as [|c s H _ IH]; simpl; [done|].
  by rewrite H, IH.
Qed.

Lemma digit_not_separator c : isDigit c = true -> isSeparator c = false.
Proof.
  unfold isDigit, isSeparator, isWhiteSpace. intros H.
  apply andb_true_iff in H as [H1 H2]. apply Z.leb_le in H1, H2.
  repeat (apply orb_false_iff; split);
    first [ apply Z.eqb_neq; lia
          | apply andb_false_iff; left; apply Z.leb_gt; lia ].
Qed.

Lemma Forall_drop_clean n (s : JSString) :
  Forall (fun c => isSeparator c = false) s ->
  Forall (fun c => isSeparator c = false) (drop n s).
Proof. apply Forall_drop. Qed.

Lemma finalPhone_dialled (phoneNumber : JSString) :
  startsWith (str "233") (finalPhone phoneNumber) = true
  /\ Forall (fun c => isSeparator c = false) (finalPhone phoneNumber).
Proof.
  unfold finalPhone. cbv zeta.
  pose proof (removeSeparators_clean phoneNumber) as C.
  destruct (startsWith (str "0") (removeSeparators phoneNumber)).
  - split; [apply startsWith_app|].
    apply Forall_app. split; [by repeat constructor | by apply Forall_drop].
  - destruct (startsWith (str "233") (removeSeparators phoneNumber)) eqn:E;
      cbn [negb].
    + done.
    + split; [apply startsWith_app|].
      apply Forall_app. split; [by repeat constructor | done].
Qed.

(** X12. The recipient that [sendSMS] dials always begins with the country
    code 233 and contains no space, dash or plus sign, whatever the stored
    phone number is. *)
Theorem recipient_has_country_code (phoneNumber : JSString) :
  startsWith (str "233") (finalPhone phoneNumber) = true
  /\ Forall (fun c => isSeparator c = false) (finalPhone phoneNumber).
Proof. apply finalPhone_dialled. Qed.

Lemma finalPhone_fixed (s : JSString) :
  startsWith (str "233") s = true ->
  Forall (fun c => isSeparator c = false) s ->
  finalPhone s = s.
Proof.
  intros P C. unfold finalPhone. cbv zeta. rewrite (removeSeparators_id s C), P.
  apply startsWith_spec in P as [rest ->]. done.
Qed.

(** X13. Computing the recipient is idempotent: a number that was already
    brought to the dialled form is dialled as it is. *)
Theorem recipient_is_stable (phoneNumber : JSString) :
  finalPhone (finalPhone phoneNumber) = finalPhone phoneNumber.
Proof.
  destruct (finalPhone_dialled phoneNumber) as [P C].
  by apply finalPhone_fixed.
Qed.

Lemma digits_spec n s :
  digits n s = true <-> length s = n /\ Forall (fun c => isDigit c = true) s.
Proof.
  unfold digits. rewrite andb_true_iff, Nat.eqb_eq, forallb_forall, Forall_forall.
  split; intros [H1 H2]; (split; [done|]); intros c Hc; apply H2.
  - by apply list_elem_of_In.
  - by apply list_elem_of_In.
Qed.

Lemma digits_clean s :
  Forall (fun c => isDigit c = true) s -> Forall (fun c => isSeparator c = false) s.
Proof. intros H. eapply Forall_impl; [exact H|]. apply digit_not_separator. Qed.

Lemma finalPhone_local d :
  Forall (fun c => isDigit c = true) d ->
  finalPhone (str "0" ++ d) = str "233" ++ d.
Proof.
  intros D. unfold finalPhone. cbv zeta.
  rewrite removeSeparators_id.
  - done.
  - apply Forall_app. split; [by repeat constructor | by apply digits_clean].
Qed.

Lemma finalPhone_international d :
  Forall (fun c => isDigit c = true) d ->
  finalPhone (str "+233" ++ d) = str "233" ++ d.
Proof.
  intros D. unfold finalPhone. cbv zeta.
  change (removeSeparators (str "+233" ++ d)) with (removeSeparators (str "233" ++ d)).
  rewrite removeSeparators_id.
  - done.
  - apply Forall_app. split; [by repeat constructor | by apply digits_clean].
Qed.

(** X14. A phone number that the registration validator accepts is dialled
    as 233 followed by its nine subscriber digits; the local spelling
    (0...) and the international spelling (+233...) of a number give the
    same recipient, of twelve digits. *)
Theorem registered_phone_is_dialled_in_full (s : JSString) :
  ghanaPhone s = true ->
  exists d,
    length d = 9%nat /\ Forall (fun c => isDigit c = true) d
    /\ (s = str "+233" ++ d \/ s = str "0" ++ d)
    /\ finalPhone s = str "233" ++ d
    /\ finalPhone (str "+233" ++ d) = finalPhone (str "0" ++ d)
    /\ digits 12 (finalPhone s) = true.
Proof.
  unfold ghanaPhone. intros H.
  assert (exists d, length d = 9%nat /\ Forall (fun c => isDigit c = true) d
                    /\ (s = str "+233" ++ d \/ s = str "0" ++ d)) as (d & L & D & S).
  { apply orb_true_iff in H as [H | H]; apply andb_true_iff in H as [P N];
      apply startsWith_spec in P as [d ->]; apply digits_spec in N as [L D];
      exists d; auto. }
  assert (finalPhone s = str "233" ++ d) as F.
  { destruct S as [-> | ->];
      [by apply finalPhone_international | by apply finalPhone_local]. }
  exists d. split; [done|]. split; [done|]. split; [done|]. split; [done|].
  split; [by rewrite finalPhone_international, finalPhone_local|].
  rewrite F. apply digits_spec.
  split; [rewrite length_app, L; done|].
  apply Forall_app. split; [by repeat constructor | done].
Qed.

(** X15. A phone number that the profile update accepts is ten digits.  It
    is dialled as 233 and its last nine digits when it begins with 0, as
    it is (ten digits, no country code added) when it begins with 233, and
    as 233 and all ten digits otherwise. *)
Theorem updated_phone_recipient (s : JSString) :
  tenDigits s = true ->
  (startsWith (str "0") s = true ->
   finalPhone s = str "233" ++ drop 1 s /\ length (finalPhone s) = 12%nat)
  /\ (startsWith (str "233") s = true ->
      finalPhone s = s /\ length (finalPhone s) = 10%nat)
  /\ (startsWith (str "0") s = false -> startsWith (str "233") s = false ->
      finalPhone s = str "233" ++ s /\ length (finalPhone s) = 13%nat).
Proof.
  unfold tenDigits. intros H. apply digits_spec in H as [L D].
  pose proof (removeSeparators_id s (digits_clean s D)) as R.
  unfold finalPhone. cbv zeta. rewrite R.
  repeat split.
  - by rewrite H.
  - rewrite H, length_app, length_drop, L. done.
  - apply startsWith_spec in H as [rest ->]. done.
  - apply startsWith_spec in H as [rest ->]. done.
  - by rewrite H, H0.
  - rewrite H, H0. simpl. by rewrite L.
Qed.

(** X16. [sendSMS] makes at most one request to the gateway.  A request
    carries the message unchanged and exactly one recipient, which begins
    with 233 and contains no space, dash or plus sign.  A successful result
    means that SMS is disabled (and then nothing was requested) or that the
    gateway answered the request with 200, 201 or 202. *)
Theorem sendSMS_requests cfg post phoneNumber text :
  let result := sendSMS cfg post phoneNumber text in
  (length result.2 <= 1)%nat
  /\ (forall request, In request result.2 ->
        message request = text
        /\ exists r, recipients request = [r]
                     /\ startsWith (str "233") r = true
                     /\ Forall (fun c => isSeparator c = false) r)
  /\ (SMS_ENABLED cfg = Some (str "false") -> result = (true, []))
  /\ (result.1 = true ->
      SMS_ENABLED cfg = Some (str "false") /\ result.2 = []
      \/ exists request status,
           result.2 = [request] /\ post request = Responded status
           /\ (status = 200 \/ status = 201 \/ status = 202)).
Proof.
  intros result. subst result. unfold sendSMS.
  destruct (bool_decide (SMS_ENABLED cfg = Some (str "false"))) eqn:E.
  { apply bool_decide_eq_true in E. cbn [fst snd length].
    split; [lia|]. split; [by intros ? []|]. split; [done|]. intros _. by left. }
  apply bool_decide_eq_false in E.
  assert (forall rs : list Request,
            (length (false, rs).2 <= 1)%nat ->
            (forall request, In request rs ->
               message request = text
               /\ exists r, recipients request = [r]
                            /\ startsWith (str "233") r = true
                            /\ Forall (fun c => isSeparator c = false) r) ->
            (length (false, rs).2 <= 1)%nat
            /\ (forall request, In request (false, rs).2 ->
                  message request = text
                  /\ exists r, recipients request = [r]
                               /\ startsWith (str "233") r = true
                               /\ Forall (fun c => isSeparator c = false) r)
            /\ (SMS_ENABLED cfg = Some (str "false") -> (false, rs) = (true, []))
            /\ ((false, rs).1 = true ->
                SMS_ENABLED cfg = Some (str "false") /\ (false, rs).2 = []
                \/ exists request status,
                     (false, rs).2 = [request] /\ post request = Responded status
                     /\ (status = 200 \/ status = 201 \/ status = 202))) as Unsuccessful.
  { intros rs L K. split; [done|]. split; [done|]. split; [done|]. by intros [=]. }
  destruct phoneNumber as [phone|];
    [|apply Unsuccessful; [simpl; lia | by intros ? []]].
  cbv zeta.
  destruct (missing (FISH_AFRICA_APP_ID cfg) || missing (FISH_AFRICA_APP_SECRET cfg));
    [apply Unsuccessful; [simpl; lia | by intros ? []]|].
  set (request := mkRequest _ _ _ _ _ _).
  assert (forall request', In request' [request] ->
            message request' = text
            /\ exists r, recipients request' = [r]
                         /\ startsWith (str "233") r = true
                         /\ Forall (fun c => isSeparator c = false) r) as K.
  { intros ? [<- | []]. split; [done|]. exists (finalPhone phone).
    split; [done|]. apply finalPhone_dialled. }
  assert (forall status, post request = Responded status ->
            status = 200 \/ status = 201 \/ status = 202 ->
            (length (true, [request]).2 <= 1)%nat
            /\ (forall request', In request' (true, [request]).2 ->
                  message request' = text
                  /\ exists r, recipients request' = [r]
                               /\ startsWith (str "233") r = true
                               /\ Forall (fun c => isSeparator c = false) r)
            /\ (SMS_ENABLED cfg = Some (str "false") -> (true, [request]) = (true, []))
            /\ ((true, [request]).1 = true ->
                SMS_ENABLED cfg = Some (str "false") /\ (true, [request]).2 = []
                \/ exists request' status',
                     (true, [request]).2 = [request'] /\ post request' = Responded status'
                     /\ (status' = 200 \/ status' = 201 \/ status' = 202))) as Successful.
  { intros status P S. split; [simpl; lia|]. split; [done|]. split; [done|].
    intros _. right. by exists request, status. }
  destruct (post request) as [status|] eqn:P;
    [|apply Unsuccessful; [simpl; lia | done]].
  destruct (Z.eqb_spec status 200) as [->|N0]; cbn [orb];
    [apply (Successful 200); auto|].
  destruct (Z.eqb_spec status 201) as [->|N1]; cbn [orb];
    [apply (Successful 201); auto|].
  destruct (Z.eqb_spec status 202) as [->|N2]; cbn [orb];
    [apply (Successful 202); auto|].
  apply Unsuccessful; [simpl; lia | done].
Qed.

End SmsFacts.

(** The example number of the validator's message. *)
Lemma registered_phone_is_dialled_in_full_witness :
  exists d,
    length d = 9%nat /\ Forall (fun c => Validation.isDigit c = true) d
    /\ (SmsService.str "0553018172" = SmsService.str "+233" ++ d
        \/ SmsService.str "0553018172" = SmsService.str "0" ++ d)
    /\ SmsService.finalPhone (SmsService.str "0553018172") = SmsService.str "233" ++ d
    /\ SmsService.finalPhone (SmsService.str "+233" ++ d)
       = SmsService.finalPhone (SmsService.str "0" ++ d)
    /\ Validation.digits 12 (SmsService.finalPhone (SmsService.str "0553018172")) = true.
Proof.
  apply (SmsFacts.registered_phone_is_dialled_in_full (SmsService.str "0553018172")).
  reflexivity.
Defined.

(** A ten-digit number that begins with 233. *)
Lemma updated_phone_recipient_witness :
  SmsService.finalPhone (SmsService.str "2335530181") = SmsService.str "2335530181"
  /\ length (SmsService.finalPhone (SmsService.str "2335530181")) = 10%nat.
Proof.
  apply (SmsFacts.updated_phone_recipient (SmsService.str "2335530181"));
    reflexivity.
Defined.

(** * The subscription status and the dose route *)

Lemma getDaysUntilExpiry_spec now expiry k :
  DateUtils.getDaysUntilExpiry now (Some expiry) = k
  <-> (k - 1) * msPerDay < expiry - now <= k * msPerDay.
Proof. apply daysUntilExpiry_spec. Qed.

(** X17. The status that the admin pages show for a subscription, in terms
    of the time left: "expired" only once the expiry date is a full day in
    the past, "expires-today" from the expiry date until then (and for a
    missing expiry date), "expires-soon" up to seven days before the expiry
    date, "active" before that.  With at most one day left the message is in
    the singular. *)
Theorem subscription_status_thresholds now expiryDate :
  let s := DateUtils.getSubscriptionStatus now expiryDate in
  (DateUtils.status s = "expired"%string
   <-> exists e, expiryDate = Some e /\ e - now <= - msPerDay)
  /\ (DateUtils.status s = "expires-today"%string
      <-> expiryDate = None
          \/ exists e, expiryDate = Some e /\ - msPerDay < e - now <= 0)
  /\ (DateUtils.status s = "expires-soon"%string
      <-> exists e, expiryDate = Some e /\ 0 < e - now <= 7 * msPerDay)
  /\ (DateUtils.status s = "active"%string
      <-> exists e, expiryDate = Some e /\ 7 * msPerDay < e - now)
  /\ (forall e, expiryDate = Some e -> 0 < e - now <= msPerDay ->
        DateUtils.message s = "Expires in 1 day"%string).
Proof.
  intros s. subst s. unfold DateUtils.getSubscriptionStatus. cbv zeta.
  destruct expiryDate as [e|].
  2: { simpl. repeat split; try done; try (by intros (? & [=] & _)); auto. }
  set (d := DateUtils.getDaysUntilExpiry now (Some e)).
  pose proof (proj1 (getDaysUntilExpiry_spec now e d) eq_refl) as S.
  assert (msPerDay = 86400000) as Md by done.
  assert (forall P : Z -> Prop, (exists e0, Some e = Some e0 /\ P e0) <-> P e) as Ex.
  { intros P. split; [by intros (? & [= <-] & ?) | intros; by exists e]. }
  rewrite !Ex.
  assert ((Some e = None \/ - msPerDay < e - now <= 0) <-> - msPerDay < e - now <= 0)
    as -> by (split; [by intros [[=]|] | auto]).
  destruct (Z.ltb_spec d 0) as [L|L]; cbn [DateUtils.status DateUtils.message].
  { repeat split; try done; try lia. intros e0 [= <-] ?. lia. }
  destruct (Z.eqb_spec d 0) as [E0|E0]; cbn [DateUtils.status DateUtils.message].
  { repeat split; try done; try lia. intros e0 [= <-] ?. lia. }
  destruct (Z.leb_spec d 7) as [L7|L7]; cbn [DateUtils.status DateUtils.message].
  - repeat split; try done; try lia.
    intros e0 [= <-] H1. assert (d = 1) as -> by lia. reflexivity.
  - repeat split; try done; try lia. intros e0 [= <-] ?. lia.
Qed.

(** ** The dose route *)

Lemma deactivated_inactive now p : active (applyUpdate (deactivated now) p) = false.
Proof. reflexivity. Qed.

(** X18. An account that the daily job deactivates cannot pass the
    subscription check of the dose route, at any time at which the check is
    made: the answer is 403. *)
Theorem deactivated_account_cannot_log_doses env now W id p expiry now' :
  patients W !! id = Some p ->
  subscriptionQuery p = true -> subscriptionExpiry p = Some expiry ->
  expiry <= now ->
  (now - msPerDay < expiry -> subscriptionMail env id ExpiredNotification = true) ->
  exists error,
    DoseValidation.checkSubscriptionStatus now' id (scheduleSubscriptionJob env now W)
    = DoseValidation.Respond 403 error.
Proof.
  intros H Q E Le Mail.
  destruct (subscription_run env now W id p expiry H Q E)
    as (p' & L & _ & _ & D0 & _ & Dneg & _).
  assert (p' = applyUpdate (deactivated now) p) as ->.
  { destruct (Z.lt_trichotomy (daysUntilExpiry now expiry) 0) as [N | [Z0 | P]].
    - by apply Dneg.
    - apply D0; [done|]. apply Mail.
      apply daysUntilExpiry_spec in Z0. lia.
    - pose proof (proj1 (daysUntilExpiry_spec now expiry _) eq_refl) as S.
      assert (msPerDay = 86400000) by done. nia. }
  unfold DoseValidation.checkSubscriptionStatus. rewrite L.
  destruct (match subscriptionExpiry (applyUpdate (deactivated now) p) with
            | Some e => e <? now' | None => false end); [by eexists|].
  rewrite deactivated_inactive. by eexists.
Qed.

Lemma accepted_after_basal env req W d :
  (logDose env req W).1 = 201 ->
  In d (doses W) -> dose_patient d = req_user req -> dose_type d = Basal ->
  20 * msPerHour <= req_timestamp req - dose_timestamp d.
Proof.
  unfold logDose. cbv zeta. intros Ok Hd Hp Ht.
  pose proof (fold_pick_inv (req_user req) (doses W) [] None) as Inv.
  fold (lastBasalDose (doses W) (req_user req)) in Inv.
  destruct (lastBasalDose (doses W) (req_user req)) as [last|].
  - destruct Inv as (_ & _ & Max); [by intros ? []|].
    specialize (Max d Hd (conj Hp Ht)).
    destruct (Z.ltb_spec (req_timestamp req - dose_timestamp last)
                (20 * (1000 * 60 * 60))) as [?|G]; [discriminate|].
    unfold msPerHour. lia.
  - exfalso. apply (Inv ltac:(by intros ? []) d Hd). by split.
Qed.

(** X19. The timestamp of a dose must be within one hour of the time of the
    request, and a dose is refused for 20 hours after a Basal dose.
    Together: after an accepted Basal dose, the next dose of the patient
    that is accepted comes at least 18 hours later in real time, as long as
    the first dose is still on record. *)
Theorem accepted_doses_are_eighteen_hours_apart
    env1 env2 now1 now2 req1 req2 W W2 :
  req_type req1 = Basal -> req_user req2 = req_user req1 ->
  DoseValidation.validateTimestamp now1 (req_timestamp req1) = DoseValidation.Valid ->
  (logDose env1 req1 W).1 = 201 ->
  (forall d, In d (doses (logDose env1 req1 W).2) -> In d (doses W2)) ->
  DoseValidation.validateTimestamp now2 (req_timestamp req2) = DoseValidation.Valid ->
  (logDose env2 req2 W2).1 = 201 ->
  20 * msPerHour <= req_timestamp req2 - req_timestamp req1
  /\ 18 * msPerHour <= now2 - now1.
Proof.
  intros Basal1 User V1 Ok1 Kept V2 Ok2.
  set (d1 := mkDose (req_user req1) (req_type req1) (req_timestamp req1)).
  assert (In d1 (doses (logDose env1 req1 W).2)) as In1.
  { destruct (logDose_cases env1 req1 W) as [E | E]; rewrite E in *; [discriminate|].
    cbn [snd]. unfold updatePatientReminderData.
    destruct (patients _ !! _); simpl; apply in_or_app; right; by left. }
  pose proof (accepted_after_basal env2 req2 W2 d1 Ok2 (Kept d1 In1)
                (eq_sym User) Basal1) as Gap.
  cbn [dose_timestamp d1] in Gap. split; [done|].
  unfold DoseValidation.validateTimestamp in V1, V2. cbv zeta in V1, V2.
  destruct (Z.ltb_spec (req_timestamp req1) (now1 - 60 * 60 * 1000)); [discriminate|].
  destruct (Z.ltb_spec (now1 + 60 * 60 * 1000) (req_timestamp req1)); [discriminate|].
  destruct (Z.ltb_spec (req_timestamp req2) (now2 - 60 * 60 * 1000)); [discriminate|].
  destruct (Z.ltb_spec (now2 + 60 * 60 * 1000) (req_timestamp req2)); [discriminate|].
  unfold msPerHour in *. lia.
Qed.

(** An account whose subscription ran out two days before the run. *)
Lemma deactivated_account_cannot_log_doses_witness :
  let now := 500 * msPerDay in
  let p := Sample.expiringAt (498 * msPerDay) Sample.dosed in
  let env := Sample.env SmsDelivered true in
  exists error,
    DoseValidation.checkSubscriptionStatus (now + msPerHour) 7
      (scheduleSubscriptionJob env now (Sample.world p))
    = DoseValidation.Respond 403 error.
Proof.
  intros now p env.
  apply (deactivated_account_cannot_log_doses env now (Sample.world p) 7 p
           (498 * msPerDay) (now + msPerHour)); sample_facts.
Defined.

(** A Basal dose at noon, logged half an hour late, and a dose the next
    morning at eight, logged on time. *)
Lemma accepted_doses_are_eighteen_hours_apart_witness :
  let env := Sample.env SmsDelivered true in
  let req1 := mkDoseRequest 7 Basal (12 * msPerHour) in
  let req2 := mkDoseRequest 7 Bolus (32 * msPerHour) in
  let W := Sample.world Sample.dosed in
  20 * msPerHour <= req_timestamp req2 - req_timestamp req1
  /\ 18 * msPerHour <= 32 * msPerHour - (12 * msPerHour + 30 * msPerMinute).
Proof.
  intros env req1 req2 W.
  apply (accepted_doses_are_eighteen_hours_apart env env
           (12 * msPerHour + 30 * msPerMinute) (32 * msPerHour) req1 req2 W
           (logDose env req1 W).2); try sample_facts.
  intros d H. exact H.
Defined.

(** * The routes *)

Module RouteFacts.
Import Routes.

Lemma save_lookup id patient profile s :
  patients (world (save id patient profile s)) !! id = Some patient.
Proof. simpl. apply lookup_insert_eq. Qed.

Lemma save_profile id patient profile s :
  profileOf id (save id patient profile s) = profile.
Proof. unfold profileOf. simpl. by rewrite lookup_insert_eq. Qed.

Lemma allowed_roles user p :
  ~ (user_role user = RoleAdmin /\ role p = RoleSuperadmin) ->
  bool_decide (user_role user = RoleAdmin) && bool_decide (role p = RoleSuperadmin)
  = false.
Proof.
  intros H. apply andb_false_iff.
  destruct (decide (user_role user = RoleAdmin)) as [E|E].
  - right. apply bool_decide_eq_false. intros E'. by apply H.
  - left. by apply bool_decide_eq_false.
Qed.

(** X20. Deactivating an account through toggle-active only flips the
    flag: whatever reason and notes the request carries (or none), the
    answer is 200, the document changes in the field [active] alone (no
    deactivation date, reason or author is recorded), and no SMS or e-mail
    goes out. *)
Theorem toggle_deactivation_records_nothing sv now user id reason notes s p :
  authorizeRoles [RoleAdmin; RoleSuperadmin] user = true ->
  patients (world s) !! id = Some p ->
  ~ (user_role user = RoleAdmin /\ role p = RoleSuperadmin) ->
  active p = true ->
  toggleActive sv now user id reason notes s
  = (200, save id (applyField (U_active false) p) (profileOf id s) s).
Proof.
  intros Auth L Roles A. unfold toggleActive.
  rewrite Auth, L, (allowed_roles _ _ Roles), A. reflexivity.
Qed.

Lemma renewed_expiry now expiry days :
  (if now <? expiry then expiry else now) + days * 24 * 60 * 60 * 1000
  = Z.max expiry now + days * msPerDay.
Proof. unfold msPerDay. destruct (Z.ltb_spec now expiry); lia. Qed.

Lemma renewalDays_positive t : 30 <= renewalDays t.
Proof. destruct t as [[]|]; simpl; lia. Qed.

Lemma smartReactivation_subscribed sv now id patient s expiry :
  subscriptionExpiry patient = Some expiry -> now < expiry ->
  smartReactivation sv now id patient s
  = match sms (jobs sv) id (SmartReactivation false) with
    | SmsThrew =>
        (patient, record (EvSms id (SmartReactivation false) SmsThrew) s)
    | o =>
        (applyUpdate
           [ U_smsReminderCycle new_user; U_hasLoggedFirstDose false;
             U_reminderAttempts 0; U_lastReminderSent None;
             U_nextReminderTime None ] patient,
         sendOut (OutReactivationMail id (reactivationMail sv id))
           (record (EvSms id (SmartReactivation false) o) s))
    end.
Proof.
  intros E Lt. unfold smartReactivation. rewrite E. cbv zeta.
  replace (expiry <=? now) with false by (symmetry; apply Z.leb_gt; lia).
  by destruct (sms (jobs sv) id (SmartReactivation false)).
Qed.

Lemma toggle_reactivation_facts sv now user id reason notes s p expiry :
  authorizeRoles [RoleAdmin; RoleSuperadmin] user = true ->
  patients (world s) !! id = Some p ->
  ~ (user_role user = RoleAdmin /\ role p = RoleSuperadmin) ->
  active p = false ->
  subscriptionExpiry p = Some expiry ->
  let result := toggleActive sv now user id reason notes s in
  let days := renewalDays (subscriptionType (profileOf id s)) in
  result.1 = 200
  /\ (exists p',
        patients (world result.2) !! id = Some p'
        /\ active p' = true
        /\ lastActivationDate p' = Some now
        /\ previousActiveState p' = Some false
        /\ subscriptionExpiry p' = Some (Z.max expiry now + days * msPerDay)
        /\ welcomeSmsSentAt p' = welcomeSmsSentAt p
        /\ verified p' = verified p /\ date p' = date p)
  /\ now + 30 * msPerDay <= Z.max expiry now + days * msPerDay
  /\ subscriptionRenewalCount (profileOf id result.2)
     = subscriptionRenewalCount (profileOf id s) + 1
  /\ journal (world result.2)
     = journal (world s)
       ++ [ EvSms id (SmartReactivation false)
              (sms (jobs sv) id (SmartReactivation false)) ].
Proof.
  intros Auth L Roles A E result days. subst result.
  pose proof (renewalDays_positive (subscriptionType (profileOf id s))) as Hd.
  fold days in Hd.
  unfold toggleActive.
  rewrite Auth, L, (allowed_roles _ _ Roles), A. cbn [negb andb applyField active].
  unfold renewOnActivation.
  cbn [set_previousActiveState set_lastActivationDate subscriptionExpiry].
  rewrite E. cbv zeta. rewrite renewed_expiry. fold days.
  rewrite (smartReactivation_subscribed _ _ _ _ _ (Z.max expiry now + days * msPerDay));
    [|reflexivity | unfold msPerDay in *; lia].
  assert (30 * msPerDay <= days * msPerDay) by (unfold msPerDay; lia).
  destruct (sms (jobs sv) id (SmartReactivation false)); cbn [fst snd];
    (split; [reflexivity|]);
    (split; [eexists; rewrite save_lookup; split; [reflexivity|]; by repeat split|]);
    (split; [lia|]); rewrite save_profile; by split.
Qed.

(** X21. Activating an account through toggle-active renews the
    subscription: an account with an expiry date gets the later of that
    date and the present instant plus 30 days (365 for a yearly
    subscription), the renewal is counted, and the activation is recorded
    with its date.  The new expiry date is in the future, so the SMS that
    the route sends is never the one for an expired subscription. *)
Theorem toggle_reactivation_renews sv now user id reason notes s p expiry :
  authorizeRoles [RoleAdmin; RoleSuperadmin] user = true ->
  patients (world s) !! id = Some p ->
  ~ (user_role user = RoleAdmin /\ role p = RoleSuperadmin) ->
  active p = false ->
  subscriptionExpiry p = Some expiry ->
  let result := toggleActive sv now user id reason notes s in
  let days := renewalDays (subscriptionType (profileOf id s)) in
  result.1 = 200
  /\ (exists p',
        patients (world result.2) !! id = Some p'
        /\ active p' = true
        /\ lastActivationDate p' = Some now
        /\ previousActiveState p' = Some false
        /\ subscriptionExpiry p' = Some (Z.max expiry now + days * msPerDay)
        /\ welcomeSmsSentAt p' = welcomeSmsSentAt p
        /\ verified p' = verified p /\ date p' = date p)
  /\ now + 30 * msPerDay <= Z.max expiry now + days * msPerDay
  /\ subscriptionRenewalCount (profileOf id result.2)
     = subscriptionRenewalCount (profileOf id s) + 1
  /\ journal (world result.2)
     = journal (world s)
       ++ [ EvSms id (SmartReactivation false)
              (sms (jobs sv) id (SmartReactivation false)) ].
Proof. apply toggle_reactivation_facts. Qed.

(** What toggle-active leaves behind when it activates an account, with or
    without an expiry date. *)
Lemma toggle_reactivation_state sv now user id reason notes s p :
  authorizeRoles [RoleAdmin; RoleSuperadmin] user = true ->
  patients (world s) !! id = Some p ->
  ~ (user_role user = RoleAdmin /\ role p = RoleSuperadmin) ->
  active p = false ->
  let result := toggleActive sv now user id reason notes s in
  exists p' k,
    result.1 = 200
    /\ patients (world result.2) !! id = Some p'
    /\ active p' = true /\ lastActivationDate p' = Some now
    /\ previousActiveState p' = Some false
    /\ welcomeSmsSentAt p' = welcomeSmsSentAt p
    /\ verified p' = verified p /\ date p' = date p
    /\ journal (world result.2)
       = journal (world s)
         ++ [ EvSms id (SmartReactivation k) (sms (jobs sv) id (SmartReactivation k)) ]
    /\ doses (world result.2) = doses (world s)
    /\ admins (world result.2) = admins (world s).
Proof.
  intros Auth L Roles A result. subst result. unfold toggleActive.
  rewrite Auth, L, (allowed_roles _ _ Roles), A. cbn [negb andb applyField active].
  unfold renewOnActivation.
  cbn [set_previousActiveState set_lastActivationDate subscriptionExpiry].
  destruct (subscriptionExpiry p) as [expiry|] eqn:E; cbv zeta;
    unfold smartReactivation; cbv zeta;
    match goal with
    | |- context [sms (jobs sv) id (SmartReactivation ?b)] =>
        destruct (sms (jobs sv) id (SmartReactivation b)) eqn:S; cbn [fst snd];
        eexists; exists b; rewrite save_lookup, S; repeat split; reflexivity
    end.
Qed.

Lemma TickSteps_reactivation_sms env now ds ads id p p' evs :
  TickSteps env now ds ads id p p' evs ->
  reactivationDue now p = true ->
  List.filter isReactivationSms evs
  = [ EvSms id (reactivationKind now p) (sms env id (reactivationKind now p)) ].
Proof.
  intros T R. apply TickSteps_inv in T
    as [(_ & _ & _ & ->) | (pre & p2 & p3 & e2 & e3 & e4 & P & S2 & S3 & S4 & ->)];
    [done|].
  destruct P as [[_ R'] | (-> & _ & Th)]; [congruence|].
  apply SendStep_frame in S2 as (_ & _ & _ & _ & F2).
  apply SendStep_frame in S3 as (_ & _ & _ & _ & F3).
  apply AdminStep_filters in S4 as (_ & F4 & _).
  rewrite !List.filter_app, F2, F3, F4, Th. reflexivity.
Qed.

(** X22. The reactivation SMS goes out twice.  toggle-active sends it at
    once but does not record that it did (welcomeSmsSentAt stays as it
    was), so the next run of the reminder job within two hours finds the
    reactivation unhandled and sends the SMS again. *)
Theorem reactivation_sms_is_sent_twice sv now user id reason notes s p env now1 :
  authorizeRoles [RoleAdmin; RoleSuperadmin] user = true ->
  patients (world s) !! id = Some p ->
  ~ (user_role user = RoleAdmin /\ role p = RoleSuperadmin) ->
  active p = false -> verified p = true ->
  (forall created, date p = Some created -> created < now) ->
  (forall handled, welcomeSmsSentAt p = Some handled -> handled < now) ->
  now <= now1 <= now + 2 * msPerHour ->
  let s1 := (toggleActive sv now user id reason notes s).2 in
  let W2 := scheduleComprehensiveReminderJob env now1 (world s1) in
  exists k1 k2,
    List.filter isReactivationSms (newEvents id (world s) W2)
    = [ EvSms id (SmartReactivation k1) (sms (jobs sv) id (SmartReactivation k1));
        EvSms id (SmartReactivation k2) (sms env id (SmartReactivation k2)) ].
Proof.
  intros Auth L Roles A V Created Handled Soon s1 W2.
  destruct (toggle_reactivation_state sv now user id reason notes s p Auth L Roles A)
    as (p1 & k1 & _ & L1 & A1 & La & Pa & Ws & V1 & D1 & J & _).
  fold s1 in L1, J.
  destruct (tick_steps env now1 (world s1) id p1 L1) as (p2 & evs & T & _ & E & _).
  fold W2 in E.
  assert (reactivationDue now1 p1 = true) as R.
  { apply reactivationDue_spec. rewrite V1, D1, Ws.
    repeat split; try done; try congruence.
    exists now. repeat split; try done. lia. }
  pose proof (TickSteps_reactivation_sms _ _ _ _ _ _ _ _ T R) as F.
  exists k1. unfold reactivationKind in F.
  eexists. erewrite newEvents_app.
  2: { rewrite E, J, eventsFor_app, <- app_assoc. f_equal. }
  rewrite List.filter_app, F. simpl. rewrite Z.eqb_refl. reflexivity.
Qed.

(** ** Renewals *)

Lemma renewSubscription_once now user (id : PatientId) s p :
  patients (world s) !! id = Some p ->
  ~ (user_role user = RolePatient /\ user_id user <> id) ->
  let base := match subscriptionExpiry p with
              | Some expiry => Z.max expiry now
              | None => now
              end in
  let days := renewalDays (subscriptionType (profileOf id s)) in
  renewSubscription now user id s
  = (200, save id (set_subscriptionExpiry (Some (base + days * msPerDay)) p)
            (profileOf id s) s).
Proof.
  intros L Own base days. unfold renewSubscription.
  assert (authorizeRoles [RoleAdmin; RoleSuperadmin; RolePatient] user = true) as ->.
  { apply bool_decide_eq_true. rewrite !elem_of_cons.
    destruct (user_role user); auto. }
  rewrite L.
  assert (bool_decide (user_role user = RolePatient) && negb (user_id user =? id)
          = false) as ->.
  { apply andb_false_iff.
    destruct (decide (user_role user = RolePatient)) as [E|E].
    - right. apply negb_false_iff, Z.eqb_eq.
      destruct (Z.eq_dec (user_id user) id); [done|]. exfalso. by apply Own.
    - left. by apply bool_decide_eq_false. }
  cbv zeta. cbn [negb]. fold days. subst base.
  destruct (subscriptionExpiry p) as [expiry|]; [by rewrite renewed_expiry|].
  unfold msPerDay. do 3 f_equal. f_equal. lia.
Qed.

(** X23. Renewals add up.  One call of renew-subscription sets the expiry
    date to the later of the old date and the present instant plus one
    period (30 days, or 365 for a yearly subscription); [n] calls in a row
    add [n] periods, so a renewal never shortens a subscription.  The
    patient may do this for the own account. *)
Theorem renewals_accumulate now user (id : PatientId) s p (n : nat) :
  patients (world s) !! id = Some p ->
  ~ (user_role user = RolePatient /\ user_id user <> id) ->
  let base := match subscriptionExpiry p with
              | Some expiry => Z.max expiry now
              | None => now
              end in
  let days := renewalDays (subscriptionType (profileOf id s)) in
  let s' := Nat.iter (S n) (fun s => (renewSubscription now user id s).2) s in
  patients (world s') !! id
  = Some (set_subscriptionExpiry (Some (base + Z.of_nat (S n) * (days * msPerDay))) p)
  /\ profileOf id s' = profileOf id s.
Proof.
  intros L Own base days. cbv zeta.
  assert (0 < days * msPerDay) as Pos.
  { pose proof (renewalDays_positive (subscriptionType (profileOf id s))) as H.
    fold days in H. unfold msPerDay. lia. }
  assert (now <= base) as Base by (subst base; destruct (subscriptionExpiry p); lia).
  induction n as [|n [IH1 IH2]]; rewrite Nat.iter_succ.
  - change (Nat.iter 0 (fun s0 => (renewSubscription now user id s0).2) s) with s.
    rewrite (renewSubscription_once now user id s p L Own).
    cbn [snd]. rewrite save_lookup, save_profile. fold base days.
    split; [|done]. do 3 f_equal. lia.
  - set (s1 := Nat.iter (S n) (fun s => (renewSubscription now user id s).2) s) in *.
    rewrite (renewSubscription_once now user id s1 _ IH1 Own).
    cbn [snd]. rewrite save_lookup, save_profile, IH2. fold days.
    split; [|done]. cbn [set_subscriptionExpiry subscriptionExpiry].
    change (Some (set_subscriptionExpiry ?v (set_subscriptionExpiry ?w p)))
      with (Some (set_subscriptionExpiry v p)).
    replace (Z.max (base + Z.of_nat (S n) * (days * msPerDay)) now
             + days * msPerDay)
      with (base + Z.of_nat (S (S n)) * (days * msPerDay)) by lia.
    reflexivity.
Qed.

(** ** Soft deletion *)

Lemma Due_isActive now ds id p c kind us :
  Due now ds id p c kind us -> isActive p = true.
Proof.
  intros D. inversion D; subst;
    match goal with
    | Q : newUsersQuery _ = true |- _ =>
        unfold newUsersQuery in Q; rewrite !andb_true_iff in Q; tauto
    | Q : activeUsersQuery _ = true |- _ =>
        unfold activeUsersQuery in Q; rewrite !andb_true_iff in Q; tauto
    end.
Qed.

(** X24. A soft-deleted patient is not reminded.  After DELETE
    /api/patients/:id the reminder job sends the patient nothing and
    alerts no admin about the patient, whenever it runs, provided the
    patient was never reactivated. *)
Theorem deleted_patient_is_not_reminded now user id s p rs :
  authorizeRoles [RoleAdmin; RoleSuperadmin] user = true ->
  patients (world s) !! id = Some p ->
  ~ (user_role user = RoleAdmin /\ role p = RoleSuperadmin) ->
  previousActiveState p <> Some false ->
  let result := deletePatient now user id s in
  result.1 = 200
  /\ patients (world result.2) !! id = Some (set_isActive false p)
  /\ deletedAt (profileOf id result.2) = Some now
  /\ patients (ticks rs (world result.2)) !! id = Some (set_isActive false p)
  /\ newEvents id (world result.2) (ticks rs (world result.2)) = [].
Proof.
  intros Auth L Roles Pa result. subst result. unfold deletePatient.
  rewrite Auth, L, (allowed_roles _ _ Roles). cbn [negb fst snd].
  rewrite save_lookup, save_profile.
  split; [done|]. split; [done|]. split; [done|].
  edestruct (ticks_silent rs) as (L' & E' & _);
    [apply save_lookup | |
     | split; [exact L' | apply newEvents_none; exact E']].
  - apply Forall_forall. intros r _. split; [by apply never_reactivated|].
    intros c kind us D. by apply Due_isActive in D.
  - left. unfold inactiveUsersQuery. cbn [set_isActive isActive].
    by rewrite andb_false_r.
Qed.

(** ** E-mail verification *)

Lemma newUsersQuery_fields p :
  newUsersQuery p = true <->
  role p = RolePatient /\ active p = true /\ verified p = true
  /\ smsReminderCycle p = new_user /\ welcomeSmsSent p = true
  /\ is_Some (welcomeSmsSentAt p) /\ hasLoggedFirstDose p = false
  /\ isActive p = true.
Proof.
  unfold newUsersQuery.
  rewrite !andb_true_iff, !bool_decide_eq_true, negb_true_iff. tauto.
Qed.

(** A verification with a valid token for an existing patient. *)
Lemma verifyEmail_valid sv now token s t p :
  tokens s !! token = Some t ->
  type t = emailVerification -> now < expiresAt t ->
  patients (world s) !! userId t = Some p ->
  let id := userId t in
  let verified := applyField (U_active true) (set_verified true p) in
  let welcomed :=
    set_lastActivationDate (Some now)
      (applyField (U_welcomeSmsSentAt (Some now)) (set_welcomeSmsSent true verified)) in
  exists s',
    verifyEmail sv now token s = (200, s')
    /\ tokens s' = delete token (tokens s)
    /\ patients (world s') !! id
       = Some (if bool_decide (welcomeSms sv id = SmsDelivered)
               then welcomed else verified)
    /\ doses (world s') = doses (world s)
    /\ admins (world s') = admins (world s)
    /\ journal (world s') = journal (world s)
    /\ outbox s' = outbox s ++ [OutWelcomeSms id (welcomeSms sv id)].
Proof.
  intros T Ty Ex L id verified welcomed. subst id. unfold verifyEmail.
  rewrite T, Ty. rewrite bool_decide_eq_true_2 by done.
  replace (now <? expiresAt t) with true by (symmetry; by apply Z.ltb_lt).
  cbn [negb andb]. rewrite L. cbv zeta.
  destruct (welcomeSms sv (userId t)) eqn:S; eexists; (split; [reflexivity|]);
    cbn [world tokens outbox save sendOut patients doses admins journal];
    rewrite ?lookup_insert_eq; repeat split; reflexivity.
Qed.

(** X25. A verification link works once.  A token that is unknown, of the
    other type or expired is refused with 400 and changes nothing; a
    successful verification deletes its token, so the same link is refused
    from then on. *)
Theorem verification_token_is_single_use sv now token s :
  let result := verifyEmail sv now token s in
  (forall t, tokens s !! token = Some t ->
     type t <> emailVerification \/ expiresAt t <= now ->
     result = (400, s))
  /\ (tokens s !! token = None -> result = (400, s))
  /\ (result.1 = 200 ->
      forall sv' now',
        verifyEmail sv' now' token result.2 = (400, result.2)).
Proof.
  intros result. subst result. split; [|split].
  - intros t T Bad. unfold verifyEmail. rewrite T.
    destruct Bad as [Ty | Ex].
    + by rewrite (bool_decide_eq_false_2 _ Ty).
    + replace (now <? expiresAt t) with false by (symmetry; apply Z.ltb_ge; lia).
      by rewrite andb_false_r.
  - intros T. unfold verifyEmail. by rewrite T.
  - intros Ok sv' now'. unfold verifyEmail in Ok |- *.
    destruct (tokens s !! token) as [t|] eqn:T; [|discriminate].
    destruct (negb _); [discriminate|].
    destruct (patients (world s) !! userId t); [|discriminate].
    cbv zeta. cbn [snd tokens]. by rewrite lookup_delete_eq.
Qed.


(** X27. A patient who is verified and welcomed at some instant gets the
    first new-user reminder from the first run of the job that comes six
    hours later or more, and nothing before; the verification itself is
    not taken for a reactivation. *)
Theorem verified_patient_is_reminded_after_six_hours sv now token s t p env now1 :
  tokens s !! token = Some t ->
  type t = emailVerification -> now < expiresAt t ->
  patients (world s) !! userId t = Some p ->
  welcomeSms sv (userId t) = SmsDelivered ->
  role p = RolePatient -> isActive p = true -> hasPhone p = true ->
  smsReminderCycle p = new_user -> hasLoggedFirstDose p = false ->
  reminderAttempts p = 0 -> previousActiveState p <> Some false ->
  doseSince (doses (world s)) (userId t) now = false ->
  let s1 := (verifyEmail sv now token s).2 in
  let W2 := scheduleComprehensiveReminderJob env now1 (world s1) in
  (now1 < now + 6 * msPerHour -> newEvents (userId t) (world s1) W2 = [])
  /\ (now + 6 * msPerHour <= now1 ->
      In (EvSms (userId t) (NewUserReminder 1) (sms env (userId t) (NewUserReminder 1)))
         (newEvents (userId t) (world s1) W2)
      /\ List.filter isReactivationSms (newEvents (userId t) (world s1) W2) = []).
Proof.
  intros T Ty Ex L Ok R Ia Ph C Hf A Pa Ds s1 W2.
  destruct (verifyEmail_valid sv now token s t p T Ty Ex L)
    as (s' & Es & _ & L' & Dd & _).
  subst s1 W2. rewrite Es. cbn [snd].
  rewrite (bool_decide_eq_true_2 _ Ok) in L'.
  set (p1 := set_lastActivationDate _ _) in L'.
  destruct (tick_steps env now1 (world s') (userId t) p1 L')
    as (p2 & evs & St & _ & E & _).
  rewrite (newEvents_app _ _ _ _ E).
  assert (reactivationDue now1 p1 = false) as NoR by by apply never_reactivated.
  assert (newUsersQuery p1 = true) as Q.
  { apply newUsersQuery_fields. by repeat split. }
  split.
  - intros Early.
    eapply (TickSteps_silent _ _ _ _ _ _ _ _ St NoR).
    + intros c kind us D.
      pose proof (Due_facts _ _ _ _ _ _ _ D) as (Cy & _).
      inversion D; subst; cbn in *; try congruence.
      match goal with X : Some _ = Some _ |- _ => injection X as <- end. lia.
    + left. unfold inactiveUsersQuery. cbn. rewrite C.
      rewrite (bool_decide_eq_false_2 (new_user = inactive_user)) by done.
      by rewrite !andb_false_r.
  - intros Late.
    assert (Due now1 (doses (world s')) (userId t) p1 new_user (NewUserReminder 1)
              [U_reminderAttempts 1; U_lastReminderSent (Some now1)]) as D.
    { apply (Due_newUser6h now1 _ _ p1 now); try done. by rewrite Dd. }
    destruct (TickSteps_due _ _ _ _ _ _ _ _ _ _ _ St NoR D) as (_ & _ & I).
    split; [done|].
    apply TickSteps_reactivation in St as [St _].
    destruct (List.filter isReactivationSms evs) eqn:F; [done|].
    exfalso. assert (reactivationDue now1 p1 = true) by (apply St; done).
    congruence.
Qed.

(** ** Activation in bulk *)

Lemma updateMany_lookup f g (id : PatientId) ids : forall s q,
  (forall x, role (f x) = role x) -> (forall x, f (f x) = f x) ->
  patients (world s) !! id = Some q -> role q = RolePatient ->
  patients (world (updateMany ids f g s)) !! id
  = Some (if bool_decide (id ∈ ids) then f q else q).
Proof.
  unfold updateMany. intros s q Hr Hf.
  revert s q. induction ids as [|k ids IH]; intros s q L R; [done|].
  cbn [fold_left].
  destruct (decide (k = id)) as [->|Ne].
  - rewrite L, (bool_decide_eq_true_2 _ R).
    rewrite (IH _ (f q)); [| apply save_lookup | rewrite Hr; exact R].
    rewrite (bool_decide_eq_true_2 (id ∈ id :: ids)) by (apply elem_of_cons; by left).
    rewrite Hf. by destruct (bool_decide (id ∈ ids)).
  - assert (bool_decide (id ∈ k :: ids) = bool_decide (id ∈ ids)) as ->.
    { apply bool_decide_ext. rewrite elem_of_cons.
      split; [intros [?|?]; [congruence | done] | by right]. }
    destruct (patients (world s) !! k) as [pk|] eqn:Lk; [|by apply IH].
    destruct (bool_decide (role pk = RolePatient)); [|by apply IH].
    apply IH; [|done]. cbn [save world patients].
    by rewrite lookup_insert_ne.
Qed.

Lemma bulk_activate now user ids s :
  authorizeRoles [RoleAdmin; RoleSuperadmin] user = true -> ids <> [] ->
  bulkPatientAction now user "activate" ids s
  = (200, updateMany ids (applyField (U_active true)) (fun pr => pr) s).
Proof.
  intros Auth Ne. unfold bulkPatientAction. rewrite Auth.
  destruct ids; [done|]. reflexivity.
Qed.

(** X28. Activating accounts in bulk only sets the flag.  An account whose
    subscription has run out stays locked out: the subscription check of
    the dose route keeps answering 403, and the next run of the daily job
    more than a day after the expiry date deactivates the account again. *)
Theorem bulk_activation_does_not_renew now user ids s (id : PatientId) p expiry
    env now1 :
  authorizeRoles [RoleAdmin; RoleSuperadmin] user = true ->
  id ∈ ids ->
  patients (world s) !! id = Some p ->
  role p = RolePatient -> verified p = true -> isActive p = true ->
  subscriptionExpiry p = Some expiry ->
  expiry + msPerDay <= now1 ->
  let result := bulkPatientAction now user "activate" ids s in
  result.1 = 200
  /\ patients (world result.2) !! id = Some (applyField (U_active true) p)
  /\ (forall now', expiry < now' ->
        DoseValidation.checkSubscriptionStatus now' id (world result.2)
        = DoseValidation.Respond 403 (Some "SUBSCRIPTION_EXPIRED"%string))
  /\ patients (scheduleSubscriptionJob env now1 (world result.2)) !! id
     = Some (applyUpdate (deactivated now1) (applyField (U_active true) p)).
Proof.
  intros Auth In L R V Ia E Late result. subst result.
  rewrite bulk_activate; [|done | intros ->; by apply elem_of_nil in In].
  cbn [fst snd].
  set (s1 := updateMany ids _ _ s).
  assert (patients (world s1) !! id = Some (applyField (U_active true) p)) as L1.
  { subst s1. rewrite (updateMany_lookup _ _ id ids s p); try done.
    by rewrite (bool_decide_eq_true_2 _ In). }
  split; [done|]. split; [done|]. split.
  - intros now' Exp. unfold DoseValidation.checkSubscriptionStatus.
    rewrite L1. cbn [applyField subscriptionExpiry]. rewrite E.
    by replace (expiry <? now') with true by (symmetry; by apply Z.ltb_lt).
  - destruct (subscription_run env now1 (world s1) id _ expiry L1)
      as (p' & L2 & _ & _ & _ & _ & Neg & _).
    + unfold subscriptionQuery. cbn. by rewrite V, Ia, E.
    + done.
    + rewrite L2. f_equal. apply Neg.
      destruct (Z.lt_ge_cases (daysUntilExpiry now1 expiry) 0) as [?|G]; [done|].
      pose proof (proj1 (daysUntilExpiry_spec now1 expiry _) eq_refl) as S.
      unfold msPerDay in *. nia.
Qed.

(** X29. Activating an account through toggle-active gives access back:
    for a verified account with an expiry date, the subscription check of
    the dose route lets the patient through from the activation on, for
    30 days at least. *)
Theorem toggle_reactivation_restores_access sv now user id reason notes s p
    expiry now' :
  authorizeRoles [RoleAdmin; RoleSuperadmin] user = true ->
  patients (world s) !! id = Some p ->
  ~ (user_role user = RoleAdmin /\ role p = RoleSuperadmin) ->
  active p = false -> verified p = true ->
  subscriptionExpiry p = Some expiry ->
  now' <= now + 30 * msPerDay ->
  DoseValidation.checkSubscriptionStatus now' id
    (world (toggleActive sv now user id reason notes s).2)
  = DoseValidation.Next.
Proof.
  intros Auth L Roles A V E Within.
  destruct (toggle_reactivation_facts sv now user id reason notes s p expiry
              Auth L Roles A E)
    as (_ & (p' & L' & A' & _ & _ & E' & _ & V' & _) & Far & _).
  unfold DoseValidation.checkSubscriptionStatus. rewrite L', E', A', V', V.
  by replace (_ <? now') with false by (symmetry; apply Z.ltb_ge; lia).
Qed.

End RouteFacts.

Ltac route_facts :=
  first [ reflexivity
        | discriminate
        | (intros [_ ?]; first [discriminate | congruence])
        | (intros [_ H]; apply H; reflexivity)
        | (apply elem_of_cons; left; reflexivity)
        | (intros [? _]; discriminate)
        | (intros ? [= <-]; vm_compute; reflexivity)
        | (vm_compute; discriminate)
        | (vm_compute; reflexivity)
        | (unfold msPerHour, msPerMinute, msPerDay; lia) ].

(** The sample patient is deactivated with no reason given. *)
Lemma toggle_deactivation_records_nothing_witness :
  let s := RouteSample.server Sample.dosed in
  Routes.toggleActive RouteSample.services 1000 RouteSample.admin 7 None None s
  = (200, Routes.save 7 (applyField (U_active false) Sample.dosed)
            (Routes.profileOf 7 s) s).
Proof.
  intros s.
  apply (RouteFacts.toggle_deactivation_records_nothing RouteSample.services 1000
           RouteSample.admin 7 None None s Sample.dosed); route_facts.
Defined.

(** The lapsed account is activated at time 1000: the subscription now runs
    until 30 days after that. *)
Lemma toggle_reactivation_renews_witness :
  let result :=
    Routes.toggleActive RouteSample.services 1000 RouteSample.admin 7 None None
      (RouteSample.server RouteSample.lapsed) in
  result.1 = 200
  /\ exists p',
       patients (Routes.world result.2) !! 7 = Some p'
       /\ subscriptionExpiry p' = Some (1000 + 30 * msPerDay).
Proof.
  intros result.
  destruct (RouteFacts.toggle_reactivation_renews RouteSample.services 1000
              RouteSample.admin 7 None None (RouteSample.server RouteSample.lapsed)
              RouteSample.lapsed 0)
    as (Ok & (p' & L & _ & _ & _ & E & _) & _); [route_facts..|].
  split; [exact Ok|]. exists p'. split; [exact L | exact E].
Defined.

(** The lapsed account is activated at time 1000 and the job runs half an
    hour later. *)
Lemma reactivation_sms_is_sent_twice_witness :
  let s1 :=
    (Routes.toggleActive RouteSample.services 1000 RouteSample.admin 7 None None
       (RouteSample.server RouteSample.lapsed)).2 in
  let W2 :=
    scheduleComprehensiveReminderJob (Sample.env SmsDelivered true)
      (1000 + 30 * msPerMinute) (Routes.world s1) in
  exists k1 k2,
    List.filter isReactivationSms
      (newEvents 7 (Routes.world (RouteSample.server RouteSample.lapsed)) W2)
    = [ EvSms 7 (SmartReactivation k1) SmsDelivered;
        EvSms 7 (SmartReactivation k2) SmsDelivered ].
Proof.
  intros s1 W2.
  apply (RouteFacts.reactivation_sms_is_sent_twice RouteSample.services 1000
           RouteSample.admin 7 None None (RouteSample.server RouteSample.lapsed)
           RouteSample.lapsed (Sample.env SmsDelivered true)
           (1000 + 30 * msPerMinute)); route_facts.
Defined.

(** The patient renews the own subscription, which ended at time 0, twice at
    time 1000. *)
Lemma renewals_accumulate_witness :
  let user := Routes.mkUser 7 RolePatient in
  let s := RouteSample.server RouteSample.lapsed in
  let s' := (Routes.renewSubscription 1000 user 7
               (Routes.renewSubscription 1000 user 7 s).2).2 in
  patients (Routes.world s') !! 7
  = Some (Routes.set_subscriptionExpiry (Some (1000 + 2 * (30 * msPerDay)))
            RouteSample.lapsed).
Proof.
  intros user s s'.
  destruct (RouteFacts.renewals_accumulate 1000 user 7 s RouteSample.lapsed 1)
    as (L & _); [route_facts..|].
  exact L.
Defined.

(** The sample patient is soft-deleted at time 1000; the job runs at 24 and
    at 25 hours. *)
Lemma deleted_patient_is_not_reminded_witness :
  let result :=
    Routes.deletePatient 1000 RouteSample.admin 7 (RouteSample.server Sample.dosed) in
  let env := Sample.env SmsDelivered true in
  result.1 = 200
  /\ newEvents 7 (Routes.world result.2)
       (ticks [(env, 24 * msPerHour); (env, 25 * msPerHour)] (Routes.world result.2))
     = [].
Proof.
  intros result env.
  destruct (RouteFacts.deleted_patient_is_not_reminded 1000 RouteSample.admin 7
              (RouteSample.server Sample.dosed) Sample.dosed
              [(env, 24 * msPerHour); (env, 25 * msPerHour)])
    as (Ok & _ & _ & _ & E); [route_facts..|].
  split; [exact Ok | exact E].
Defined.

(** The registered patient follows the verification link twice. *)
Lemma verification_token_is_single_use_witness :
  let result :=
    Routes.verifyEmail RouteSample.services 1000 "c0ffee"
      (RouteSample.server RouteSample.registered) in
  result.1 = 200
  /\ Routes.verifyEmail RouteSample.services 2000 "c0ffee" result.2
     = (400, result.2).
Proof.
  intros result. split; [reflexivity|].
  apply (proj2 (proj2 (RouteFacts.verification_token_is_single_use
                         RouteSample.services 1000 "c0ffee"
                         (RouteSample.server RouteSample.registered)))).
  reflexivity.
Defined.


(** The registered patient is verified and welcomed at time 1000; the job
    runs at 7 hours. *)
Lemma verified_patient_is_reminded_after_six_hours_witness :
  let s1 :=
    (Routes.verifyEmail RouteSample.services 1000 "c0ffee"
       (RouteSample.server RouteSample.registered)).2 in
  let env := Sample.env SmsDelivered true in
  In (EvSms 7 (NewUserReminder 1) SmsDelivered)
     (newEvents 7 (Routes.world s1)
        (scheduleComprehensiveReminderJob env (7 * msPerHour) (Routes.world s1))).
Proof.
  intros s1 env.
  destruct (RouteFacts.verified_patient_is_reminded_after_six_hours
              RouteSample.services 1000 "c0ffee"
              (RouteSample.server RouteSample.registered)
              (Routes.mkToken 7 Routes.emailVerification msPerHour)
              RouteSample.registered env (7 * msPerHour))
    as (_ & Late); [route_facts..|].
  apply Late. unfold msPerHour. lia.
Defined.

(** The lapsed account is activated in bulk at time 1000; the daily job runs
    at two days. *)
Lemma bulk_activation_does_not_renew_witness :
  let result :=
    Routes.bulkPatientAction 1000 RouteSample.admin "activate" [7]
      (RouteSample.server RouteSample.lapsed) in
  let env := Sample.env SmsDelivered true in
  result.1 = 200
  /\ DoseValidation.checkSubscriptionStatus 2000 7 (Routes.world result.2)
     = DoseValidation.Respond 403 (Some "SUBSCRIPTION_EXPIRED"%string)
  /\ patients (scheduleSubscriptionJob env (2 * msPerDay) (Routes.world result.2)) !! 7
     = Some (applyUpdate (deactivated (2 * msPerDay))
               (applyField (U_active true) RouteSample.lapsed)).
Proof.
  intros result env.
  destruct (RouteFacts.bulk_activation_does_not_renew 1000 RouteSample.admin [7]
              (RouteSample.server RouteSample.lapsed) 7 RouteSample.lapsed 0
              env (2 * msPerDay))
    as (Ok & _ & Gate & Job); [route_facts..|].
  split; [exact Ok|]. split; [apply Gate; lia | exact Job].
Defined.

(** The lapsed account is activated at time 1000; the check is made 29 days
    later. *)
Lemma toggle_reactivation_restores_access_witness :
  DoseValidation.checkSubscriptionStatus (29 * msPerDay) 7
    (Routes.world
       (Routes.toggleActive RouteSample.services 1000 RouteSample.admin 7 None None
          (RouteSample.server RouteSample.lapsed)).2)
  = DoseValidation.Next.
Proof.
  apply (RouteFacts.toggle_reactivation_restores_access RouteSample.services 1000
           RouteSample.admin 7 None None (RouteSample.server RouteSample.lapsed)
           RouteSample.lapsed 0 (29 * msPerDay)); route_facts.
Defined.
